(** * ConvoAI service: agent invitation and removal

    A shallow embedding of the [convoai] package of convo-ai-go-server
    (convoai-types.go, convoai-utils.go and the three files joined to it:
    the invite handler, the remove handler and the gin route handlers),
    with the theorems that relate it to its specification.

    Go strings are byte sequences: they are Rocq [string]s, one [ascii] per
    byte, and [len] is [String.length].  A [float64] is a primitive binary64
    float.  A [(T, error)] result is an [Outcome]; an [error] is the text
    [err.Error()] yields. *)

From Stdlib Require Import ZArith Ascii String Floats.PrimFloat.
From stdpp Require Import base option list strings gmap pretty.

Set Default Proof Using "Type".
Set Warnings "-inexact-float".

Local Open Scope string_scope.
Local Open Scope Z_scope.

(** ** Go data *)

Definition error := string.
Definition float64 := PrimFloat.float.
Definition rune := Z.

(** A Go slice of strings: [None] is the nil slice. *)
Definition slice (A : Type) := option (list A).

Definition len {A} (s : slice A) : nat :=
  match s with None => 0%nat | Some l => length l end.

Definition byte_val (c : ascii) : Z := Z.of_N (Ascii.N_of_ascii c).

(** ** Ranging over a string

    [for _, r := range s] decodes UTF-8: every iteration yields one rune
    and its width in bytes; a byte that starts no valid encoding yields
    U+FFFD with width 1. *)
Module utf8.

Definition RuneError : rune := 65533.

Definition in_range (lo hi b : Z) : bool := (lo <=? b) && (b <=? hi).

Definition cont (b : Z) : bool := in_range 128 191 b.

(** The bounds of the second byte, by first byte (the table of
    unicode/utf8: overlong forms and surrogates are excluded). *)
Definition second_bounds (b0 : Z) : Z * Z :=
  if b0 =? 224 then (160, 191)
  else if b0 =? 237 then (128, 159)
  else if b0 =? 240 then (144, 191)
  else if b0 =? 244 then (128, 143)
  else (128, 191).

Definition DecodeRuneInString (s : string) : rune * nat :=
  match s with
  | EmptyString => (RuneError, 0%nat)
  | String c0 s1 =>
    let b0 := byte_val c0 in
    if b0 <? 128 then (b0, 1%nat)
    else
      let '(lo, hi) := second_bounds b0 in
      if in_range 194 223 b0 then
        match s1 with
        | String c1 _ =>
          let b1 := byte_val c1 in
          if in_range lo hi b1
          then (Z.lor (Z.shiftl (Z.land b0 31) 6) (Z.land b1 63), 2%nat)
          else (RuneError, 1%nat)
        | _ => (RuneError, 1%nat)
        end
      else if in_range 224 239 b0 then
        match s1 with
        | String c1 (String c2 _) =>
          let b1 := byte_val c1 in
          let b2 := byte_val c2 in
          if in_range lo hi b1 && cont b2
          then (Z.lor (Z.shiftl (Z.land b0 15) 12)
                  (Z.lor (Z.shiftl (Z.land b1 63) 6) (Z.land b2 63)), 3%nat)
          else (RuneError, 1%nat)
        | _ => (RuneError, 1%nat)
        end
      else if in_range 240 244 b0 then
        match s1 with
        | String c1 (String c2 (String c3 _)) =>
          let b1 := byte_val c1 in
          let b2 := byte_val c2 in
          let b3 := byte_val c3 in
          if in_range lo hi b1 && cont b2 && cont b3
          then (Z.lor (Z.shiftl (Z.land b0 7) 18)
                  (Z.lor (Z.shiftl (Z.land b1 63) 12)
                     (Z.lor (Z.shiftl (Z.land b2 63) 6) (Z.land b3 63))),
                4%nat)
          else (RuneError, 1%nat)
        | _ => (RuneError, 1%nat)
        end
      else (RuneError, 1%nat)
  end.

End utf8.

(** ** convoai-utils.go: isStringUID

    The loop of [isStringUID]: [skip] counts the bytes of the rune being
    consumed that are still ahead, so the recursion is on the bytes. *)
Fixpoint isStringUID_from (skip : nat) (s : string) : bool :=
  match s with
  | EmptyString => false
  | String _ s' =>
    match skip with
    | S k => isStringUID_from k s'
    | O =>
      let '(r, width) := utf8.DecodeRuneInString s in
      if (r <? 48) || (r >? 57) then true
      else isStringUID_from (Nat.pred width) s'
    end
  end.

Definition isStringUID (s : string) : bool := isStringUID_from 0 s.

Definition is_digit (c : ascii) : bool :=
  (48 <=? byte_val c) && (byte_val c <=? 57).

Fixpoint all_digits (s : string) : bool :=
  match s with
  | EmptyString => true
  | String c s' => is_digit c && all_digits s'
  end.

(** ** convoai-types.go *)

Module InviteAgentRequest.
Record t := mk {
  RequesterID : string;
  ChannelName : string;
  RtcCodec : option Z;
  InputModalities : slice string;
  OutputModalities : slice string }.
End InviteAgentRequest.

Module RemoveAgentRequest.
Record t := mk { AgentID : string }.
End RemoveAgentRequest.

Definition TTSVendor := string.
Definition TTSVendorMicrosoft : TTSVendor := "microsoft".
Definition TTSVendorElevenLabs : TTSVendor := "elevenlabs".

(** A value of type [interface{}]: the dynamic types that the service
    stores in one or that encoding/json decodes into one. *)
#[warnings="-register-all"]
Inductive any :=
| ANil
| ABool (b : bool)
| AFloat64 (f : float64)
| AString (s : string)
| ASlice (l : list any)
| AMap (m : gmap string any).

Module TTSConfig.
Record t := mk {
  Vendor : TTSVendor;
  Params : gmap string any }.
End TTSConfig.

Module ASR.
Record t := mk { Language : string; Task : string }.
End ASR.

Module SystemMessage.
Record t := mk { Role : string; Content : string }.
End SystemMessage.

Module LLMParams.
Record t := mk {
  Model : string;
  MaxTokens : Z;
  Temperature : float64;
  TopP : float64 }.
End LLMParams.

Module LLM.
Record t := mk {
  URL : string;
  APIKey : string;
  SystemMessages : list SystemMessage.t;
  GreetingMessage : string;
  FailureMessage : string;
  MaxHistory : Z;
  Params : LLMParams.t;
  InputModalities : slice string;
  OutputModalities : slice string }.
End LLM.

Module VAD.
Record t := mk {
  SilenceDurationMS : Z;
  SpeechDurationMS : Z;
  Threshold : float64;
  InterruptDurationMS : Z;
  PrefixPaddingMS : Z }.
End VAD.

Module Features.
Record t := mk { EnableAIVAD : bool; EnableBHVS : bool }.
End Features.

Module Properties.
Record t := mk {
  Channel : string;
  Token : string;
  AgentRtcUID : string;
  RemoteRtcUIDs : slice string;
  EnableStringUID : bool;
  IdleTimeout : Z;
  ASR : ASR.t;
  LLM : LLM.t;
  TTS : TTSConfig.t;
  VAD : VAD.t;
  AdvancedFeatures : Features.t }.
End Properties.

Module AgoraStartRequest.
Record t := mk { Name : string; Properties : Properties.t }.
End AgoraStartRequest.

Module InviteAgentResponse.
Record t := mk { AgentID : string; CreateTS : Z; Status : string }.
End InviteAgentResponse.

Module RemoveAgentResponse.
Record t := mk { Success : bool; AgentID : string }.
End RemoveAgentResponse.

Module MicrosoftTTSConfig.
Record t := mk {
  Key : string;
  Region : string;
  VoiceName : string;
  Rate : string;
  Volume : string }.
End MicrosoftTTSConfig.

(** The first field is read as [Key] by every user of the struct
    (getTTSConfig, the startup validation, the configuration loader and the
    tests); convoai-types.go spells it [APIKey]. *)
Module ElevenLabsTTSConfig.
Record t := mk { Key : string; VoiceID : string; ModelID : string }.
End ElevenLabsTTSConfig.

(** [MicrosoftTTS] and [ElevenLabsTTS] are pointers: [None] is nil. *)
Module ConvoAIConfig.
Record t := mk {
  AppID : string;
  AppCertificate : string;
  CustomerID : string;
  CustomerSecret : string;
  BaseURL : string;
  AgentUID : string;
  LLMModel : string;
  LLMURL : string;
  LLMToken : string;
  TTSVendor : string;
  MicrosoftTTS : option MicrosoftTTSConfig.t;
  ElevenLabsTTS : option ElevenLabsTTSConfig.t;
  InputModalities : string;
  OutputModalities : string }.
End ConvoAIConfig.

(** ** token_service: the request type and the interface the service holds *)

Module TokenRequest.
Record t := mk {
  TokenType : string;
  Channel : string;
  RtcRole : string;
  Uid : string;
  ExpirationSeconds : Z }.
End TokenRequest.

Record TokenGenerator := {
  GenRtcToken : TokenRequest.t -> string * option error }.

Record ConvoAIService := {
  config : ConvoAIConfig.t;
  tokenService : TokenGenerator }.

(** ** net/http data *)

Definition Header := gmap string (list string).

Definition Header_Set (k v : string) (h : Header) : Header := <[k := [v]]> h.

Module Request.
Record t := mk {
  Method : string;
  URL : string;
  Body : option string;
  Header : Header }.
End Request.

Module Response.
Record t := mk { StatusCode : Z; Body : string }.
End Response.

Definition StatusOK : Z := 200.
Definition StatusBadRequest : Z := 400.
Definition StatusInternalServerError : Z := 500.

(** A point in time, in nanoseconds since the Unix epoch. *)
Definition Time := Z.
Definition UnixNano (t : Time) : Z := t.
Definition Unix (t : Time) : Z := t / 1000000000.

(** ** The world outside the package

    What the code calls and does not define: strconv, encoding/json,
    net/http, fmt's rendering of a header map, the clock and the random
    source.  A [(T, error)] pair is kept as Go returns it. *)
Record Runtime := {
  strconv_ParseFloat : string -> Z -> float64 * option error;
  json_Marshal : AgoraStartRequest.t -> string * option error;
  json_MarshalIndent : AgoraStartRequest.t -> string -> string -> string;
  json_Decode : string -> gmap string any * option error;
  http_NewRequest_err : string -> string -> option error;
  client_Do : Z -> Request.t -> Response.t * option error;
  fmt_Header : Header -> string;
  time_Now_name : Time;
  time_Now_reply : Time;
  rand_Read : nat -> list ascii }.

(** ** Results and effects

    A call ends with a value, with an error, or in a panic; on the way it
    leaves the calls it made to the outside, in order. *)
Inductive Outcome (A : Type) :=
| Ret (a : A)
| Err (e : error)
| Panic (msg : string).
Arguments Ret {A} a.
Arguments Err {A} e.
Arguments Panic {A} msg.

Inductive Event :=
| EvGenRtcToken (req : TokenRequest.t)
| EvPrintf (out : string)
| EvDo (timeout_s : Z) (req : Request.t).

Definition M (A : Type) : Type := Outcome A * list Event.

#[export] Instance M_ret : MRet M := fun A a => (Ret a, []).

#[export] Instance M_bind : MBind M := fun A B f m =>
  match m with
  | (Ret a, tr) => let '(o, tr') := f a in (o, (tr ++ tr')%list)
  | (Err e, tr) => (Err e, tr)
  | (Panic msg, tr) => (Panic msg, tr)
  end.

Definition throw {A} (e : error) : M A := (Err e, []).
Definition panic {A} (msg : string) : M A := (Panic msg, []).
Definition emit (ev : Event) : M unit := (Ret tt, [ev]).

Definition outcome {A} (m : M A) : Outcome A := m.1.
Definition trace {A} (m : M A) : list Event := m.2.

(** [if err != nil { return nil, wrap(err) }] *)
Definition check_nil (err : option error) (wrap : error -> error) : M unit :=
  match err with
  | Some e => throw (wrap e)
  | None => mret tt
  end.

(** ** encoding/base64, strings and fmt helpers *)

Definition nl : string := String (Ascii.ascii_of_nat 10) EmptyString.
Definition dquote : string := String (Ascii.ascii_of_nat 34) EmptyString.

Module base64.

Definition encodeStd : string :=
  "ABCDEFGHIJKLMNOPQRSTUVWXYZabcdefghijklmnopqrstuvwxyz0123456789+/".

Definition enc (i : Z) : ascii :=
  default "="%char (String.get (Z.to_nat (Z.land i 63)) encodeStd).

Definition pad : ascii := "="%char.

(** [StdEncoding.EncodeToString]: three bytes give four characters, and
    the last group is padded. *)
Fixpoint EncodeToString (src : string) : string :=
  match src with
  | EmptyString => EmptyString
  | String a EmptyString =>
    let v := Z.shiftl (byte_val a) 16 in
    String (enc (Z.shiftr v 18)) (String (enc (Z.shiftr v 12))
      (String pad (String pad EmptyString)))
  | String a (String b EmptyString) =>
    let v := Z.lor (Z.shiftl (byte_val a) 16) (Z.shiftl (byte_val b) 8) in
    String (enc (Z.shiftr v 18)) (String (enc (Z.shiftr v 12))
      (String (enc (Z.shiftr v 6)) (String pad EmptyString)))
  | String a (String b (String c rest)) =>
    let v := Z.lor (Z.shiftl (byte_val a) 16)
               (Z.lor (Z.shiftl (byte_val b) 8) (byte_val c)) in
    String (enc (Z.shiftr v 18)) (String (enc (Z.shiftr v 12))
      (String (enc (Z.shiftr v 6)) (String (enc v) (EncodeToString rest))))
  end.

End base64.

(** ** convoai-utils.go *)

Definition getBasicAuth (s : ConvoAIService) : string :=
  let auth := ConvoAIConfig.CustomerID (config s) +:+ ":" +:+
              ConvoAIConfig.CustomerSecret (config s) in
  "Basic " +:+ base64.EncodeToString auth.

Definition is_empty (s : string) : bool := String.eqb s "".

(** The result is the pair Go returns: a pointer that may be nil and an
    error that may be nil. *)
Definition getTTSConfig (rt : Runtime) (s : ConvoAIService)
  : option TTSConfig.t * option error :=
  let vendor := ConvoAIConfig.TTSVendor (config s) in
  if String.eqb vendor TTSVendorMicrosoft then
    match ConvoAIConfig.MicrosoftTTS (config s) with
    | None => (None, Some "missing Microsoft TTS configuration")
    | Some ms =>
      if is_empty (MicrosoftTTSConfig.Key ms)
         || is_empty (MicrosoftTTSConfig.Region ms)
         || is_empty (MicrosoftTTSConfig.VoiceName ms)
         || is_empty (MicrosoftTTSConfig.Rate ms)
         || is_empty (MicrosoftTTSConfig.Volume ms)
      then (None, Some "missing Microsoft TTS configuration")
      else
        let '(rate, err) := strconv_ParseFloat rt (MicrosoftTTSConfig.Rate ms) 64 in
        match err with
        | Some e => (None, Some ("invalid rate value: " +:+ e))
        | None =>
          let '(volume, err) :=
            strconv_ParseFloat rt (MicrosoftTTSConfig.Volume ms) 64 in
          match err with
          | Some e => (None, Some ("invalid volume value: " +:+ e))
          | None =>
            (Some {| TTSConfig.Vendor := TTSVendorMicrosoft;
                     TTSConfig.Params :=
                       <["key" := AString (MicrosoftTTSConfig.Key ms)]>
                       (<["region" := AString (MicrosoftTTSConfig.Region ms)]>
                       (<["voice_name" := AString (MicrosoftTTSConfig.VoiceName ms)]>
                       (<["rate" := AFloat64 rate]>
                       (<["volume" := AFloat64 volume]> ∅)))) |},
             None)
          end
        end
    end
  else if String.eqb vendor TTSVendorElevenLabs then
    match ConvoAIConfig.ElevenLabsTTS (config s) with
    | None => (None, Some "missing ElevenLabs TTS configuration")
    | Some el =>
      if is_empty (ElevenLabsTTSConfig.Key el)
         || is_empty (ElevenLabsTTSConfig.ModelID el)
         || is_empty (ElevenLabsTTSConfig.VoiceID el)
      then (None, Some "missing ElevenLabs TTS configuration")
      else
        (Some {| TTSConfig.Vendor := TTSVendorElevenLabs;
                 TTSConfig.Params :=
                   <["api_key" := AString (ElevenLabsTTSConfig.Key el)]>
                   (<["model_id" := AString (ElevenLabsTTSConfig.ModelID el)]>
                   (<["voice_id" := AString (ElevenLabsTTSConfig.VoiceID el)]> ∅)) |},
         None)
    end
  else (None, Some ("unsupported TTS vendor: " +:+ vendor)).

(** [nil] is [None]. *)
Definition validateInviteRequest (s : ConvoAIService)
    (req : InviteAgentRequest.t) : option error :=
  if is_empty (InviteAgentRequest.RequesterID req) then
    Some "requester_id is required"
  else if is_empty (InviteAgentRequest.ChannelName req) then
    Some "channel_name is required"
  else if (String.length (InviteAgentRequest.ChannelName req) <? 3)%nat
          || (64 <? String.length (InviteAgentRequest.ChannelName req))%nat then
    Some "channel_name length must be between 3 and 64 characters"
  else None.

Definition validateRemoveRequest (s : ConvoAIService)
    (req : RemoveAgentRequest.t) : option error :=
  if is_empty (RemoveAgentRequest.AgentID req) then Some "agent_id is required"
  else None.

Definition getRemoteRtcUIDs (requesterID : string) : slice string :=
  Some [requesterID].

Definition letters : string := "abcdefghijklmnopqrstuvwxyz".

(** [b[i] = letters[int(b[i]) % len(letters)]] over the [n] bytes that
    [rand.Read] wrote. *)
Definition randomString (rt : Runtime) (n : nat) : string :=
  string_of_list_ascii
    (map (fun b =>
            default "a"%char
              (String.get (Z.to_nat (byte_val b mod Z.of_nat (String.length letters)))
                 letters))
         (take n (rand_Read rt n ++ replicate n (Ascii.ascii_of_nat 0))%list)).

(** ** Calls to the outside *)

Definition call_GenRtcToken (s : ConvoAIService) (req : TokenRequest.t)
  : M (string * option error) :=
  emit (EvGenRtcToken req);; mret (GenRtcToken (tokenService s) req).

(** [http.NewRequest]: the request as given, or the error of an
    unparsable URL. *)
Definition http_NewRequest (rt : Runtime) (method url : string)
    (body : option string) : option Request.t * option error :=
  match http_NewRequest_err rt method url with
  | Some e => (None, Some e)
  | None => (Some (Request.mk method url body ∅), None)
  end.

Definition Request_Header_Set (k v : string) (r : Request.t) : Request.t :=
  Request.mk (Request.Method r) (Request.URL r) (Request.Body r)
    (Header_Set k v (Request.Header r)).

(** [(&http.Client{Timeout: t}).Do(req)] *)
Definition call_Do (rt : Runtime) (timeout_s : Z) (req : Request.t)
  : M (Response.t * option error) :=
  emit (EvDo timeout_s req);; mret (client_Do rt timeout_s req).

(** [*p] *)
Definition deref {A} (p : option A) : M A :=
  match p with
  | Some a => mret a
  | None => panic "runtime error: invalid memory address or nil pointer dereference"
  end.

Definition type_name (v : any) : string :=
  match v with
  | ANil => "nil"
  | ABool _ => "bool"
  | AFloat64 _ => "float64"
  | AString _ => "string"
  | ASlice _ => "[]interface {}"
  | AMap _ => "map[string]interface {}"
  end.

(** [m[k]] on a Go map: the zero value when the key is absent. *)
Definition index (m : gmap string any) (k : string) : any :=
  default ANil (m !! k).

(** [v.(string)], the one-value form: it panics on any other dynamic type. *)
Definition assert_string (v : any) : M string :=
  match v with
  | AString x => mret x
  | _ => panic ("interface conversion: interface {} is " +:+ type_name v +:+
                ", not string")
  end.

(** ** The invite handler *)

(** [tokenReq], lines 127-132 of HandleInviteAgent. *)
Definition tokenReq (req : InviteAgentRequest.t) : TokenRequest.t :=
  {| TokenRequest.TokenType := "rtc";
     TokenRequest.Channel := InviteAgentRequest.ChannelName req;
     TokenRequest.RtcRole := "publisher";
     TokenRequest.Uid := "0";
     TokenRequest.ExpirationSeconds := 0 |}.

(** [agoraReq], lines 145-205 of HandleInviteAgent: the system message,
    the default modalities and the body of the join request, from the
    token and the TTS configuration obtained before. *)
Definition agoraReq (rt : Runtime) (s : ConvoAIService)
    (req : InviteAgentRequest.t) (token : string) (ttsConfig : TTSConfig.t)
  : AgoraStartRequest.t :=
  let systemMessage :=
    {| SystemMessage.Role := "system";
       SystemMessage.Content := "You are a helpful assistant. Pretend that the text input is audio, and you are responding to it. Speak fast, clearly, and concisely." |} in
  let inputModalities := InviteAgentRequest.InputModalities req in
  let inputModalities :=
    if (len inputModalities =? 0)%nat then Some ["text"] else inputModalities in
  let outputModalities := InviteAgentRequest.OutputModalities req in
  let outputModalities :=
    if (len outputModalities =? 0)%nat then Some ["text"; "audio"]
    else outputModalities in
  {| AgoraStartRequest.Name :=
       "agent-" +:+ pretty (UnixNano (time_Now_name rt)) +:+ "-" +:+
       randomString rt 6;
     AgoraStartRequest.Properties :=
       {| Properties.Channel := InviteAgentRequest.ChannelName req;
          Properties.Token := token;
          Properties.AgentRtcUID := ConvoAIConfig.AgentUID (config s);
          Properties.RemoteRtcUIDs :=
            getRemoteRtcUIDs (InviteAgentRequest.RequesterID req);
          Properties.EnableStringUID :=
            isStringUID (InviteAgentRequest.RequesterID req);
          Properties.IdleTimeout := 30;
          Properties.ASR :=
            {| ASR.Language := "en-US"; ASR.Task := "conversation" |};
          Properties.LLM :=
            {| LLM.URL := ConvoAIConfig.LLMURL (config s);
               LLM.APIKey := ConvoAIConfig.LLMToken (config s);
               LLM.SystemMessages := [systemMessage];
               LLM.GreetingMessage := "Hello! How can I assist you today?";
               LLM.FailureMessage := "Please wait a moment.";
               LLM.MaxHistory := 10;
               LLM.Params :=
                 {| LLMParams.Model := ConvoAIConfig.LLMModel (config s);
                    LLMParams.MaxTokens := 1024;
                    LLMParams.Temperature := 0.7%float;
                    LLMParams.TopP := 0.95%float |};
               LLM.InputModalities := inputModalities;
               LLM.OutputModalities := outputModalities |};
          Properties.TTS := ttsConfig;
          Properties.VAD :=
            {| VAD.SilenceDurationMS := 480;
               VAD.SpeechDurationMS := 15000;
               VAD.Threshold := 0.5%float;
               VAD.InterruptDurationMS := 160;
               VAD.PrefixPaddingMS := 300 |};
          Properties.AdvancedFeatures :=
            {| Features.EnableAIVAD := false;
               Features.EnableBHVS := false |} |} |}.

(** Lines 126-205 of HandleInviteAgent: the token, the TTS configuration
    and the body of the join request. *)
Definition HandleInviteAgent_build (rt : Runtime) (s : ConvoAIService)
    (req : InviteAgentRequest.t) : M AgoraStartRequest.t :=
  '(token, err) ← call_GenRtcToken s (tokenReq req);
  check_nil err (fun e => "failed to generate token: " +:+ e);;
  let '(ttsConfig, err) := getTTSConfig rt s in
  check_nil err (fun e => "failed to get TTS config: " +:+ e);;
  ttsConfig ← deref ttsConfig;
  mret (agoraReq rt s req token ttsConfig).

(** Lines 207-260 of HandleInviteAgent: the join call and its answer. *)
Definition HandleInviteAgent_send (rt : Runtime) (s : ConvoAIService)
    (agoraReq : AgoraStartRequest.t) : M InviteAgentResponse.t :=
  let prettyJSON := json_MarshalIndent rt agoraReq "" "  " in
  emit (EvPrintf ("Sending request to start agent: " +:+ prettyJSON +:+ nl));;
  let '(jsonData, err) := json_Marshal rt agoraReq in
  check_nil err (fun e => "failed to marshal request: " +:+ e);;
  let url := ConvoAIConfig.BaseURL (config s) +:+ "/" +:+
             ConvoAIConfig.AppID (config s) +:+ "/join" in
  emit (EvPrintf ("URL: " +:+ url +:+ nl));;
  let '(httpReq, err) := http_NewRequest rt "POST" url (Some jsonData) in
  check_nil err (fun e => "failed to create request: " +:+ e);;
  httpReq ← deref httpReq;
  let httpReq := Request_Header_Set "Content-Type" "application/json" httpReq in
  let httpReq := Request_Header_Set "Authorization" (getBasicAuth s) httpReq in
  emit (EvPrintf ("Request headers: " +:+
                  fmt_Header rt (Request.Header httpReq) +:+ nl));;
  '(resp, err) ← call_Do rt 30 httpReq;
  check_nil err (fun e => "failed to send request: " +:+ e +:+
                          " (URL: " +:+ url +:+ ")");;
  if negb (Response.StatusCode resp =? StatusOK) then
    let body := Response.Body resp in
    throw ("failed to start conversation: status=" +:+
           pretty (Response.StatusCode resp) +:+ ", body=" +:+ body +:+
           ", url=" +:+ url +:+ ", headers=" +:+
           fmt_Header rt (Request.Header httpReq))
  else
    let '(agoraResp, err) := json_Decode rt (Response.Body resp) in
    check_nil err (fun e => "failed to decode response: " +:+ e);;
    agentID ← assert_string (index agoraResp "agent_id");
    mret {| InviteAgentResponse.AgentID := agentID;
            InviteAgentResponse.CreateTS := Unix (time_Now_reply rt);
            InviteAgentResponse.Status := "RUNNING" |}.

Definition HandleInviteAgent (rt : Runtime) (s : ConvoAIService)
    (req : InviteAgentRequest.t) : M InviteAgentResponse.t :=
  agoraReq ← HandleInviteAgent_build rt s req;
  HandleInviteAgent_send rt s agoraReq.

(** ** The remove handler *)

Definition HandleRemoveAgent (rt : Runtime) (s : ConvoAIService)
    (req : RemoveAgentRequest.t) : M RemoveAgentResponse.t :=
  let url := ConvoAIConfig.BaseURL (config s) +:+ "/" +:+
             ConvoAIConfig.AppID (config s) +:+ "/agents/" +:+
             RemoveAgentRequest.AgentID req +:+ "/leave" in
  let '(httpReq, err) := http_NewRequest rt "POST" url None in
  check_nil err (fun e => "failed to create request: " +:+ e);;
  httpReq ← deref httpReq;
  let auth := getBasicAuth s in
  let httpReq := Request_Header_Set "Content-Type" "application/json" httpReq in
  let httpReq := Request_Header_Set "Authorization" auth httpReq in
  '(resp, err) ← call_Do rt 10 httpReq;
  check_nil err (fun e => "failed to send request: " +:+ e);;
  if negb (Response.StatusCode resp =? StatusOK) then
    throw ("failed to remove agent: " +:+ pretty (Response.StatusCode resp))
  else
    mret {| RemoveAgentResponse.Success := true;
            RemoveAgentResponse.AgentID := RemoveAgentRequest.AgentID req |}.

(** ** The gin route handlers

    The side of [*gin.Context] that is read is the outcome of
    [ShouldBindJSON]; the side that is written is the one [c.JSON] call
    each path makes. *)
Record gin_Context (A : Type) := { ShouldBindJSON : A * option error }.
Arguments ShouldBindJSON {A} _.

Inductive Reply :=
| JSON_H (code : Z) (obj : gmap string any)
| JSON_InviteAgentResponse (code : Z) (obj : InviteAgentResponse.t)
| JSON_RemoveAgentResponse (code : Z) (obj : RemoveAgentResponse.t).

Definition gin_H_error (msg : string) : gmap string any :=
  {[ "error" := AString msg ]}.

(** A handler error becomes a reply; a panic stays a panic. *)
Definition reply_of {A} (m : M A) (ok : A -> Reply) : M Reply :=
  match m with
  | (Ret a, tr) => (Ret (ok a), tr)
  | (Err e, tr) => (Ret (JSON_H StatusInternalServerError (gin_H_error e)), tr)
  | (Panic msg, tr) => (Panic msg, tr)
  end.

Definition InviteAgent (rt : Runtime) (s : ConvoAIService)
    (c : gin_Context InviteAgentRequest.t) : M Reply :=
  let '(req, err) := ShouldBindJSON c in
  match err with
  | Some e => mret (JSON_H StatusBadRequest (gin_H_error e))
  | None =>
    match validateInviteRequest s req with
    | Some e => mret (JSON_H StatusBadRequest (gin_H_error e))
    | None =>
      reply_of (HandleInviteAgent rt s req) (JSON_InviteAgentResponse StatusOK)
    end
  end.

Definition RemoveAgent (rt : Runtime) (s : ConvoAIService)
    (c : gin_Context RemoveAgentRequest.t) : M Reply :=
  let '(req, err) := ShouldBindJSON c in
  match err with
  | Some e => mret (JSON_H StatusBadRequest (gin_H_error e))
  | None =>
    match validateRemoveRequest s req with
    | Some e => mret (JSON_H StatusBadRequest (gin_H_error e))
    | None =>
      reply_of (HandleRemoveAgent rt s req) (JSON_RemoveAgentResponse StatusOK)
    end
  end.

(** ** Package validation: the startup check of the configuration *)

Module validation.

(** [strings.Split(s, sep)] for a separator of one byte. *)
Fixpoint Split (sep : ascii) (s : string) : list string :=
  match s with
  | EmptyString => [EmptyString]
  | String c s' =>
    if Ascii.eqb c sep then EmptyString :: Split sep s'
    else match Split sep s' with
         | x :: xs => String c x :: xs
         | [] => [String c EmptyString]
         end
  end.

Definition validModalities : gmap string bool :=
  <["text" := true]> (<["audio" := true]> ∅).

(** [TrimSpace] is [strings.TrimSpace]. *)
Definition validateModalities (TrimSpace : string -> string)
    (modalities : string) : bool :=
  if is_empty modalities then true
  else forallb (fun modality =>
                  default false (validModalities !! TrimSpace modality))
               (Split ","%char modalities).

Definition validateTTSConfig (config : ConvoAIConfig.t) : option error :=
  let vendor := ConvoAIConfig.TTSVendor config in
  if String.eqb vendor "microsoft" then
    match ConvoAIConfig.MicrosoftTTS config with
    | None => Some "config error: Microsoft TTS configuration is missing"
    | Some ms =>
      if is_empty (MicrosoftTTSConfig.Key ms)
         || is_empty (MicrosoftTTSConfig.Region ms)
         || is_empty (MicrosoftTTSConfig.VoiceName ms)
      then Some "config error: Microsoft TTS configuration is incomplete"
      else None
    end
  else if String.eqb vendor "elevenlabs" then
    match ConvoAIConfig.ElevenLabsTTS config with
    | None => Some "config error: ElevenLabs TTS configuration is missing"
    | Some el =>
      if is_empty (ElevenLabsTTSConfig.Key el)
         || is_empty (ElevenLabsTTSConfig.VoiceID el)
         || is_empty (ElevenLabsTTSConfig.ModelID el)
      then Some "config error: ElevenLabs TTS configuration is incomplete"
      else None
    end
  else Some ("config error: Unsupported TTS vendor: " +:+ vendor).

Definition ValidateEnvironment (TrimSpace : string -> string)
    (config : ConvoAIConfig.t) : option error :=
  if is_empty (ConvoAIConfig.AppID config)
     || is_empty (ConvoAIConfig.AppCertificate config) then
    Some "config error: Agora credentials (APP_ID, APP_CERTIFICATE) are not set"
  else if is_empty (ConvoAIConfig.CustomerID config)
          || is_empty (ConvoAIConfig.CustomerSecret config)
          || is_empty (ConvoAIConfig.BaseURL config) then
    Some "config error: Agora Conversation AI credentials (CUSTOMER_ID, CUSTOMER_SECRET, BASE_URL) are not set"
  else if is_empty (ConvoAIConfig.LLMURL config)
          || is_empty (ConvoAIConfig.LLMToken config) then
    Some "config error: LLM configuration (LLM_URL, LLM_TOKEN) is not set"
  else if is_empty (ConvoAIConfig.TTSVendor config) then
    Some "config error: TTS_VENDOR is not set"
  else
    match validateTTSConfig config with
    | Some err => Some err
    | None =>
      if negb (is_empty (ConvoAIConfig.InputModalities config))
         && negb (validateModalities TrimSpace (ConvoAIConfig.InputModalities config))
      then Some "config error: Invalid INPUT_MODALITIES format"
      else if negb (is_empty (ConvoAIConfig.OutputModalities config))
              && negb (validateModalities TrimSpace
                         (ConvoAIConfig.OutputModalities config))
      then Some "config error: Invalid OUTPUT_MODALITIES format"
      else None
    end.

End validation.

(** ** The fixtures of the package's tests, and stand-ins for the outside

    [MockTokenService], [NewTestConvoAIService] and the mock response are
    those of the test file.  The stand-ins answer only what the examples
    below ask of them. *)
Module fixtures.

Definition MockTokenService : TokenGenerator :=
  {| GenRtcToken := fun _ => ("mock-rtc-token", None) |}.

Definition FailingTokenService (e : error) : TokenGenerator :=
  {| GenRtcToken := fun _ => (EmptyString, Some e) |}.

Definition testMicrosoftTTS : MicrosoftTTSConfig.t :=
  {| MicrosoftTTSConfig.Key := "test-ms-key";
     MicrosoftTTSConfig.Region := "eastus";
     MicrosoftTTSConfig.VoiceName := "en-US-AriaNeural";
     MicrosoftTTSConfig.Rate := "1.0";
     MicrosoftTTSConfig.Volume := "1.0" |}.

Definition testConfig (vendor : string) (ms : option MicrosoftTTSConfig.t)
    (el : option ElevenLabsTTSConfig.t) : ConvoAIConfig.t :=
  {| ConvoAIConfig.AppID := "test-app-id";
     ConvoAIConfig.AppCertificate := "test-app-cert";
     ConvoAIConfig.CustomerID := "test-customer-id";
     ConvoAIConfig.CustomerSecret := "test-customer-secret";
     ConvoAIConfig.BaseURL := "https://api.example.com";
     ConvoAIConfig.AgentUID := "123456";
     ConvoAIConfig.LLMModel := "gpt-3.5-turbo";
     ConvoAIConfig.LLMURL := "https://api.openai.com/v1/chat/completions";
     ConvoAIConfig.LLMToken := "test-llm-token";
     ConvoAIConfig.TTSVendor := vendor;
     ConvoAIConfig.MicrosoftTTS := ms;
     ConvoAIConfig.ElevenLabsTTS := el;
     ConvoAIConfig.InputModalities := EmptyString;
     ConvoAIConfig.OutputModalities := EmptyString |}.

Definition NewTestConvoAIService : ConvoAIService :=
  {| config := testConfig "microsoft" (Some testMicrosoftTTS) None;
     tokenService := MockTokenService |}.

Definition serviceWith (vendor : string) (ms : option MicrosoftTTSConfig.t)
    (el : option ElevenLabsTTSConfig.t) (ts : TokenGenerator) : ConvoAIService :=
  {| config := testConfig vendor ms el; tokenService := ts |}.

Definition mockResponse : string :=
  "{" +:+ dquote +:+ "agent_id" +:+ dquote +:+ ": " +:+
  dquote +:+ "test-agent-123" +:+ dquote +:+ "}".

(** strconv.ParseFloat on the decimal literals the examples use; any other
    text is answered as a syntax error, which is what strconv answers for
    the texts used below that are not numbers. *)
Definition stub_ParseFloat (s : string) (bitSize : Z) : float64 * option error :=
  if String.eqb s "1.0" then (1.0%float, None)
  else if String.eqb s "0.5" then (0.5%float, None)
  else (0%float, Some ("strconv.ParseFloat: parsing " +:+ dquote +:+ s +:+
                       dquote +:+ ": invalid syntax")).

Definition stub_Decode (body : string) : gmap string any * option error :=
  if String.eqb body mockResponse then
    ({[ "agent_id" := AString "test-agent-123" ]}, None)
  else if String.eqb body "{}" then (∅, None)
  else (∅, Some "invalid character looking for beginning of value").

(** A platform that answers every call with [status] and [body]. *)
Definition stub_runtime (status : Z) (body : string) : Runtime :=
  {| strconv_ParseFloat := stub_ParseFloat;
     json_Marshal := fun r => (AgoraStartRequest.Name r, None);
     json_MarshalIndent := fun r _ _ => AgoraStartRequest.Name r;
     json_Decode := stub_Decode;
     http_NewRequest_err := fun _ _ => None;
     client_Do := fun _ _ => (Response.mk status body, None);
     fmt_Header := fun _ => "map[]";
     time_Now_name := 1739905500123456789;
     time_Now_reply := 1739905501000000000;
     rand_Read := fun n => replicate n (Ascii.ascii_of_nat 27) |}.

Definition testRuntime : Runtime := stub_runtime 200 mockResponse.

Definition testInvite (requesterID channelName : string)
    (input output : slice string) : InviteAgentRequest.t :=
  {| InviteAgentRequest.RequesterID := requesterID;
     InviteAgentRequest.ChannelName := channelName;
     InviteAgentRequest.RtcCodec := None;
     InviteAgentRequest.InputModalities := input;
     InviteAgentRequest.OutputModalities := output |}.

End fixtures.

(** ** Vocabulary of the statements *)

(** [strings.Contains s sub] *)
Definition contains (sub s : string) : bool :=
  match String.index 0 sub s with Some _ => true | None => false end.

(** No call to the agent platform in a trace. *)
Definition no_platform_call (tr : list Event) : bool :=
  forallb (fun ev => match ev with EvDo _ _ => false | _ => true end) tr.

(** The request the spec describes for the join endpoint: POST to
    [{baseURL}/{appID}/join] with the JSON body and the two headers. *)
Definition join_url (s : ConvoAIService) : string :=
  ConvoAIConfig.BaseURL (config s) +:+ "/" +:+
  ConvoAIConfig.AppID (config s) +:+ "/join".

Definition std_headers (s : ConvoAIService) : Header :=
  <["Authorization" := [getBasicAuth s]]>
    (<["Content-Type" := ["application/json"]]> ∅).

Definition join_request (s : ConvoAIService) (jsonData : string) : Request.t :=
  Request.mk "POST" (join_url s) (Some jsonData) (std_headers s).

(** What the handler prints before the join call. *)
Definition join_prints (rt : Runtime) (s : ConvoAIService)
    (p : AgoraStartRequest.t) : list Event :=
  [EvPrintf ("Sending request to start agent: " +:+
             json_MarshalIndent rt p "" "  " +:+ nl);
   EvPrintf ("URL: " +:+ join_url s +:+ nl);
   EvPrintf ("Request headers: " +:+ fmt_Header rt (std_headers s) +:+ nl)].

(** The request the spec describes for the leave endpoint: POST to
    [{baseURL}/{appID}/agents/{agentID}/leave], no body. *)
Definition leave_url (s : ConvoAIService) (agentID : string) : string :=
  ConvoAIConfig.BaseURL (config s) +:+ "/" +:+
  ConvoAIConfig.AppID (config s) +:+ "/agents/" +:+ agentID +:+ "/leave".

Definition leave_request (s : ConvoAIService) (agentID : string) : Request.t :=
  Request.mk "POST" (leave_url s agentID) None (std_headers s).

(** The service with other configured modality strings. *)
Definition with_config_modalities (input output : string)
    (s : ConvoAIService) : ConvoAIService :=
  let c := config s in
  {| config :=
       {| ConvoAIConfig.AppID := ConvoAIConfig.AppID c;
          ConvoAIConfig.AppCertificate := ConvoAIConfig.AppCertificate c;
          ConvoAIConfig.CustomerID := ConvoAIConfig.CustomerID c;
          ConvoAIConfig.CustomerSecret := ConvoAIConfig.CustomerSecret c;
          ConvoAIConfig.BaseURL := ConvoAIConfig.BaseURL c;
          ConvoAIConfig.AgentUID := ConvoAIConfig.AgentUID c;
          ConvoAIConfig.LLMModel := ConvoAIConfig.LLMModel c;
          ConvoAIConfig.LLMURL := ConvoAIConfig.LLMURL c;
          ConvoAIConfig.LLMToken := ConvoAIConfig.LLMToken c;
          ConvoAIConfig.TTSVendor := ConvoAIConfig.TTSVendor c;
          ConvoAIConfig.MicrosoftTTS := ConvoAIConfig.MicrosoftTTS c;
          ConvoAIConfig.ElevenLabsTTS := ConvoAIConfig.ElevenLabsTTS c;
          ConvoAIConfig.InputModalities := input;
          ConvoAIConfig.OutputModalities := output |};
     tokenService := tokenService s |}.

(** The tuning constants of the join request. *)
Definition fixed_tuning (p : AgoraStartRequest.t) : Prop :=
  let props := AgoraStartRequest.Properties p in
  let vad := Properties.VAD props in
  let llm := Properties.LLM props in
  Properties.IdleTimeout props = 30 /\
  VAD.SilenceDurationMS vad = 480 /\
  VAD.SpeechDurationMS vad = 15000 /\
  VAD.Threshold vad = 0.5%float /\
  VAD.InterruptDurationMS vad = 160 /\
  VAD.PrefixPaddingMS vad = 300 /\
  LLM.MaxHistory llm = 10 /\
  LLMParams.Temperature (LLM.Params llm) = 0.7%float /\
  LLMParams.TopP (LLM.Params llm) = 0.95%float /\
  LLMParams.MaxTokens (LLM.Params llm) = 1024.

(** The modalities a request asks for, or the default when it asks for
    none: a nil and an empty slice both ask for none. *)
Definition requested_or (fallback : list string) (requested : slice string)
  : slice string :=
  match requested with
  | Some (x :: l) => Some (x :: l)
  | Some [] | None => Some fallback
  end.

(** The condition a validation message names is one the request violates. *)
Definition names_violation (req : InviteAgentRequest.t) (e : error) : Prop :=
  (e = "requester_id is required" /\ InviteAgentRequest.RequesterID req = "") \/
  (e = "channel_name is required" /\ InviteAgentRequest.ChannelName req = "") \/
  (e = "channel_name length must be between 3 and 64 characters" /\
   ~ (3 <= String.length (InviteAgentRequest.ChannelName req) <= 64)%nat).

(** The five required fields of the Microsoft configuration. *)
Definition microsoft_complete (ms : MicrosoftTTSConfig.t) : Prop :=
  MicrosoftTTSConfig.Key ms <> "" /\
  MicrosoftTTSConfig.Region ms <> "" /\
  MicrosoftTTSConfig.VoiceName ms <> "" /\
  MicrosoftTTSConfig.Rate ms <> "" /\
  MicrosoftTTSConfig.Volume ms <> "".

(** One of them is empty. *)
Definition microsoft_incomplete (ms : MicrosoftTTSConfig.t) : Prop :=
  MicrosoftTTSConfig.Key ms = "" \/
  MicrosoftTTSConfig.Region ms = "" \/
  MicrosoftTTSConfig.VoiceName ms = "" \/
  MicrosoftTTSConfig.Rate ms = "" \/
  MicrosoftTTSConfig.Volume ms = "".

Definition elevenlabs_incomplete (el : ElevenLabsTTSConfig.t) : Prop :=
  ElevenLabsTTSConfig.Key el = "" \/
  ElevenLabsTTSConfig.ModelID el = "" \/
  ElevenLabsTTSConfig.VoiceID el = "".

Definition elevenlabs_complete (el : ElevenLabsTTSConfig.t) : Prop :=
  ElevenLabsTTSConfig.Key el <> "" /\
  ElevenLabsTTSConfig.ModelID el <> "" /\
  ElevenLabsTTSConfig.VoiceID el <> "".

(** [strconv.ParseFloat] accepts the text. *)
Definition parses (rt : Runtime) (text : string) : Prop :=
  (strconv_ParseFloat rt text 64).2 = None.

(** ** cmd/main.go: the configuration read from the environment

    The environment is a finite map; [os.Getenv] answers the empty string
    for a variable that is not set. *)
Module main.

Definition Getenv (env : gmap string string) (key : string) : string :=
  default EmptyString (env !! key).

Definition loadConfig (env : gmap string string)
  : ConvoAIConfig.t * option error :=
  let msKey := Getenv env "MICROSOFT_TTS_KEY" in
  let elKey := Getenv env "ELEVENLABS_API_KEY" in
  ({| ConvoAIConfig.AppID := Getenv env "AGORA_APP_ID";
      ConvoAIConfig.AppCertificate := Getenv env "AGORA_APP_CERTIFICATE";
      ConvoAIConfig.CustomerID := Getenv env "AGORA_CUSTOMER_ID";
      ConvoAIConfig.CustomerSecret := Getenv env "AGORA_CUSTOMER_SECRET";
      ConvoAIConfig.BaseURL := Getenv env "AGORA_CONVO_AI_BASE_URL";
      ConvoAIConfig.AgentUID := Getenv env "AGENT_UID";
      ConvoAIConfig.LLMModel := Getenv env "LLM_MODEL";
      ConvoAIConfig.LLMURL := Getenv env "LLM_URL";
      ConvoAIConfig.LLMToken := Getenv env "LLM_TOKEN";
      ConvoAIConfig.TTSVendor := Getenv env "TTS_VENDOR";
      ConvoAIConfig.MicrosoftTTS :=
        if negb (is_empty msKey) then
          Some {| MicrosoftTTSConfig.Key := msKey;
                  MicrosoftTTSConfig.Region := Getenv env "MICROSOFT_TTS_REGION";
                  MicrosoftTTSConfig.VoiceName :=
                    Getenv env "MICROSOFT_TTS_VOICE_NAME";
                  MicrosoftTTSConfig.Rate := Getenv env "MICROSOFT_TTS_RATE";
                  MicrosoftTTSConfig.Volume := Getenv env "MICROSOFT_TTS_VOLUME" |}
        else None;
      ConvoAIConfig.ElevenLabsTTS :=
        if negb (is_empty elKey) then
          Some {| ElevenLabsTTSConfig.Key := elKey;
                  ElevenLabsTTSConfig.VoiceID := Getenv env "ELEVENLABS_VOICE_ID";
                  ElevenLabsTTSConfig.ModelID := Getenv env "ELEVENLABS_MODEL_ID" |}
        else None;
      ConvoAIConfig.InputModalities := Getenv env "INPUT_MODALITIES";
      ConvoAIConfig.OutputModalities := Getenv env "OUTPUT_MODALITIES" |},
   None).

(** What setupServer does with the configuration before it builds the
    router: [log.Fatal] on a configuration the validation refuses, else
    the address to listen on and the configuration the services get. *)
Inductive Startup :=
| Fatal (msg : string)
| Listening (addr : string) (config : ConvoAIConfig.t) (corsAllowOrigin : string).

Definition setupServer (TrimSpace : string -> string)
    (env : gmap string string) : Startup :=
  let '(config, err) := loadConfig env in
  match err with
  | Some e => Fatal ("Failed to load configuration:" +:+ e)
  | None =>
    match validation.ValidateEnvironment TrimSpace config with
    | Some e => Fatal ("FATAL ERROR: " +:+ e)
    | None =>
      let serverPort := Getenv env "PORT" in
      let serverPort := if is_empty serverPort then "8080" else serverPort in
      let corsAllowOrigin := Getenv env "CORS_ALLOW_ORIGIN" in
      Listening (":" +:+ serverPort) config corsAllowOrigin
    end
  end.

End main.

(** ** Package token_service: the token generators

    The three builders of go-tokenbuilder are taken as given. *)
Module token_service.

Inductive Role := RolePublisher | RoleSubscriber.

Record Builders := {
  BuildTokenWithUid :
    string -> string -> string -> Z -> Role -> Z -> string * option error;
  BuildTokenWithAccount :
    string -> string -> string -> string -> Role -> Z -> string * option error;
  rtm_BuildToken :
    string -> string -> string -> Z -> string -> string * option error;
  BuildChatAppToken : string -> string -> Z -> string * option error;
  BuildChatUserToken : string -> string -> string -> Z -> string * option error }.

Record TokenService := { appID : string; appCertificate : string }.

Definition NewTokenService (appIDEnv appCertEnv : string) : TokenService :=
  {| appID := appIDEnv; appCertificate := appCertEnv |}.

(** The conversion [uint32(x)] of an integer. *)
Definition uint32 (x : Z) : Z := x mod 2 ^ 32.

(** The two errors of strconv's number parsers. *)
Inductive NumError := ErrSyntax | ErrRange.

Definition maxUint64 : Z := 2 ^ 64 - 1.

(** The loop of [strconv.ParseUint(s, 10, 64)] on the text that is left,
    with the number read so far. *)
Fixpoint ParseUint_from (s : string) (n : Z) : Z * option NumError :=
  match s with
  | EmptyString => (n, None)
  | String c s' =>
    if is_digit c then
      if n >=? maxUint64 / 10 + 1 then (maxUint64, Some ErrRange)
      else
        let n1 := n * 10 + (byte_val c - 48) in
        if n1 >? maxUint64 then (maxUint64, Some ErrRange)
        else ParseUint_from s' n1
    else (0, Some ErrSyntax)
  end.

Definition ParseUint (s : string) : Z * option NumError :=
  if is_empty s then (0, Some ErrSyntax) else ParseUint_from s 0.

Definition default_expiration (expirationSeconds : Z) : Z :=
  if expirationSeconds =? 0 then 3600 else expirationSeconds.

Definition GenRtcToken (b : Builders) (s : TokenService)
    (tokenRequest : TokenRequest.t) : string * option error :=
  if is_empty (TokenRequest.Channel tokenRequest) then
    (EmptyString, Some "invalid: missing channel name")
  else if is_empty (TokenRequest.Uid tokenRequest) then
    (EmptyString, Some "invalid: missing user ID or account")
  else
    let userRole :=
      if String.eqb (TokenRequest.RtcRole tokenRequest) "publisher"
      then RolePublisher else RoleSubscriber in
    let expirationSeconds :=
      default_expiration (TokenRequest.ExpirationSeconds tokenRequest) in
    let '(uid64, parseErr) := ParseUint (TokenRequest.Uid tokenRequest) in
    match parseErr with
    | Some _ =>
      BuildTokenWithAccount b (appID s) (appCertificate s)
        (TokenRequest.Channel tokenRequest) (TokenRequest.Uid tokenRequest)
        userRole (uint32 expirationSeconds)
    | None =>
      BuildTokenWithUid b (appID s) (appCertificate s)
        (TokenRequest.Channel tokenRequest) (uint32 uid64)
        userRole (uint32 expirationSeconds)
    end.

Definition GenRtmToken (b : Builders) (s : TokenService)
    (tokenRequest : TokenRequest.t) : string * option error :=
  if is_empty (TokenRequest.Uid tokenRequest) then
    (EmptyString, Some "invalid: missing user ID or account")
  else
    rtm_BuildToken b (appID s) (appCertificate s)
      (TokenRequest.Uid tokenRequest)
      (uint32 (default_expiration (TokenRequest.ExpirationSeconds tokenRequest)))
      (TokenRequest.Channel tokenRequest).

Definition GenChatToken (b : Builders) (s : TokenService)
    (tokenRequest : TokenRequest.t) : string * option error :=
  let expirationSeconds :=
    default_expiration (TokenRequest.ExpirationSeconds tokenRequest) in
  if is_empty (TokenRequest.Uid tokenRequest) then
    BuildChatAppToken b (appID s) (appCertificate s) (uint32 expirationSeconds)
  else
    BuildChatUserToken b (appID s) (appCertificate s)
      (TokenRequest.Uid tokenRequest) (uint32 expirationSeconds).

(** What HandleGetToken writes: [http.Error] with a status, or the token
    as JSON with status 200. *)
Inductive TokenReply :=
| http_Error (msg : string) (code : Z)
| TokenJSON (code : Z) (token : string).

Definition HandleGetToken (b : Builders) (s : TokenService)
    (tokenReq : TokenRequest.t) : TokenReply :=
  let tokenType := TokenRequest.TokenType tokenReq in
  let generated :=
    if String.eqb tokenType "rtc" then Some (GenRtcToken b s tokenReq)
    else if String.eqb tokenType "rtm" then Some (GenRtmToken b s tokenReq)
    else if String.eqb tokenType "chat" then Some (GenChatToken b s tokenReq)
    else None in
  match generated with
  | None => http_Error "Unsupported tokenType" StatusBadRequest
  | Some (_, Some tokenErr) => http_Error tokenErr StatusBadRequest
  | Some (token, None) => TokenJSON StatusOK token
  end.

(** The token service as the capability the ConvoAI service holds. *)
Definition generator (b : Builders) (s : TokenService) : TokenGenerator :=
  Build_TokenGenerator (GenRtcToken b s).

End token_service.

(** The services as setupServer wires them (main.go, lines 100-104): the
    token service gets the application ID and certificate of the
    configuration, the ConvoAI service gets both. *)
Definition wired_service (b : token_service.Builders)
    (config : ConvoAIConfig.t) : ConvoAIService :=
  {| config := config;
     tokenService :=
       token_service.generator b
         (token_service.NewTokenService (ConvoAIConfig.AppID config)
            (ConvoAIConfig.AppCertificate config)) |}.

(** ** Package http_headers: the CORS middleware *)
Module http_headers.

Record HttpHeaders := { AllowOrigin : string }.

Definition NewHttpHeaders (allowOrigin : string) : HttpHeaders :=
  {| AllowOrigin := allowOrigin |}.

Definition isOriginAllowed (m : HttpHeaders) (origin : string) : bool :=
  if String.eqb (AllowOrigin m) "*" then true
  else existsb (fun allowed => String.eqb origin allowed)
         (validation.Split ","%char (AllowOrigin m)).

(** The part of [*gin.Context] the middleware touches: the method and the
    headers of the request, the headers of the response, what has been
    written as status and JSON body, and whether the chain is aborted. *)
Record Context := {
  Method : string;
  RequestHeader : Header;
  ResponseHeader : Header;
  Written : option (Z * option (gmap string any));
  Aborted : bool }.

(** [h.Get(key)] for a canonical key. *)
Definition Header_Get (key : string) (h : Header) : string :=
  match h !! key with
  | Some (v :: _) => v
  | _ => EmptyString
  end.

(** [c.Header(key, value)]: an empty value removes the header. *)
Definition c_Header (key value : string) (c : Context) : Context :=
  {| Method := Method c;
     RequestHeader := RequestHeader c;
     ResponseHeader :=
       if is_empty value then delete key (ResponseHeader c)
       else Header_Set key value (ResponseHeader c);
     Written := Written c;
     Aborted := Aborted c |}.

(** [c.JSON(code, obj)]: the content type is set unless one is there. *)
Definition c_JSON (code : Z) (obj : gmap string any) (c : Context) : Context :=
  {| Method := Method c;
     RequestHeader := RequestHeader c;
     ResponseHeader :=
       match ResponseHeader c !! "Content-Type" with
       | Some (_ :: _) => ResponseHeader c
       | _ => <["Content-Type" := ["application/json; charset=utf-8"]]>
                (ResponseHeader c)
       end;
     Written := Some (code, Some obj);
     Aborted := Aborted c |}.

Definition c_Abort (c : Context) : Context :=
  {| Method := Method c;
     RequestHeader := RequestHeader c;
     ResponseHeader := ResponseHeader c;
     Written := Written c;
     Aborted := true |}.

Definition c_AbortWithStatus (code : Z) (c : Context) : Context :=
  c_Abort {| Method := Method c;
             RequestHeader := RequestHeader c;
             ResponseHeader := ResponseHeader c;
             Written := Some (code, None);
             Aborted := Aborted c |}.

Definition StatusForbidden : Z := 403.
Definition StatusNoContent : Z := 204.

Definition NoCache (m : HttpHeaders) (c : Context) : Context :=
  c_Header "Pragma" "no-cache"
    (c_Header "Expires" "-1"
       (c_Header "Cache-Control" "private, no-cache, no-store, must-revalidate"
          c)).

(** The handler CORShttpHeaders returns.  Its last statement, [c.Next()],
    hands over to the handlers that follow: here, a context that is not
    aborted. *)
Definition CORShttpHeaders (m : HttpHeaders) (c : Context) : Context :=
  let origin := Header_Get "Origin" (RequestHeader c) in
  if negb (isOriginAllowed m origin) then
    c_Abort
      (c_JSON StatusForbidden {[ "error" := AString "Origin not allowed" ]}
         (c_Header "Content-Type" "application/json" c))
  else
    let c := c_Header "Access-Control-Allow-Origin" origin c in
    let c := c_Header "Access-Control-Allow-Methods"
               "GET, POST, DELETE, PATCH, OPTIONS" c in
    let c := c_Header "Access-Control-Allow-Headers" "Origin, Content-Type" c in
    if String.eqb (Method c) "OPTIONS" then c_AbortWithStatus StatusNoContent c
    else c.

End http_headers.

(** ** More vocabulary *)

Definition is_lower (c : ascii) : Prop :=
  byte_val "a" <= byte_val c <= byte_val "z".

(** The number a text of decimal digits writes, after the digits [n]. *)
Fixpoint decimal_value (s : string) (n : Z) : Z :=
  match s with
  | EmptyString => n
  | String c s' => decimal_value s' (n * 10 + (byte_val c - 48))
  end.

(** The calls to the agent platform in a trace. *)
Definition platform_calls (tr : list Event) : list (Z * Request.t) :=
  omap (fun ev => match ev with EvDo t r => Some (t, r) | _ => None end) tr.

Definition token_calls (tr : list Event) : list TokenRequest.t :=
  omap (fun ev => match ev with EvGenRtcToken r => Some r | _ => None end) tr.

(** The status of a reply. *)
Definition reply_code (r : Reply) : Z :=
  match r with
  | JSON_H code _ => code
  | JSON_InviteAgentResponse code _ => code
  | JSON_RemoveAgentResponse code _ => code
  end.

(** [text] holds [part] somewhere. *)
Definition shows (part text : string) : Prop :=
  exists before after, text = before +:+ part +:+ after.

(** No byte of the text is the separator. *)
Definition free_of (sep : ascii) (s : string) : Prop :=
  ~ In sep (list_ascii_of_string s).

(** A renderer of header maps that writes the Authorization value between
    brackets, as fmt's verb v does, for the examples. *)
Definition render_Authorization (h : Header) : string :=
  "map[Authorization:[" +:+ http_headers.Header_Get "Authorization" h +:+ "]]".

Definition rendering_runtime (status : Z) (body : string) : Runtime :=
  let rt := fixtures.stub_runtime status body in
  {| strconv_ParseFloat := strconv_ParseFloat rt;
     json_Marshal := json_Marshal rt;
     json_MarshalIndent := json_MarshalIndent rt;
     json_Decode := json_Decode rt;
     http_NewRequest_err := http_NewRequest_err rt;
     client_Do := client_Do rt;
     fmt_Header := render_Authorization;
     time_Now_name := time_Now_name rt;
     time_Now_reply := time_Now_reply rt;
     rand_Read := rand_Read rt |}.

(** Builders that answer with a description of what they were asked. *)
Definition stub_builders : token_service.Builders :=
  {| token_service.BuildTokenWithUid := fun app cert channel uid role exp =>
       ("uid-token:" +:+ channel +:+ ":" +:+ pretty uid +:+ ":" +:+ pretty exp,
        None);
     token_service.BuildTokenWithAccount := fun app cert channel account role exp =>
       ("account-token:" +:+ channel +:+ ":" +:+ account, None);
     token_service.rtm_BuildToken := fun app cert uid exp channel =>
       ("rtm-token:" +:+ uid, None);
     token_service.BuildChatAppToken := fun app cert exp => ("chat-app-token", None);
     token_service.BuildChatUserToken := fun app cert uid exp =>
       ("chat-user-token:" +:+ uid, None) |}.

(** The runtime with another clock reading for the session name. *)
Definition with_clock (t : Time) (rt : Runtime) : Runtime :=
  {| strconv_ParseFloat := strconv_ParseFloat rt;
     json_Marshal := json_Marshal rt;
     json_MarshalIndent := json_MarshalIndent rt;
     json_Decode := json_Decode rt;
     http_NewRequest_err := http_NewRequest_err rt;
     client_Do := client_Do rt;
     fmt_Header := fmt_Header rt;
     time_Now_name := t;
     time_Now_reply := time_Now_reply rt;
     rand_Read := rand_Read rt |}.

(** The configuration with another agent UID and model name. *)
Definition with_agent_model (agentUID model : string)
    (c : ConvoAIConfig.t) : ConvoAIConfig.t :=
  {| ConvoAIConfig.AppID := ConvoAIConfig.AppID c;
     ConvoAIConfig.AppCertificate := ConvoAIConfig.AppCertificate c;
     ConvoAIConfig.CustomerID := ConvoAIConfig.CustomerID c;
     ConvoAIConfig.CustomerSecret := ConvoAIConfig.CustomerSecret c;
     ConvoAIConfig.BaseURL := ConvoAIConfig.BaseURL c;
     ConvoAIConfig.AgentUID := agentUID;
     ConvoAIConfig.LLMModel := model;
     ConvoAIConfig.LLMURL := ConvoAIConfig.LLMURL c;
     ConvoAIConfig.LLMToken := ConvoAIConfig.LLMToken c;
     ConvoAIConfig.TTSVendor := ConvoAIConfig.TTSVendor c;
     ConvoAIConfig.MicrosoftTTS := ConvoAIConfig.MicrosoftTTS c;
     ConvoAIConfig.ElevenLabsTTS := ConvoAIConfig.ElevenLabsTTS c;
     ConvoAIConfig.InputModalities := ConvoAIConfig.InputModalities c;
     ConvoAIConfig.OutputModalities := ConvoAIConfig.OutputModalities c |}.

(** A configuration for ElevenLabs, on the values of the tests. *)
Definition testElevenLabs : ElevenLabsTTSConfig.t :=
  ElevenLabsTTSConfig.mk "test-key" "voice-id" "model-id".

(** An environment with the Microsoft vendor whose rate and volume are
    left unset, as .env.example allows. *)
Definition env_without_rate : gmap string string :=
  list_to_map
    [("AGORA_APP_ID", "app-id"); ("AGORA_APP_CERTIFICATE", "app-cert");
     ("AGORA_CUSTOMER_ID", "customer"); ("AGORA_CUSTOMER_SECRET", "secret");
     ("AGORA_CONVO_AI_BASE_URL", "https://api.example.com");
     ("AGENT_UID", "Agent"); ("LLM_MODEL", "gpt-4o-mini");
     ("LLM_URL", "https://llm.example.com"); ("LLM_TOKEN", "llm-token");
     ("TTS_VENDOR", "microsoft"); ("MICROSOFT_TTS_KEY", "ms-key");
     ("MICROSOFT_TTS_REGION", "eastus");
     ("MICROSOFT_TTS_VOICE_NAME", "en-US-AndrewNeural")].

(** Reading standard base64 back, for the text the encoder writes: the
    place of a character in the alphabet, a byte from its value, and the
    three bytes of each group of four characters. *)
Fixpoint index_of (c : ascii) (s : string) (i : Z) : option Z :=
  match s with
  | EmptyString => None
  | String x s' => if Ascii.eqb c x then Some i else index_of c s' (i + 1)
  end.

Definition sextet (c : ascii) : Z := default 0 (index_of c base64.encodeStd 0).

Definition byte_of (z : Z) : ascii := Ascii.ascii_of_N (Z.to_N z).

Fixpoint read_base64 (s : string) : string :=
  match s with
  | String c0 (String c1 (String c2 (String c3 rest))) =>
    let w := sextet c0 * 262144 + sextet c1 * 4096 + sextet c2 * 64 + sextet c3 in
    if Ascii.eqb c2 base64.pad then String (byte_of (w / 65536)) EmptyString
    else if Ascii.eqb c3 base64.pad then
      String (byte_of (w / 65536)) (String (byte_of (w / 256 mod 256)) EmptyString)
    else
      String (byte_of (w / 65536))
        (String (byte_of (w / 256 mod 256))
           (String (byte_of (w mod 256)) (read_base64 rest)))
  | _ => EmptyString
  end.

(** * Theorems *)

(** ** Bytes, runes and digits *)

Lemma byte_val_bounds (c : ascii) : 0 <= byte_val c < 256.
Proof.
  unfold byte_val. pose proof (Ascii.N_ascii_bounded c). lia.
Qed.

Lemma lor_ge_64 (a b : Z) :
  0 <= a -> 0 <= b -> 64 <= a \/ 64 <= b -> 64 <= Z.lor a b.
Proof.
  intros Ha Hb Hab.
  assert (Hl : 0 <= Z.lor a b) by (apply Z.lor_nonneg; lia).
  assert (H6 : 6 <= Z.log2 (Z.lor a b)).
  { rewrite Z.log2_lor by lia.
    destruct Hab as [H | H]; apply (Z.log2_le_mono 64) in H;
      change (Z.log2 64) with 6 in H; lia. }
  destruct (Z.eq_dec (Z.lor a b) 0) as [E | E].
  - rewrite E in H6. change (Z.log2 0) with 0 in H6. lia.
  - pose proof (Z.log2_spec (Z.lor a b) ltac:(lia)) as [Hlow _].
    assert (2 ^ 6 <= 2 ^ Z.log2 (Z.lor a b)) by (apply Z.pow_le_mono_r; lia).
    change (2 ^ 6) with 64 in *. lia.
Qed.

Lemma land_low (b n : Z) : 0 <= n -> Z.land b (Z.ones n) = b mod 2 ^ n.
Proof. intros. now apply Z.land_ones. Qed.

Lemma DecodeRune_ascii (c : ascii) (s : string) :
  byte_val c < 128 ->
  utf8.DecodeRuneInString (String c s) = (byte_val c, 1%nat).
Proof.
  intros H. unfold utf8.DecodeRuneInString.
  destruct (Z.ltb_spec (byte_val c) 128); [reflexivity | lia].
Qed.

Ltac rune_bits :=
  change 31 with (Z.ones 5); change 15 with (Z.ones 4);
  change 7 with (Z.ones 3); change 63 with (Z.ones 6);
  rewrite ?land_low, ?Z.shiftl_mul_pow2 by lia;
  change (2 ^ 3) with 8; change (2 ^ 4) with 16; change (2 ^ 5) with 32;
  change (2 ^ 6) with 64; change (2 ^ 12) with 4096;
  change (2 ^ 18) with 262144.

Ltac mod_lia := Z.to_euclidean_division_equations; lia.

Ltac lor_nonneg := repeat (apply Z.lor_nonneg; split); mod_lia.

Ltac rune_ge :=
  first [ mod_lia
        | apply lor_ge_64;
          [ lor_nonneg | lor_nonneg | first [ left; mod_lia | right; rune_ge ] ] ].

(** A byte of 0x80 or more never starts a rune below 0x40. *)
Lemma DecodeRune_high (c : ascii) (s : string) :
  128 <= byte_val c ->
  64 <= (utf8.DecodeRuneInString (String c s)).1.
Proof.
  intros H. pose proof (byte_val_bounds c) as Hc.
  unfold utf8.DecodeRuneInString.
  destruct (Z.ltb_spec (byte_val c) 128); [lia |].
  destruct (utf8.second_bounds (byte_val c)) as [lo hi] eqn:Hsb.
  assert (Hlo : hi <= 191 /\
                (byte_val c = 224 /\ lo = 160 \/ byte_val c = 240 /\ lo = 144 \/
                 byte_val c <> 224 /\ byte_val c <> 240 /\ lo = 128)).
  { unfold utf8.second_bounds in Hsb.
    repeat match type of Hsb with
           | context [Z.eqb ?x ?y] => destruct (Z.eqb_spec x y)
           end; inversion Hsb; lia. }
  clear Hsb.
  destruct Hlo as (? & [(? & ?) | [(? & ?) | (? & ? & ?)]]);
  unfold utf8.RuneError, utf8.cont, utf8.in_range;
  repeat match goal with
         | |- context [match ?x with EmptyString => _ | String _ _ => _ end] =>
           destruct x
         | |- context [if ?b then _ else _] => destruct b eqn:?
         end; simpl; try lia;
    repeat match goal with
           | E : _ && _ = true |- _ => apply andb_true_iff in E; destruct E
           | E : (_ <=? _) = true |- _ => apply Z.leb_le in E
           end;
    repeat match goal with
           | a : ascii |- _ =>
             lazymatch goal with
             | _ : 0 <= byte_val a < 256 |- _ => fail
             | _ => pose proof (byte_val_bounds a)
             end
           end;
    rune_bits; rune_ge.
Qed.

Lemma isStringUID_from_cons (c : ascii) (s : string) :
  isStringUID_from 0 (String c s) =
  let '(r, width) := utf8.DecodeRuneInString (String c s) in
  if (r <? 48) || (r >? 57) then true else isStringUID_from (Nat.pred width) s.
Proof. reflexivity. Qed.

(** The loop answers whether some byte is not an ASCII digit. *)
Lemma isStringUID_negb_all_digits (s : string) :
  isStringUID s = negb (all_digits s).
Proof.
  unfold isStringUID. induction s as [| c s IH]; [reflexivity |].
  rewrite isStringUID_from_cons. cbn [all_digits]. unfold is_digit.
  pose proof (byte_val_bounds c) as Hc.
  destruct (Z_lt_le_dec (byte_val c) 128) as [Hlow | Hhigh].
  - rewrite DecodeRune_ascii by exact Hlow. cbn [Nat.pred]. rewrite IH.
    destruct (Z.ltb_spec (byte_val c) 48), (Z.leb_spec 48 (byte_val c)),
      (Z.leb_spec (byte_val c) 57); try lia;
      destruct (byte_val c >? 57) eqn:E; try reflexivity;
      rewrite Z.gtb_ltb in E; apply Z.ltb_lt in E || apply Z.ltb_ge in E; lia.
  - pose proof (DecodeRune_high c s Hhigh) as Hr.
    destruct (utf8.DecodeRuneInString (String c s)) as [r w]. cbn in Hr.
    destruct (Z.leb_spec (byte_val c) 57); [lia |].
    rewrite andb_false_r. cbn [negb andb].
    destruct (r >? 57) eqn:E; [now rewrite orb_true_r |].
    rewrite Z.gtb_ltb in E. apply Z.ltb_ge in E. lia.
Qed.

Lemma all_digits_spec (s : string) :
  all_digits s = true <->
  forall c, In c (list_ascii_of_string s) ->
            byte_val "0" <= byte_val c <= byte_val "9".
Proof.
  change (byte_val "0") with 48. change (byte_val "9") with 57.
  induction s as [| a s IH]; cbn [all_digits list_ascii_of_string In].
  - split; [intros _ c [] | reflexivity].
  - rewrite andb_true_iff, IH. unfold is_digit. rewrite andb_true_iff, !Z.leb_le.
    split.
    + intros [Ha Hs] c [<- | Hc]; [exact Ha | exact (Hs c Hc)].
    + intros H. split; [apply H; now left | intros c Hc; apply H; now right].
Qed.

(** C2.  On every string made only of the ASCII digits 0-9, the empty
    string and "0" among them, [isStringUID] is false; on every string that
    holds a byte outside '0'-'9' it is true (a character that is not an
    ASCII digit always brings such a byte, and only such a character
    does). *)
Theorem isStringUID_digits :
  (forall s,
     (forall c, In c (list_ascii_of_string s) ->
                byte_val "0" <= byte_val c <= byte_val "9") ->
     isStringUID s = false) /\
  (forall s,
     (exists c, In c (list_ascii_of_string s) /\
                ~ (byte_val "0" <= byte_val c <= byte_val "9")) ->
     isStringUID s = true) /\
  isStringUID "" = false /\
  isStringUID "0" = false.
Proof.
  repeat split.
  - intros s H. rewrite isStringUID_negb_all_digits.
    apply all_digits_spec in H. now rewrite H.
  - intros s (c & Hin & Hc). rewrite isStringUID_negb_all_digits.
    destruct (all_digits s) eqn:E; [| reflexivity].
    exfalso. apply Hc. exact (proj1 (all_digits_spec s) E c Hin).
Qed.

Lemma isStringUID_digits_witness :
  isStringUID "12345" = false /\ isStringUID "123abc" = true.
Proof.
  split.
  - refine (proj1 isStringUID_digits "12345" _).
    cbn. intros c H.
    repeat (destruct H as [<- | H]; [vm_compute; split; discriminate |]).
    destruct H.
  - refine (proj1 (proj2 isStringUID_digits) "123abc" _).
    exists "a"%char. split; [cbn; tauto | vm_compute; intros [_ H]; now apply H].
Defined.

Example isStringUID_12345 : isStringUID "12345" = false.
Proof. reflexivity. Qed.
Example isStringUID_user123 : isStringUID "user123" = true.
Proof. reflexivity. Qed.
Example isStringUID_123abc : isStringUID "123abc" = true.
Proof. reflexivity. Qed.
Example isStringUID_empty : isStringUID "" = false.
Proof. reflexivity. Qed.
Example isStringUID_zero : isStringUID "0" = false.
Proof. reflexivity. Qed.

(** ** getTTSConfig *)

Lemma is_empty_true (x : string) : is_empty x = true <-> x = "".
Proof. unfold is_empty. apply String.eqb_eq. Qed.

Lemma is_empty_false (x : string) : is_empty x = false <-> x <> "".
Proof. unfold is_empty. apply String.eqb_neq. Qed.

Section Resolver.

Variable rt : Runtime.
Variable s : ConvoAIService.

Section Microsoft.

Hypothesis vendor : ConvoAIConfig.TTSVendor (config s) = "microsoft".

Lemma tts_microsoft_nil :
  ConvoAIConfig.MicrosoftTTS (config s) = None ->
  getTTSConfig rt s = (None, Some "missing Microsoft TTS configuration").
Proof using vendor.
  intros H. unfold getTTSConfig. rewrite vendor, H. reflexivity.
Qed.

Lemma tts_microsoft_empty (ms : MicrosoftTTSConfig.t) :
  ConvoAIConfig.MicrosoftTTS (config s) = Some ms ->
  ~ microsoft_complete ms ->
  getTTSConfig rt s = (None, Some "missing Microsoft TTS configuration").
Proof using vendor.
  intros H Hinc. unfold getTTSConfig. rewrite vendor, H. cbn.
  destruct (_ || _) eqn:E; [reflexivity |].
  exfalso. apply Hinc.
  rewrite !orb_false_iff, !is_empty_false in E. unfold microsoft_complete. tauto.
Qed.

Lemma tts_microsoft_parse (ms : MicrosoftTTSConfig.t) :
  ConvoAIConfig.MicrosoftTTS (config s) = Some ms ->
  microsoft_complete ms ->
  getTTSConfig rt s =
  match strconv_ParseFloat rt (MicrosoftTTSConfig.Rate ms) 64,
        strconv_ParseFloat rt (MicrosoftTTSConfig.Volume ms) 64 with
  | (_, Some e), _ => (None, Some ("invalid rate value: " +:+ e))
  | (_, None), (_, Some e) => (None, Some ("invalid volume value: " +:+ e))
  | (rate, None), (volume, None) =>
    (Some {| TTSConfig.Vendor := "microsoft";
             TTSConfig.Params :=
               <["key" := AString (MicrosoftTTSConfig.Key ms)]>
               (<["region" := AString (MicrosoftTTSConfig.Region ms)]>
               (<["voice_name" := AString (MicrosoftTTSConfig.VoiceName ms)]>
               (<["rate" := AFloat64 rate]>
               (<["volume" := AFloat64 volume]> ∅)))) |}, None)
  end.
Proof using vendor.
  intros H (Hk & Hr & Hv & Hra & Hvo). unfold getTTSConfig. rewrite vendor, H. cbn.
  apply is_empty_false in Hk, Hr, Hv, Hra, Hvo.
  rewrite Hk, Hr, Hv, Hra, Hvo. cbn.
  destruct (strconv_ParseFloat rt (MicrosoftTTSConfig.Rate ms) 64) as [rate [e |]];
    [reflexivity |].
  destruct (strconv_ParseFloat rt (MicrosoftTTSConfig.Volume ms) 64)
    as [volume [e |]]; reflexivity.
Qed.

End Microsoft.

Section ElevenLabs.

Hypothesis vendor : ConvoAIConfig.TTSVendor (config s) = "elevenlabs".

Lemma tts_elevenlabs_nil :
  ConvoAIConfig.ElevenLabsTTS (config s) = None ->
  getTTSConfig rt s = (None, Some "missing ElevenLabs TTS configuration").
Proof using vendor.
  intros H. unfold getTTSConfig. rewrite vendor, H. reflexivity.
Qed.

Lemma tts_elevenlabs_empty (el : ElevenLabsTTSConfig.t) :
  ConvoAIConfig.ElevenLabsTTS (config s) = Some el ->
  ~ elevenlabs_complete el ->
  getTTSConfig rt s = (None, Some "missing ElevenLabs TTS configuration").
Proof using vendor.
  intros H Hinc. unfold getTTSConfig. rewrite vendor, H. cbn.
  destruct (_ || _) eqn:E; [reflexivity |].
  exfalso. apply Hinc.
  rewrite !orb_false_iff, !is_empty_false in E. unfold elevenlabs_complete. tauto.
Qed.

Lemma tts_elevenlabs_ok (el : ElevenLabsTTSConfig.t) :
  ConvoAIConfig.ElevenLabsTTS (config s) = Some el ->
  elevenlabs_complete el ->
  getTTSConfig rt s =
  (Some {| TTSConfig.Vendor := "elevenlabs";
           TTSConfig.Params :=
             <["api_key" := AString (ElevenLabsTTSConfig.Key el)]>
             (<["model_id" := AString (ElevenLabsTTSConfig.ModelID el)]>
             (<["voice_id" := AString (ElevenLabsTTSConfig.VoiceID el)]> ∅)) |},
   None).
Proof using vendor.
  intros H (Hk & Hm & Hv). unfold getTTSConfig. rewrite vendor, H. cbn.
  apply is_empty_false in Hk, Hm, Hv. rewrite Hk, Hm, Hv. reflexivity.
Qed.

End ElevenLabs.

Lemma tts_unsupported :
  ConvoAIConfig.TTSVendor (config s) <> "microsoft" ->
  ConvoAIConfig.TTSVendor (config s) <> "elevenlabs" ->
  getTTSConfig rt s =
  (None, Some ("unsupported TTS vendor: " +:+ ConvoAIConfig.TTSVendor (config s))).
Proof.
  intros Hm He. unfold getTTSConfig.
  apply String.eqb_neq in Hm, He.
  unfold TTSVendorMicrosoft, TTSVendorElevenLabs. now rewrite Hm, He.
Qed.

(** The pointer and the error are never both nil, nor both set. *)
Lemma tts_exclusive :
  (exists tts, getTTSConfig rt s = (Some tts, None)) \/
  (exists e, getTTSConfig rt s = (None, Some e)).
Proof.
  unfold getTTSConfig.
  repeat match goal with
         | |- context [if ?b then _ else _] => destruct b
         | |- context [match ?x with Some _ => _ | None => _ end] => destruct x
         | |- context [let '(_, _) := ?x in _] => destruct x
         end; eauto.
Qed.

End Resolver.

Lemma microsoft_incomplete_not_complete (ms : MicrosoftTTSConfig.t) :
  microsoft_incomplete ms -> ~ microsoft_complete ms.
Proof. unfold microsoft_incomplete, microsoft_complete. tauto. Qed.

Lemma elevenlabs_incomplete_not_complete (el : ElevenLabsTTSConfig.t) :
  elevenlabs_incomplete el -> ~ elevenlabs_complete el.
Proof. unfold elevenlabs_incomplete, elevenlabs_complete. tauto. Qed.

(** C1, as the code has it.  With the Microsoft tag: when the
    configuration is absent or one of key, region, voiceName, rate, volume
    is empty, no payload and an error; when all five are set and rate does
    not parse, no payload and the error "invalid rate value: ..."; when
    rate parses and volume does not, no payload and the error "invalid
    volume value: ..."; when both parse, no error and a payload tagged
    "microsoft" whose params hold the parsed floats under "rate" and
    "volume", next to the three strings. *)
Theorem getTTSConfig_microsoft (rt : Runtime) (s : ConvoAIService) :
  ConvoAIConfig.TTSVendor (config s) = "microsoft" ->
  (ConvoAIConfig.MicrosoftTTS (config s) = None ->
   getTTSConfig rt s = (None, Some "missing Microsoft TTS configuration")) /\
  (forall ms,
     ConvoAIConfig.MicrosoftTTS (config s) = Some ms ->
     (microsoft_incomplete ms ->
      getTTSConfig rt s = (None, Some "missing Microsoft TTS configuration")) /\
     (microsoft_complete ms ->
      (forall r e,
         strconv_ParseFloat rt (MicrosoftTTSConfig.Rate ms) 64 = (r, Some e) ->
         getTTSConfig rt s = (None, Some ("invalid rate value: " +:+ e))) /\
      (forall r v e,
         strconv_ParseFloat rt (MicrosoftTTSConfig.Rate ms) 64 = (r, None) ->
         strconv_ParseFloat rt (MicrosoftTTSConfig.Volume ms) 64 = (v, Some e) ->
         getTTSConfig rt s = (None, Some ("invalid volume value: " +:+ e))) /\
      (forall r v,
         strconv_ParseFloat rt (MicrosoftTTSConfig.Rate ms) 64 = (r, None) ->
         strconv_ParseFloat rt (MicrosoftTTSConfig.Volume ms) 64 = (v, None) ->
         exists tts,
           getTTSConfig rt s = (Some tts, None) /\
           TTSConfig.Vendor tts = "microsoft" /\
           TTSConfig.Params tts !! "rate" = Some (AFloat64 r) /\
           TTSConfig.Params tts !! "volume" = Some (AFloat64 v) /\
           TTSConfig.Params tts !! "key" = Some (AString (MicrosoftTTSConfig.Key ms)) /\
           TTSConfig.Params tts !! "region" =
             Some (AString (MicrosoftTTSConfig.Region ms)) /\
           TTSConfig.Params tts !! "voice_name" =
             Some (AString (MicrosoftTTSConfig.VoiceName ms))))).
Proof.
  intros Hv. split; [apply tts_microsoft_nil; exact Hv |].
  intros ms Hms. split.
  - intros Hinc. apply (tts_microsoft_empty rt s Hv ms Hms).
    now apply microsoft_incomplete_not_complete.
  - intros Hc. pose proof (tts_microsoft_parse rt s Hv ms Hms Hc) as E.
    repeat split.
    + intros r e Hr. now rewrite Hr in E.
    + intros r v e Hr Hvol. now rewrite Hr, Hvol in E.
    + intros r v Hr Hvol. rewrite Hr, Hvol in E.
      eexists. split; [exact E |]. cbn. repeat split.
Qed.

Lemma getTTSConfig_microsoft_witness :
  exists tts,
    getTTSConfig fixtures.testRuntime
      fixtures.NewTestConvoAIService = (Some tts, None) /\
    TTSConfig.Vendor tts = "microsoft" /\
    TTSConfig.Params tts !! "rate" = Some (AFloat64 1.0%float) /\
    TTSConfig.Params tts !! "volume" = Some (AFloat64 1.0%float) /\
    TTSConfig.Params tts !! "key" = Some (AString "test-ms-key") /\
    TTSConfig.Params tts !! "region" = Some (AString "eastus") /\
    TTSConfig.Params tts !! "voice_name" = Some (AString "en-US-AriaNeural").
Proof.
  refine (proj2 (proj2 (proj2 (proj2
    (getTTSConfig_microsoft fixtures.testRuntime
       fixtures.NewTestConvoAIService eq_refl)
    fixtures.testMicrosoftTTS eq_refl) _))
    1.0%float 1.0%float eq_refl eq_refl).
  unfold microsoft_complete. cbn. repeat split; discriminate.
Defined.

(** C1, refuted as stated: with all five fields set and neither rate nor
    volume a number, the error is the one about rate and does not mention
    volume. *)
Lemma getTTSConfig_volume_counterexample :
  let rt := fixtures.testRuntime in
  let ms := MicrosoftTTSConfig.mk "k" "eastus" "v" "fast" "loud" in
  let s := fixtures.serviceWith "microsoft" (Some ms) None
             fixtures.MockTokenService in
  let e := "invalid rate value: strconv.ParseFloat: parsing " +:+ dquote +:+
           "fast" +:+ dquote +:+ ": invalid syntax" in
  microsoft_complete ms /\
  ~ parses rt (MicrosoftTTSConfig.Volume ms) /\
  getTTSConfig rt s = (None, Some e) /\
  contains "invalid volume value" e = false.
Proof.
  cbv zeta. repeat split; try discriminate; try reflexivity.
Qed.

Lemma microsoft_complete_dec (ms : MicrosoftTTSConfig.t) :
  microsoft_complete ms \/ microsoft_incomplete ms.
Proof.
  unfold microsoft_complete, microsoft_incomplete.
  destruct (string_dec (MicrosoftTTSConfig.Key ms) ""),
    (string_dec (MicrosoftTTSConfig.Region ms) ""),
    (string_dec (MicrosoftTTSConfig.VoiceName ms) ""),
    (string_dec (MicrosoftTTSConfig.Rate ms) ""),
    (string_dec (MicrosoftTTSConfig.Volume ms) ""); tauto.
Qed.

Lemma elevenlabs_complete_dec (el : ElevenLabsTTSConfig.t) :
  elevenlabs_complete el \/ elevenlabs_incomplete el.
Proof.
  unfold elevenlabs_complete, elevenlabs_incomplete.
  destruct (string_dec (ElevenLabsTTSConfig.Key el) ""),
    (string_dec (ElevenLabsTTSConfig.ModelID el) ""),
    (string_dec (ElevenLabsTTSConfig.VoiceID el) ""); tauto.
Qed.

(** C7, as the code has it.  A missing vendor configuration, or one with an
    empty required field, is reported by the vendor's single message,
    "missing Microsoft TTS configuration" or "missing ElevenLabs TTS
    configuration", whichever field it is; a tag that is neither vendor's
    is reported by "unsupported TTS vendor: " followed by the tag.  These
    are all the errors of getTTSConfig but two: "invalid rate value: ..."
    and "invalid volume value: ...", for a Microsoft configuration with
    its five fields set whose rate, or whose volume after a rate that
    parses, the number parser refuses.  No error comes with a payload. *)
Theorem getTTSConfig_errors (rt : Runtime) (s : ConvoAIService) :
  let tag := ConvoAIConfig.TTSVendor (config s) in
  let microsoft_missing :=
    ConvoAIConfig.MicrosoftTTS (config s) = None \/
    exists ms, ConvoAIConfig.MicrosoftTTS (config s) = Some ms /\
               microsoft_incomplete ms in
  let elevenlabs_missing :=
    ConvoAIConfig.ElevenLabsTTS (config s) = None \/
    exists el, ConvoAIConfig.ElevenLabsTTS (config s) = Some el /\
               elevenlabs_incomplete el in
  (tag = "microsoft" -> microsoft_missing ->
   getTTSConfig rt s = (None, Some "missing Microsoft TTS configuration")) /\
  (tag = "elevenlabs" -> elevenlabs_missing ->
   getTTSConfig rt s = (None, Some "missing ElevenLabs TTS configuration")) /\
  (tag <> "microsoft" -> tag <> "elevenlabs" ->
   getTTSConfig rt s = (None, Some ("unsupported TTS vendor: " +:+ tag))) /\
  (forall payload e,
     getTTSConfig rt s = (payload, Some e) ->
     payload = None /\
     ((tag = "microsoft" /\ microsoft_missing /\
       e = "missing Microsoft TTS configuration") \/
      (tag = "elevenlabs" /\ elevenlabs_missing /\
       e = "missing ElevenLabs TTS configuration") \/
      (tag <> "microsoft" /\ tag <> "elevenlabs" /\
       e = "unsupported TTS vendor: " +:+ tag) \/
      (tag = "microsoft" /\
       exists ms parse_error,
         ConvoAIConfig.MicrosoftTTS (config s) = Some ms /\
         microsoft_complete ms /\
         ((strconv_ParseFloat rt (MicrosoftTTSConfig.Rate ms) 64).2 =
            Some parse_error /\
          e = "invalid rate value: " +:+ parse_error \/
          parses rt (MicrosoftTTSConfig.Rate ms) /\
          (strconv_ParseFloat rt (MicrosoftTTSConfig.Volume ms) 64).2 =
            Some parse_error /\
          e = "invalid volume value: " +:+ parse_error)))).
Proof.
  cbv zeta.
  assert (Hms : ConvoAIConfig.TTSVendor (config s) = "microsoft" ->
                (ConvoAIConfig.MicrosoftTTS (config s) = None \/
                 exists ms, ConvoAIConfig.MicrosoftTTS (config s) = Some ms /\
                            microsoft_incomplete ms) ->
                getTTSConfig rt s =
                (None, Some "missing Microsoft TTS configuration")).
  { intros Hv [Hnil | (ms & Hms & Hinc)].
    - now apply tts_microsoft_nil.
    - apply (tts_microsoft_empty rt s Hv ms Hms).
      now apply microsoft_incomplete_not_complete. }
  assert (Hel : ConvoAIConfig.TTSVendor (config s) = "elevenlabs" ->
                (ConvoAIConfig.ElevenLabsTTS (config s) = None \/
                 exists el, ConvoAIConfig.ElevenLabsTTS (config s) = Some el /\
                            elevenlabs_incomplete el) ->
                getTTSConfig rt s =
                (None, Some "missing ElevenLabs TTS configuration")).
  { intros Hv [Hnil | (el & Hel & Hinc)].
    - now apply tts_elevenlabs_nil.
    - apply (tts_elevenlabs_empty rt s Hv el Hel).
      now apply elevenlabs_incomplete_not_complete. }
  split; [exact Hms |]. split; [exact Hel |].
  split; [apply tts_unsupported |].
  intros payload e.
  destruct (string_dec (ConvoAIConfig.TTSVendor (config s)) "microsoft") as [Hv | Hv].
  - destruct (ConvoAIConfig.MicrosoftTTS (config s)) as [ms |] eqn:Hc.
    2: { rewrite (Hms Hv) by now left. intros [= <- <-]. split; [reflexivity |].
         left. auto. }
    destruct (microsoft_complete_dec ms) as [Hall | Hinc].
    2: { rewrite (Hms Hv) by (right; eauto). intros [= <- <-].
         split; [reflexivity |]. left. repeat split; eauto. }
    rewrite (tts_microsoft_parse rt s Hv ms Hc Hall). unfold parses.
    destruct (strconv_ParseFloat rt (MicrosoftTTSConfig.Rate ms) 64)
      as [rate [e1 |]] eqn:Hr.
    { intros [= <- <-]. split; [reflexivity |]. do 3 right.
      split; [exact Hv |]. exists ms, e1.
      split; [reflexivity |]. split; [exact Hall |]. left.
      rewrite Hr. now split. }
    destruct (strconv_ParseFloat rt (MicrosoftTTSConfig.Volume ms) 64)
      as [volume [e2 |]] eqn:Hvol; [| discriminate].
    intros [= <- <-]. split; [reflexivity |]. do 3 right.
    split; [exact Hv |]. exists ms, e2.
    split; [reflexivity |]. split; [exact Hall |]. right.
    rewrite Hr, Hvol. now repeat split.
  - destruct (string_dec (ConvoAIConfig.TTSVendor (config s)) "elevenlabs")
      as [Hv' | Hv'].
    + destruct (ConvoAIConfig.ElevenLabsTTS (config s)) as [el |] eqn:Hc.
      2: { rewrite (Hel Hv') by now left. intros [= <- <-].
           split; [reflexivity |]. right. left. auto. }
      destruct (elevenlabs_complete_dec el) as [Hall | Hinc].
      * rewrite (tts_elevenlabs_ok rt s Hv' el Hc Hall). discriminate.
      * rewrite (Hel Hv') by (right; eauto). intros [= <- <-].
        split; [reflexivity |]. right. left. repeat split; eauto.
    + rewrite (tts_unsupported rt s Hv Hv'). intros [= <- <-].
      split; [reflexivity |]. right. right. left. auto.
Qed.

Lemma getTTSConfig_errors_witness :
  getTTSConfig fixtures.testRuntime
    (fixtures.serviceWith "unsupported" None None fixtures.MockTokenService) =
  (None, Some "unsupported TTS vendor: unsupported").
Proof.
  refine (proj1 (proj2 (proj2
    (getTTSConfig_errors fixtures.testRuntime
       (fixtures.serviceWith "unsupported" None None fixtures.MockTokenService))))
    _ _); cbn; discriminate.
Defined.

(** C7, refuted as stated: a Microsoft configuration whose only empty field
    is the region and one whose only empty field is the key get the same
    message, which does not mention the region; the same for ElevenLabs
    and the voice ID. *)
Lemma getTTSConfig_field_counterexample :
  let rt := fixtures.testRuntime in
  let with_ms ms :=
    fixtures.serviceWith "microsoft" (Some ms) None fixtures.MockTokenService in
  let with_el el :=
    fixtures.serviceWith "elevenlabs" None (Some el) fixtures.MockTokenService in
  getTTSConfig rt (with_ms (MicrosoftTTSConfig.mk "k" "" "v" "1.0" "1.0")) =
    (None, Some "missing Microsoft TTS configuration") /\
  getTTSConfig rt (with_ms (MicrosoftTTSConfig.mk "" "eastus" "v" "1.0" "1.0")) =
    (None, Some "missing Microsoft TTS configuration") /\
  contains "egion" "missing Microsoft TTS configuration" = false /\
  getTTSConfig rt (with_el (ElevenLabsTTSConfig.mk "k" "" "m")) =
    (None, Some "missing ElevenLabs TTS configuration") /\
  getTTSConfig rt (with_el (ElevenLabsTTSConfig.mk "" "voice" "m")) =
    (None, Some "missing ElevenLabs TTS configuration") /\
  contains "oice" "missing ElevenLabs TTS configuration" = false.
Proof. cbv zeta. repeat split. Qed.

(** ** The invite handler, step by step *)

Section Builder.

Variable rt : Runtime.
Variable s : ConvoAIService.
Variable req : InviteAgentRequest.t.

Lemma build_token_error (t : string) (e : error) :
  GenRtcToken (tokenService s) (tokenReq req) = (t, Some e) ->
  HandleInviteAgent_build rt s req =
  (Err ("failed to generate token: " +:+ e), [EvGenRtcToken (tokenReq req)]).
Proof.
  intros H. unfold HandleInviteAgent_build, call_GenRtcToken. cbn.
  rewrite H. reflexivity.
Qed.

Lemma build_tts_error (token : string) (e : error) :
  GenRtcToken (tokenService s) (tokenReq req) = (token, None) ->
  getTTSConfig rt s = (None, Some e) ->
  HandleInviteAgent_build rt s req =
  (Err ("failed to get TTS config: " +:+ e), [EvGenRtcToken (tokenReq req)]).
Proof.
  intros H Ht. unfold HandleInviteAgent_build, call_GenRtcToken. cbn.
  rewrite H. cbn. rewrite Ht. reflexivity.
Qed.

Lemma build_ok (token : string) (tts : TTSConfig.t) :
  GenRtcToken (tokenService s) (tokenReq req) = (token, None) ->
  getTTSConfig rt s = (Some tts, None) ->
  HandleInviteAgent_build rt s req =
  (Ret (agoraReq rt s req token tts), [EvGenRtcToken (tokenReq req)]).
Proof.
  intros H Ht. unfold HandleInviteAgent_build, call_GenRtcToken. cbn.
  rewrite H. cbn. rewrite Ht. reflexivity.
Qed.

(** The builder ends with a request body only along [build_ok]. *)
Lemma build_Ret_inv (p : AgoraStartRequest.t) (tr : list Event) :
  HandleInviteAgent_build rt s req = (Ret p, tr) ->
  exists token tts,
    GenRtcToken (tokenService s) (tokenReq req) = (token, None) /\
    getTTSConfig rt s = (Some tts, None) /\
    p = agoraReq rt s req token tts /\
    tr = [EvGenRtcToken (tokenReq req)].
Proof.
  destruct (GenRtcToken (tokenService s) (tokenReq req)) as [token [e |]] eqn:Hg.
  - rewrite (build_token_error _ _ Hg). discriminate.
  - destruct (tts_exclusive rt s) as [[tts Ht] | [e Ht]].
    + rewrite (build_ok _ _ Hg Ht). intros [= <- <-]. eauto 6.
    + rewrite (build_tts_error _ _ Hg Ht). discriminate.
Qed.

(** The builder never calls the agent platform. *)
Lemma build_no_platform_call :
  no_platform_call (trace (HandleInviteAgent_build rt s req)) = true.
Proof.
  destruct (GenRtcToken (tokenService s) (tokenReq req)) as [token [e |]] eqn:Hg.
  - now rewrite (build_token_error _ _ Hg).
  - destruct (tts_exclusive rt s) as [[tts Ht] | [e Ht]].
    + now rewrite (build_ok _ _ Hg Ht).
    + now rewrite (build_tts_error _ _ Hg Ht).
Qed.

(** An error of the builder is the error of the handler. *)
Lemma HandleInviteAgent_build_error (e : error) (tr : list Event) :
  HandleInviteAgent_build rt s req = (Err e, tr) ->
  HandleInviteAgent rt s req = (Err e, tr).
Proof. intros H. unfold HandleInviteAgent. now rewrite H. Qed.

Lemma HandleInviteAgent_build_ok (p : AgoraStartRequest.t) (tr : list Event) :
  HandleInviteAgent_build rt s req = (Ret p, tr) ->
  HandleInviteAgent rt s req =
  (outcome (HandleInviteAgent_send rt s p),
   (tr ++ trace (HandleInviteAgent_send rt s p))%list).
Proof.
  intros H. unfold HandleInviteAgent. rewrite H. unfold mbind, M_bind.
  now destruct (HandleInviteAgent_send rt s p) as [o tr'].
Qed.

End Builder.

(** C3.  Whatever the request (accepted by validation or not), the
    configuration and the outside, a request body that HandleInviteAgent
    builds has IdleTimeout 30, VAD silence 480 ms, speech 15000 ms,
    threshold 0.5, interrupt 160 ms, prefix padding 300 ms, and LLM
    MaxHistory 10, temperature 0.7, top-p 0.95, MaxTokens 1024. *)
Theorem build_fixed_tuning (rt : Runtime) (s : ConvoAIService)
    (req : InviteAgentRequest.t) (p : AgoraStartRequest.t) (tr : list Event) :
  HandleInviteAgent_build rt s req = (Ret p, tr) ->
  fixed_tuning p.
Proof.
  intros H. apply build_Ret_inv in H as (token & tts & _ & _ & -> & _).
  unfold fixed_tuning. cbn. repeat split.
Qed.

Lemma build_fixed_tuning_witness :
  validateInviteRequest fixtures.NewTestConvoAIService
    (fixtures.testInvite "123" "test-channel" None None) = None /\
  fixed_tuning
    (agoraReq fixtures.testRuntime
       fixtures.NewTestConvoAIService
       (fixtures.testInvite "123" "test-channel" None None)
       "mock-rtc-token"
       {| TTSConfig.Vendor := "microsoft";
          TTSConfig.Params :=
            <["key" := AString "test-ms-key"]>
            (<["region" := AString "eastus"]>
            (<["voice_name" := AString "en-US-AriaNeural"]>
            (<["rate" := AFloat64 1.0%float]>
            (<["volume" := AFloat64 1.0%float]> ∅)))) |}).
Proof.
  split; [reflexivity |].
  refine (build_fixed_tuning fixtures.testRuntime
            fixtures.NewTestConvoAIService
            (fixtures.testInvite "123" "test-channel" None None) _
            [EvGenRtcToken (tokenReq (fixtures.testInvite "123" "test-channel" None None))]
            _).
  reflexivity.
Defined.

(** C10.  For every requester identity, "0" included, the remote
    identities of the request body are the one-element sequence holding
    that identity as given. *)
Theorem remote_uids_single (rt : Runtime) (s : ConvoAIService)
    (req : InviteAgentRequest.t) (p : AgoraStartRequest.t) (tr : list Event) :
  HandleInviteAgent_build rt s req = (Ret p, tr) ->
  Properties.RemoteRtcUIDs (AgoraStartRequest.Properties p) =
    Some [InviteAgentRequest.RequesterID req] /\
  getRemoteRtcUIDs (InviteAgentRequest.RequesterID req) =
    Some [InviteAgentRequest.RequesterID req] /\
  getRemoteRtcUIDs "0" = Some ["0"].
Proof.
  intros H. apply build_Ret_inv in H as (token & tts & _ & _ & -> & _).
  repeat split.
Qed.

Lemma remote_uids_single_witness :
  let req := fixtures.testInvite "0" "test-channel" None None in
  let p :=
    agoraReq fixtures.testRuntime
      fixtures.NewTestConvoAIService req "mock-rtc-token"
      {| TTSConfig.Vendor := "microsoft";
         TTSConfig.Params :=
           <["key" := AString "test-ms-key"]>
           (<["region" := AString "eastus"]>
           (<["voice_name" := AString "en-US-AriaNeural"]>
           (<["rate" := AFloat64 1.0%float]>
           (<["volume" := AFloat64 1.0%float]> ∅)))) |} in
  Properties.RemoteRtcUIDs (AgoraStartRequest.Properties p) = Some ["0"] /\
  getRemoteRtcUIDs "0" = Some ["0"] /\
  getRemoteRtcUIDs "0" = Some ["0"].
Proof.
  refine (remote_uids_single fixtures.testRuntime
            fixtures.NewTestConvoAIService
            (fixtures.testInvite "0" "test-channel" None None) _
            [EvGenRtcToken (tokenReq (fixtures.testInvite "0" "test-channel" None None))]
            _).
  reflexivity.
Defined.

(** ** Modalities *)

Lemma default_modalities (fallback : list string) (requested : slice string) :
  (if (len requested =? 0)%nat then Some fallback else requested) =
  requested_or fallback requested.
Proof. now destruct requested as [[| x l] |]. Qed.

(** The configured modality strings are read nowhere in the handlers. *)
Lemma HandleInviteAgent_config_modalities (rt : Runtime) (s : ConvoAIService)
    (req : InviteAgentRequest.t) (input output : string) :
  HandleInviteAgent_build rt (with_config_modalities input output s) req =
    HandleInviteAgent_build rt s req /\
  HandleInviteAgent rt (with_config_modalities input output s) req =
    HandleInviteAgent rt s req.
Proof. split; reflexivity. Qed.

(** C4.  In a request body that HandleInviteAgent builds, the input
    modalities are the request's when it has at least one and ["text"] when
    its slice is nil or empty, the output modalities are the request's when
    it has at least one and ["text", "audio"] otherwise; what the request
    holds is taken as it is, element by element unchecked; and the
    InputModalities and OutputModalities strings of the configuration do
    not change the body. *)
Theorem build_modalities (rt : Runtime) (s : ConvoAIService)
    (req : InviteAgentRequest.t) (p : AgoraStartRequest.t) (tr : list Event) :
  HandleInviteAgent_build rt s req = (Ret p, tr) ->
  let llm := Properties.LLM (AgoraStartRequest.Properties p) in
  LLM.InputModalities llm =
    requested_or ["text"] (InviteAgentRequest.InputModalities req) /\
  LLM.OutputModalities llm =
    requested_or ["text"; "audio"] (InviteAgentRequest.OutputModalities req) /\
  (forall input output,
     HandleInviteAgent_build rt (with_config_modalities input output s) req =
     (Ret p, tr)).
Proof.
  intros H. cbv zeta. split; [| split].
  - apply build_Ret_inv in H as (token & tts & _ & _ & -> & _).
    apply default_modalities.
  - apply build_Ret_inv in H as (token & tts & _ & _ & -> & _).
    apply default_modalities.
  - intros input output.
    now rewrite (proj1 (HandleInviteAgent_config_modalities rt s req input output)).
Qed.

Lemma build_modalities_witness :
  let rt := fixtures.testRuntime in
  let req := fixtures.testInvite "123" "test-channel" (Some ["video"]) (Some []) in
  let p :=
    agoraReq rt fixtures.NewTestConvoAIService req "mock-rtc-token"
      {| TTSConfig.Vendor := "microsoft";
         TTSConfig.Params :=
           <["key" := AString "test-ms-key"]>
           (<["region" := AString "eastus"]>
           (<["voice_name" := AString "en-US-AriaNeural"]>
           (<["rate" := AFloat64 1.0%float]>
           (<["volume" := AFloat64 1.0%float]> ∅)))) |} in
  let llm := Properties.LLM (AgoraStartRequest.Properties p) in
  LLM.InputModalities llm = Some ["video"] /\
  LLM.OutputModalities llm = Some ["text"; "audio"] /\
  (forall input output,
     HandleInviteAgent_build rt
       (with_config_modalities input output fixtures.NewTestConvoAIService) req =
     (Ret p, [EvGenRtcToken (tokenReq req)])).
Proof.
  refine (build_modalities fixtures.testRuntime
            fixtures.NewTestConvoAIService
            (fixtures.testInvite "123" "test-channel" (Some ["video"]) (Some []))
            _ _ _).
  reflexivity.
Defined.

(** The startup check does look at the configured strings: it refuses
    "video" there, whatever [TrimSpace] leaves of it untouched. *)
Example ValidateEnvironment_refuses_video :
  validation.ValidateEnvironment (fun x => x)
    (config (with_config_modalities "video" "" fixtures.NewTestConvoAIService)) =
  Some "config error: Invalid INPUT_MODALITIES format".
Proof. reflexivity. Qed.

Example ValidateEnvironment_accepts_text_audio :
  validation.ValidateEnvironment (fun x => x)
    (config (with_config_modalities "text,audio" "audio"
               fixtures.NewTestConvoAIService)) = None.
Proof. reflexivity. Qed.

(** ** Failures before the join call *)

(** C5, as the code has it.  When the token issuer returns an error, the
    handler returns "failed to generate token: " followed by that error,
    whatever the TTS configuration and the outside are, having called the
    token issuer and nothing else; when the token is issued and the TTS
    configuration is refused, it returns "failed to get TTS config: "
    followed by the vendor error, again without a call to the agent
    platform. *)
Theorem HandleInviteAgent_aborts (rt : Runtime) (s : ConvoAIService)
    (req : InviteAgentRequest.t) :
  (forall t e,
     GenRtcToken (tokenService s) (tokenReq req) = (t, Some e) ->
     HandleInviteAgent rt s req =
     (Err ("failed to generate token: " +:+ e), [EvGenRtcToken (tokenReq req)])) /\
  (forall token e,
     GenRtcToken (tokenService s) (tokenReq req) = (token, None) ->
     getTTSConfig rt s = (None, Some e) ->
     HandleInviteAgent rt s req =
     (Err ("failed to get TTS config: " +:+ e), [EvGenRtcToken (tokenReq req)])) /\
  no_platform_call (trace (HandleInviteAgent_build rt s req)) = true.
Proof.
  split; [| split].
  - intros t e H. apply HandleInviteAgent_build_error.
    now apply build_token_error with t.
  - intros token e H Ht. apply HandleInviteAgent_build_error.
    now apply build_tts_error with token.
  - apply build_no_platform_call.
Qed.

Lemma HandleInviteAgent_aborts_witness :
  let req := fixtures.testInvite "123" "test-channel" None None in
  HandleInviteAgent fixtures.testRuntime
    (fixtures.serviceWith "unsupported" None None
       (fixtures.FailingTokenService "boom")) req =
  (Err "failed to generate token: boom", [EvGenRtcToken (tokenReq req)]).
Proof.
  refine (proj1
    (HandleInviteAgent_aborts fixtures.testRuntime
       (fixtures.serviceWith "unsupported" None None
          (fixtures.FailingTokenService "boom"))
       (fixtures.testInvite "123" "test-channel" None None))
    EmptyString "boom" _).
  reflexivity.
Defined.

(** C5, refuted as stated: the error of a failed token issue reads
    "failed to generate token: ...", and the words "token generation
    failed" are not in it. *)
Lemma token_error_text_counterexample :
  let req := fixtures.testInvite "123" "test-channel" None None in
  HandleInviteAgent fixtures.testRuntime
    (fixtures.serviceWith "microsoft" (Some fixtures.testMicrosoftTTS) None
       (fixtures.FailingTokenService "boom")) req =
  (Err "failed to generate token: boom", [EvGenRtcToken (tokenReq req)]) /\
  contains "token generation failed" "failed to generate token: boom" = false.
Proof. cbv zeta. split; reflexivity. Qed.

(** ** The join call *)

Section Join.

Variable rt : Runtime.
Variable s : ConvoAIService.
Variable p : AgoraStartRequest.t.
Variable jsonData : string.
Variable resp : Response.t.

Hypothesis marshalled : json_Marshal rt p = (jsonData, None).
Hypothesis url_ok : http_NewRequest_err rt "POST" (join_url s) = None.
Hypothesis answered : client_Do rt 30 (join_request s jsonData) = (resp, None).

(** Up to the answer of the platform: three lines of output and one call,
    with the request the spec describes. *)
Lemma send_answered :
  HandleInviteAgent_send rt s p =
  (if negb (Response.StatusCode resp =? StatusOK) then
     Err ("failed to start conversation: status=" +:+
          pretty (Response.StatusCode resp) +:+ ", body=" +:+
          Response.Body resp +:+ ", url=" +:+ join_url s +:+ ", headers=" +:+
          fmt_Header rt (std_headers s))
   else
     match json_Decode rt (Response.Body resp) with
     | (_, Some e) => Err ("failed to decode response: " +:+ e)
     | (agoraResp, None) =>
       match index agoraResp "agent_id" with
       | AString agentID =>
         Ret {| InviteAgentResponse.AgentID := agentID;
                InviteAgentResponse.CreateTS := Unix (time_Now_reply rt);
                InviteAgentResponse.Status := "RUNNING" |}
       | v => Panic ("interface conversion: interface {} is " +:+
                     type_name v +:+ ", not string")
       end
     end,
   (join_prints rt s p ++ [EvDo 30 (join_request s jsonData)])%list).
Proof using marshalled url_ok answered.
  unfold HandleInviteAgent_send, http_NewRequest, call_Do.
  fold (join_url s). rewrite marshalled, url_ok.
  cbn -[join_request join_url std_headers pretty String.append].
  change (Request_Header_Set "Authorization" (getBasicAuth s)
            (Request_Header_Set "Content-Type" "application/json"
               (Request.mk "POST" (join_url s) (Some jsonData) ∅)))
    with (join_request s jsonData).
  rewrite answered.
  cbn -[join_request join_url std_headers pretty String.append].
  destruct (negb (Response.StatusCode resp =? StatusOK)); [reflexivity |].
  destruct (json_Decode rt (Response.Body resp)) as [agoraResp [e |]];
    [reflexivity |].
  cbn -[join_request join_url std_headers pretty String.append].
  destruct (index agoraResp "agent_id"); reflexivity.
Qed.

End Join.

(** Every way through the join call. *)
Lemma send_outcome (rt : Runtime) (s : ConvoAIService) (p : AgoraStartRequest.t) :
  outcome (HandleInviteAgent_send rt s p) =
  match json_Marshal rt p with
  | (_, Some e) => Err ("failed to marshal request: " +:+ e)
  | (jsonData, None) =>
    match http_NewRequest_err rt "POST" (join_url s) with
    | Some e => Err ("failed to create request: " +:+ e)
    | None =>
      match client_Do rt 30 (join_request s jsonData) with
      | (_, Some e) =>
        Err ("failed to send request: " +:+ e +:+
             " (URL: " +:+ join_url s +:+ ")")
      | (resp, None) =>
        if negb (Response.StatusCode resp =? StatusOK) then
          Err ("failed to start conversation: status=" +:+
               pretty (Response.StatusCode resp) +:+ ", body=" +:+
               Response.Body resp +:+ ", url=" +:+ join_url s +:+
               ", headers=" +:+ fmt_Header rt (std_headers s))
        else
          match json_Decode rt (Response.Body resp) with
          | (_, Some e) => Err ("failed to decode response: " +:+ e)
          | (agoraResp, None) =>
            match index agoraResp "agent_id" with
            | AString agentID =>
              Ret {| InviteAgentResponse.AgentID := agentID;
                     InviteAgentResponse.CreateTS := Unix (time_Now_reply rt);
                     InviteAgentResponse.Status := "RUNNING" |}
            | v => Panic ("interface conversion: interface {} is " +:+
                          type_name v +:+ ", not string")
            end
          end
      end
    end
  end.
Proof.
  destruct (json_Marshal rt p) as [jsonData [e |]] eqn:Hm.
  { unfold HandleInviteAgent_send. now rewrite Hm. }
  destruct (http_NewRequest_err rt "POST" (join_url s)) as [e |] eqn:Hu.
  { unfold HandleInviteAgent_send, http_NewRequest. fold (join_url s).
    now rewrite Hm, Hu. }
  destruct (client_Do rt 30 (join_request s jsonData)) as [resp [e |]] eqn:Hd.
  - unfold HandleInviteAgent_send, http_NewRequest, call_Do.
    fold (join_url s). rewrite Hm, Hu.
    cbn -[join_request join_url std_headers pretty String.append].
    change (Request_Header_Set "Authorization" (getBasicAuth s)
              (Request_Header_Set "Content-Type" "application/json"
                 (Request.mk "POST" (join_url s) (Some jsonData) ∅)))
      with (join_request s jsonData).
    now rewrite Hd.
  - now rewrite (send_answered rt s p jsonData resp Hm Hu Hd).
Qed.

(** A normal return needs a string under "agent_id" in a decoded answer of
    status 200. *)
Lemma HandleInviteAgent_Ret_inv (rt : Runtime) (s : ConvoAIService)
    (req : InviteAgentRequest.t) (r : InviteAgentResponse.t) :
  outcome (HandleInviteAgent rt s req) = Ret r ->
  exists p tr jsonData resp agoraResp,
    HandleInviteAgent_build rt s req = (Ret p, tr) /\
    json_Marshal rt p = (jsonData, None) /\
    client_Do rt 30 (join_request s jsonData) = (resp, None) /\
    Response.StatusCode resp = 200 /\
    json_Decode rt (Response.Body resp) = (agoraResp, None) /\
    agoraResp !! "agent_id" = Some (AString (InviteAgentResponse.AgentID r)).
Proof.
  destruct (HandleInviteAgent_build rt s req) as [[p | e | msg] tr] eqn:Hb.
  2: { unfold HandleInviteAgent. rewrite Hb. discriminate. }
  2: { unfold HandleInviteAgent. rewrite Hb. discriminate. }
  rewrite (HandleInviteAgent_build_ok rt s req p tr Hb).
  cbn [outcome fst]. fold (outcome (HandleInviteAgent_send rt s p)).
  rewrite send_outcome.
  destruct (json_Marshal rt p) as [jsonData [e |]] eqn:Hm; [discriminate |].
  destruct (http_NewRequest_err rt "POST" (join_url s)); [discriminate |].
  destruct (client_Do rt 30 (join_request s jsonData)) as [resp [e |]] eqn:Hd;
    [discriminate |].
  unfold StatusOK.
  destruct (Z.eqb_spec (Response.StatusCode resp) 200) as [E | E];
    [| discriminate]. cbn [negb].
  destruct (json_Decode rt (Response.Body resp)) as [agoraResp [e |]] eqn:Hdec;
    [discriminate |].
  unfold index.
  destruct (agoraResp !! "agent_id") as [[] |] eqn:Ea; try discriminate.
  cbn. intros [= <-]. exists p, tr, jsonData, resp, agoraResp.
  cbn. repeat split; trivial.
Qed.

(** C6.  When the token is issued, the TTS configuration resolved, the body
    marshalled and the join request answered with status 200 and a body
    that decodes: if the decoded object holds a string under "agent_id",
    HandleInviteAgent returns, with no error, that string as AgentID,
    Status "RUNNING" and the current time as CreateTS; if it holds no
    string there (the key absent, null, or of another type), the unchecked
    type assertion panics, and the handler returns neither a response nor
    an error; so a response is returned only when the string is there. *)
Theorem HandleInviteAgent_agent_id (rt : Runtime) (s : ConvoAIService)
    (req : InviteAgentRequest.t) (p : AgoraStartRequest.t) (tr : list Event)
    (jsonData : string) (resp : Response.t) (agoraResp : gmap string any) :
  HandleInviteAgent_build rt s req = (Ret p, tr) ->
  json_Marshal rt p = (jsonData, None) ->
  http_NewRequest_err rt "POST" (join_url s) = None ->
  client_Do rt 30 (join_request s jsonData) = (resp, None) ->
  Response.StatusCode resp = 200 ->
  json_Decode rt (Response.Body resp) = (agoraResp, None) ->
  (forall agentID,
     agoraResp !! "agent_id" = Some (AString agentID) ->
     outcome (HandleInviteAgent rt s req) =
     Ret {| InviteAgentResponse.AgentID := agentID;
            InviteAgentResponse.CreateTS := Unix (time_Now_reply rt);
            InviteAgentResponse.Status := "RUNNING" |}) /\
  ((forall agentID, agoraResp !! "agent_id" <> Some (AString agentID)) ->
   exists msg, outcome (HandleInviteAgent rt s req) = Panic msg) /\
  (forall r,
     outcome (HandleInviteAgent rt s req) = Ret r ->
     agoraResp !! "agent_id" = Some (AString (InviteAgentResponse.AgentID r))).
Proof.
  intros Hb Hm Hu Hd Hst Hdec.
  rewrite (HandleInviteAgent_build_ok rt s req p tr Hb).
  rewrite (send_answered rt s p jsonData resp Hm Hu Hd).
  rewrite Hst, Hdec. cbn [outcome fst negb Z.eqb Pos.eqb StatusOK].
  unfold index. split; [| split].
  - intros agentID E. now rewrite E.
  - intros Hno. destruct (agoraResp !! "agent_id") as [v |] eqn:E; cbn.
    + destruct v; eauto. now destruct (Hno s0).
    + eauto.
  - intros r. destruct (agoraResp !! "agent_id") as [[] |]; cbn;
      try discriminate. now intros [= <-].
Qed.

Lemma HandleInviteAgent_agent_id_witness :
  outcome
    (HandleInviteAgent fixtures.testRuntime
       fixtures.NewTestConvoAIService
       (fixtures.testInvite "123" "test-channel" None None)) =
  Ret {| InviteAgentResponse.AgentID := "test-agent-123";
         InviteAgentResponse.CreateTS := 1739905501;
         InviteAgentResponse.Status := "RUNNING" |}.
Proof.
  refine (proj1
    (HandleInviteAgent_agent_id
       fixtures.testRuntime
       fixtures.NewTestConvoAIService
       (fixtures.testInvite "123" "test-channel" None None)
       _ _ _ (Response.mk 200 fixtures.mockResponse)
       {[ "agent_id" := AString "test-agent-123" ]}
       eq_refl eq_refl eq_refl eq_refl eq_refl eq_refl)
    "test-agent-123" eq_refl).
Defined.

Example HandleInviteAgent_no_agent_id :
  outcome
    (HandleInviteAgent (fixtures.stub_runtime 200 "{}")
       fixtures.NewTestConvoAIService
       (fixtures.testInvite "123" "test-channel" None None)) =
  Panic "interface conversion: interface {} is nil, not string".
Proof. reflexivity. Qed.

(** ** Validation in front of the invite handler *)

Lemma validateInviteRequest_None (s : ConvoAIService)
    (req : InviteAgentRequest.t) :
  validateInviteRequest s req = None <->
  InviteAgentRequest.RequesterID req <> "" /\
  InviteAgentRequest.ChannelName req <> "" /\
  (3 <= String.length (InviteAgentRequest.ChannelName req) <= 64)%nat.
Proof.
  unfold validateInviteRequest.
  destruct (is_empty (InviteAgentRequest.RequesterID req)) eqn:Er;
    [apply is_empty_true in Er | apply is_empty_false in Er].
  { split; [discriminate | tauto]. }
  destruct (is_empty (InviteAgentRequest.ChannelName req)) eqn:Ec;
    [apply is_empty_true in Ec | apply is_empty_false in Ec].
  { split; [discriminate | tauto]. }
  destruct (Nat.ltb_spec (String.length (InviteAgentRequest.ChannelName req)) 3),
    (Nat.ltb_spec 64 (String.length (InviteAgentRequest.ChannelName req)));
    cbn; split; try discriminate; try tauto; try lia; intros (_ & _ & ?); lia.
Qed.

Lemma validateInviteRequest_Some (s : ConvoAIService)
    (req : InviteAgentRequest.t) (e : error) :
  validateInviteRequest s req = Some e -> names_violation req e.
Proof.
  unfold validateInviteRequest, names_violation.
  destruct (is_empty (InviteAgentRequest.RequesterID req)) eqn:Er.
  { apply is_empty_true in Er. intros [= <-]. now left. }
  destruct (is_empty (InviteAgentRequest.ChannelName req)) eqn:Ec.
  { apply is_empty_true in Ec. intros [= <-]. right. now left. }
  destruct (Nat.ltb_spec (String.length (InviteAgentRequest.ChannelName req)) 3),
    (Nat.ltb_spec 64 (String.length (InviteAgentRequest.ChannelName req)));
    cbn; try discriminate; intros [= <-]; right; right; split;
    try reflexivity; lia.
Qed.

(** C8.  Validation accepts an invite request exactly when requesterID is
    not empty, channelName is not empty and the length of channelName is
    between 3 and 64; so every accepted request has a channel name of 3 to
    64 bytes.  A request it refuses is answered by InviteAgent with status
    400 and the JSON object whose one key, "error", holds the message of a
    condition the request violates, and nothing has been called by then:
    not the token issuer, not the platform. *)
Theorem InviteAgent_validation (rt : Runtime) (s : ConvoAIService)
    (req : InviteAgentRequest.t) :
  (validateInviteRequest s req = None <->
   InviteAgentRequest.RequesterID req <> "" /\
   InviteAgentRequest.ChannelName req <> "" /\
   (3 <= String.length (InviteAgentRequest.ChannelName req) <= 64)%nat) /\
  (forall e,
     validateInviteRequest s req = Some e ->
     names_violation req e /\
     InviteAgent rt s {| ShouldBindJSON := (req, None) |} =
     (Ret (JSON_H StatusBadRequest {[ "error" := AString e ]}), [])).
Proof.
  split; [apply validateInviteRequest_None |].
  intros e H. split; [now apply (validateInviteRequest_Some s) |].
  unfold InviteAgent. cbn. now rewrite H.
Qed.

Lemma InviteAgent_validation_witness :
  let req := fixtures.testInvite "123" "te" None None in
  let e := "channel_name length must be between 3 and 64 characters" in
  names_violation req e /\
  InviteAgent fixtures.testRuntime
    fixtures.NewTestConvoAIService {| ShouldBindJSON := (req, None) |} =
  (Ret (JSON_H StatusBadRequest {[ "error" := AString e ]}), []).
Proof.
  refine (proj2
    (InviteAgent_validation fixtures.testRuntime
       fixtures.NewTestConvoAIService (fixtures.testInvite "123" "te" None None))
    "channel_name length must be between 3 and 64 characters" eq_refl).
Defined.

(** ** The leave call *)

Section Leave.

Variable rt : Runtime.
Variable s : ConvoAIService.
Variable req : RemoveAgentRequest.t.

Lemma remove_url_error (e : error) :
  http_NewRequest_err rt "POST" (leave_url s (RemoveAgentRequest.AgentID req)) = Some e ->
  HandleRemoveAgent rt s req = (Err ("failed to create request: " +:+ e), []).
Proof.
  intros H. unfold HandleRemoveAgent, http_NewRequest.
  fold (leave_url s (RemoveAgentRequest.AgentID req)). now rewrite H.
Qed.

(** Once the request is made: one call, with the request the spec
    describes, and a result decided by its answer. *)
Lemma remove_called (resp : Response.t) (err : option error) :
  http_NewRequest_err rt "POST" (leave_url s (RemoveAgentRequest.AgentID req)) = None ->
  client_Do rt 10 (leave_request s (RemoveAgentRequest.AgentID req)) = (resp, err) ->
  HandleRemoveAgent rt s req =
  (match err with
   | Some e => Err ("failed to send request: " +:+ e)
   | None =>
     if Response.StatusCode resp =? StatusOK then
       Ret {| RemoveAgentResponse.Success := true;
              RemoveAgentResponse.AgentID := RemoveAgentRequest.AgentID req |}
     else Err ("failed to remove agent: " +:+ pretty (Response.StatusCode resp))
   end,
   [EvDo 10 (leave_request s (RemoveAgentRequest.AgentID req))]).
Proof.
  intros Hu Hd. unfold HandleRemoveAgent, http_NewRequest, call_Do.
  fold (leave_url s (RemoveAgentRequest.AgentID req)). rewrite Hu.
  cbn -[leave_request leave_url std_headers pretty String.append].
  change (Request_Header_Set "Authorization" (getBasicAuth s)
            (Request_Header_Set "Content-Type" "application/json"
               (Request.mk "POST" (leave_url s (RemoveAgentRequest.AgentID req)) None ∅)))
    with (leave_request s (RemoveAgentRequest.AgentID req)).
  rewrite Hd. destruct err as [e |]; [reflexivity |].
  cbn -[leave_request leave_url std_headers pretty String.append].
  now destruct (Response.StatusCode resp =? StatusOK).
Qed.

End Leave.

(** C9.  For every removal request (its agentID non-empty, as validation
    leaves it, or not): HandleRemoveAgent returns a response exactly when
    its POST to [{baseURL}/{appID}/agents/{agentID}/leave] is answered with
    status 200, and the response is then success true with the agentID of
    the request; when the call is answered with any other status it
    returns no response and the error "failed to remove agent: " followed
    by that status code in decimal. *)
Theorem HandleRemoveAgent_status (rt : Runtime) (s : ConvoAIService)
    (req : RemoveAgentRequest.t) :
  let agentID := RemoveAgentRequest.AgentID req in
  let answer := client_Do rt 10 (leave_request s agentID) in
  let made := http_NewRequest_err rt "POST" (leave_url s agentID) = None in
  (forall r,
     outcome (HandleRemoveAgent rt s req) = Ret r <->
     r = {| RemoveAgentResponse.Success := true;
            RemoveAgentResponse.AgentID := agentID |} /\
     made /\ answer.2 = None /\ Response.StatusCode answer.1 = 200) /\
  (made -> answer.2 = None -> Response.StatusCode answer.1 <> 200 ->
   HandleRemoveAgent rt s req =
   (Err ("failed to remove agent: " +:+ pretty (Response.StatusCode answer.1)),
    [EvDo 10 (leave_request s agentID)])).
Proof.
  cbv zeta.
  destruct (http_NewRequest_err rt "POST"
              (leave_url s (RemoveAgentRequest.AgentID req))) as [e |] eqn:Hu.
  { rewrite (remove_url_error rt s req e Hu). split.
    - intros r. split; [discriminate | intros (_ & ? & _); discriminate].
    - discriminate. }
  destruct (client_Do rt 10 (leave_request s (RemoveAgentRequest.AgentID req)))
    as [resp err] eqn:Hd.
  rewrite (remove_called rt s req resp err Hu Hd). unfold StatusOK. cbn.
  destruct err as [e |].
  { split.
    - intros r. split; [discriminate | intros (_ & _ & ? & _); discriminate].
    - discriminate. }
  destruct (Z.eqb_spec (Response.StatusCode resp) 200) as [E | E]; split.
  - intros r. split; [intros [= <-]; tauto | intros (-> & _); reflexivity].
  - tauto.
  - intros r. split; [discriminate | tauto].
  - reflexivity.
Qed.

Lemma HandleRemoveAgent_status_witness :
  let s := fixtures.NewTestConvoAIService in
  HandleRemoveAgent (fixtures.stub_runtime 404 "") s
    (RemoveAgentRequest.mk "agent-123abc") =
  (Err "failed to remove agent: 404",
   [EvDo 10 (leave_request s "agent-123abc")]).
Proof.
  refine (proj2
    (HandleRemoveAgent_status (fixtures.stub_runtime 404 "")
       fixtures.NewTestConvoAIService (RemoveAgentRequest.mk "agent-123abc"))
    eq_refl eq_refl _); cbn; discriminate.
Defined.

Example HandleRemoveAgent_200 :
  HandleRemoveAgent (fixtures.stub_runtime 200 "") fixtures.NewTestConvoAIService
    (RemoveAgentRequest.mk "agent-123abc") =
  (Ret {| RemoveAgentResponse.Success := true;
          RemoveAgentResponse.AgentID := "agent-123abc" |},
   [EvDo 10 (Request.mk "POST"
               "https://api.example.com/test-app-id/agents/agent-123abc/leave"
               None (std_headers fixtures.NewTestConvoAIService))]).
Proof. reflexivity. Qed.

(** The Authorization header of both calls, on the configuration of the
    package's tests. *)
Example getBasicAuth_test :
  getBasicAuth fixtures.NewTestConvoAIService =
  "Basic dGVzdC1jdXN0b21lci1pZDp0ZXN0LWN1c3RvbWVyLXNlY3JldA==".
Proof. reflexivity. Qed.

(** ** The package's tests, run on the embedding *)

Section Tests.

Import fixtures.

Example TestValidateInviteRequest :
  let validate requesterID channelName :=
    validateInviteRequest NewTestConvoAIService
      (testInvite requesterID channelName None None) in
  validate "123" "test-channel" = None /\
  validate "" "test-channel" = Some "requester_id is required" /\
  validate "123" "" = Some "channel_name is required" /\
  validate "123" "te" =
    Some "channel_name length must be between 3 and 64 characters" /\
  validate "123" (string_of_list_ascii (replicate 65 "a"%char)) =
    Some "channel_name length must be between 3 and 64 characters".
Proof. repeat split. Qed.

Example TestValidateRemoveRequest :
  validateRemoveRequest NewTestConvoAIService
    (RemoveAgentRequest.mk "agent-123") = None /\
  validateRemoveRequest NewTestConvoAIService (RemoveAgentRequest.mk "") =
    Some "agent_id is required".
Proof. repeat split. Qed.

Example TestGetTTSConfig :
  let vendor_of (r : option TTSConfig.t * option error) :=
    TTSConfig.Vendor <$> r.1 in
  let failed (r : option TTSConfig.t * option error) :=
    bool_decide (r.2 <> None) in
  let run vendor ms el :=
    getTTSConfig testRuntime (serviceWith vendor ms el MockTokenService) in
  vendor_of
    (run "microsoft"
       (Some (MicrosoftTTSConfig.mk "test-key" "eastus" "en-US-AriaNeural"
                "1.0" "1.0")) None) = Some TTSVendorMicrosoft /\
  vendor_of
    (run "elevenlabs" None
       (Some (ElevenLabsTTSConfig.mk "test-key" "voice-id" "model-id"))) =
    Some TTSVendorElevenLabs /\
  failed (run "microsoft" None None) = true /\
  failed (run "elevenlabs" None None) = true /\
  failed (run "unsupported" None None) = true.
Proof. repeat split. Qed.

(** The first end-to-end scenario: requester "123" on "test-channel", the
    mock token service and a platform answering with the mock response. *)
Example InviteAgent_end_to_end :
  outcome
    (InviteAgent testRuntime NewTestConvoAIService
       {| ShouldBindJSON := (testInvite "123" "test-channel" None None, None) |}) =
  Ret (JSON_InviteAgentResponse StatusOK
         {| InviteAgentResponse.AgentID := "test-agent-123";
            InviteAgentResponse.CreateTS := Unix (time_Now_reply testRuntime);
            InviteAgentResponse.Status := "RUNNING" |}).
Proof. reflexivity. Qed.

(** A platform that refuses the join: a server error with the status. *)
Example InviteAgent_platform_refuses :
  outcome
    (InviteAgent (stub_runtime 503 "busy") NewTestConvoAIService
       {| ShouldBindJSON := (testInvite "123" "test-channel" None None, None) |}) =
  Ret (JSON_H StatusInternalServerError
         {[ "error" :=
              AString
                ("failed to start conversation: status=503, body=busy, " +:+
                 "url=https://api.example.com/test-app-id/join, headers=map[]") ]}).
Proof. reflexivity. Qed.

End Tests.

(** * The code around the claims *)

(** ** Strings *)

Lemma append_cons (x : ascii) (a b : string) :
  String x a +:+ b = String x (a +:+ b).
Proof. reflexivity. Qed.

Lemma append_nil (b : string) : EmptyString +:+ b = b.
Proof. reflexivity. Qed.

Lemma append_assoc (a b c : string) : (a +:+ b) +:+ c = a +:+ (b +:+ c).
Proof.
  induction a as [| x a IH]; [reflexivity |]. now rewrite !append_cons, IH.
Qed.

Lemma length_append (a b : string) :
  String.length (a +:+ b) = (String.length a + String.length b)%nat.
Proof.
  induction a as [| x a IH]; [reflexivity |]. rewrite append_cons. simpl.
  now rewrite IH.
Qed.

Lemma length_string_of_list_ascii (l : list ascii) :
  String.length (string_of_list_ascii l) = length l.
Proof. induction l as [| x l IH]; simpl; [reflexivity | now f_equal]. Qed.

(** Two texts that end in tails of the same length share heads and tails. *)
Lemma append_inj_tail (a b c d : string) :
  a +:+ b = c +:+ d -> String.length b = String.length d -> a = c /\ b = d.
Proof.
  revert c. induction a as [| x a IH]; intros [| y c] E L;
    rewrite ?append_cons, ?append_nil in E.
  - now split.
  - exfalso. apply (f_equal String.length) in E. simpl in E.
    rewrite length_append in E. lia.
  - exfalso. apply (f_equal String.length) in E. simpl in E.
    rewrite length_append in E. lia.
  - injection E as -> E. destruct (IH c E L) as [-> ->]. now split.
Qed.

Lemma shows_here (part before after : string) :
  shows part (before +:+ part +:+ after).
Proof. now exists before, after. Qed.

Lemma shows_inside (part text before after : string) :
  shows part text -> shows part (before +:+ text +:+ after).
Proof.
  intros (b & a & ->). exists (before +:+ b), (a +:+ after).
  now rewrite !append_assoc.
Qed.

Lemma append_nil_r (a : string) : a +:+ EmptyString = a.
Proof.
  induction a as [| x a IH]; [reflexivity |]. now rewrite append_cons, IH.
Qed.

Lemma shows_refl (part : string) : shows part part.
Proof. exists EmptyString, EmptyString. now rewrite append_nil_r. Qed.

Lemma shows_left (part text after : string) :
  shows part text -> shows part (text +:+ after).
Proof.
  intros (b & a & ->). exists b, (a +:+ after). now rewrite !append_assoc.
Qed.

Lemma shows_right (part text before : string) :
  shows part text -> shows part (before +:+ text).
Proof.
  intros (b & a & ->). exists (before +:+ b), a. now rewrite !append_assoc.
Qed.

Ltac show_part :=
  repeat first [ apply shows_refl
               | apply shows_left; apply shows_refl
               | apply shows_right ].

(** ** randomString and the session name *)

Lemma letters_get (k : nat) :
  (k < 26)%nat -> exists c, String.get k letters = Some c /\ is_lower c.
Proof.
  intros H. unfold is_lower.
  do 26 (destruct k as [| k];
         [eexists; split; [reflexivity | vm_compute; split; discriminate] |]).
  lia.
Qed.

Lemma length_randomString (rt : Runtime) (n : nat) :
  String.length (randomString rt n) = n.
Proof.
  unfold randomString.
  rewrite length_string_of_list_ascii, length_map, length_take, length_app,
    length_replicate. lia.
Qed.

(** X1.  Whatever bytes the random source gives, and however many,
    [randomString n] is a text of exactly [n] bytes, each a lowercase
    letter a-z. *)
Theorem randomString_lowercase (rt : Runtime) (n : nat) :
  String.length (randomString rt n) = n /\
  Forall is_lower (list_ascii_of_string (randomString rt n)).
Proof.
  split; [apply length_randomString |]. unfold randomString.
  rewrite list_ascii_of_string_of_list_ascii. apply Forall_map, Forall_forall.
  intros b _. cbn beta.
  pose proof (byte_val_bounds b) as Hb.
  change (Z.of_nat (String.length letters)) with 26.
  destruct (letters_get (Z.to_nat (byte_val b mod 26))) as (c & -> & Hc);
    [| exact Hc].
  pose proof (Z.mod_pos_bound (byte_val b) 26). lia.
Qed.

(** X2.  The name of a join request is "agent-", the clock reading in
    nanoseconds in decimal, "-", and a random suffix of six bytes, in that
    order.  Two join requests with the same name were named at the same
    clock reading (and with the same suffix): requests named at different
    nanoseconds never share a name, whatever the random bytes are. *)
Theorem session_name_injective (rt1 rt2 : Runtime) (s1 s2 : ConvoAIService)
    (req1 req2 : InviteAgentRequest.t) (token1 token2 : string)
    (tts1 tts2 : TTSConfig.t) :
  let name1 := AgoraStartRequest.Name (agoraReq rt1 s1 req1 token1 tts1) in
  let name2 := AgoraStartRequest.Name (agoraReq rt2 s2 req2 token2 tts2) in
  name1 = "agent-" +:+ pretty (UnixNano (time_Now_name rt1)) +:+ "-" +:+
          randomString rt1 6 /\
  String.length (randomString rt1 6) = 6%nat /\
  (name1 = name2 ->
   time_Now_name rt1 = time_Now_name rt2 /\
   randomString rt1 6 = randomString rt2 6) /\
  (time_Now_name rt1 <> time_Now_name rt2 -> name1 <> name2).
Proof.
  cbv zeta.
  assert (Hinj : AgoraStartRequest.Name (agoraReq rt1 s1 req1 token1 tts1) =
                 AgoraStartRequest.Name (agoraReq rt2 s2 req2 token2 tts2) ->
                 time_Now_name rt1 = time_Now_name rt2 /\
                 randomString rt1 6 = randomString rt2 6).
  { cbn [agoraReq AgoraStartRequest.Name]. unfold UnixNano. intros E.
    apply (inj (String.app "agent-")) in E.
    apply append_inj_tail in E as [Et Er].
    - split; [now apply (inj pretty) in Et
             | now apply (inj (String.app "-")) in Er].
    - now rewrite !length_append, !length_randomString. }
  split; [reflexivity |]. split; [apply length_randomString |].
  split; [exact Hinj |].
  intros Hne E. now apply Hne, Hinj.
Qed.

Lemma session_name_injective_witness :
  time_Now_name fixtures.testRuntime = time_Now_name (rendering_runtime 503 "busy") /\
  randomString fixtures.testRuntime 6 = randomString (rendering_runtime 503 "busy") 6.
Proof.
  refine (proj1 (proj2 (proj2
            (session_name_injective fixtures.testRuntime
               (rendering_runtime 503 "busy")
               fixtures.NewTestConvoAIService fixtures.NewTestConvoAIService
               (fixtures.testInvite "123" "test-channel" None None)
               (fixtures.testInvite "456" "other-channel" None None)
               "token-a" "token-b"
               (TTSConfig.mk "microsoft" ∅) (TTSConfig.mk "elevenlabs" ∅)))) _).
  reflexivity.
Defined.

Example session_names_differ :
  AgoraStartRequest.Name
    (agoraReq (with_clock 1 fixtures.testRuntime) fixtures.NewTestConvoAIService
       (fixtures.testInvite "123" "test-channel" None None) "t"
       (TTSConfig.mk "microsoft" ∅)) = "agent-1-bbbbbb" /\
  AgoraStartRequest.Name
    (agoraReq (with_clock 2 fixtures.testRuntime) fixtures.NewTestConvoAIService
       (fixtures.testInvite "123" "test-channel" None None) "t"
       (TTSConfig.mk "microsoft" ∅)) = "agent-2-bbbbbb".
Proof. split; reflexivity. Qed.

(** ** The resolver and the startup validation *)

(** X3.  With the ElevenLabs tag, getTTSConfig returns a payload exactly
    when the ElevenLabs configuration is there with key, model ID and voice
    ID all set; the payload is then tagged "elevenlabs" and its params are
    the three strings as configured, under "api_key", "model_id" and
    "voice_id", and nothing else; the Microsoft configuration and the
    number parser play no part. *)
Theorem getTTSConfig_elevenlabs (rt : Runtime) (s : ConvoAIService) :
  ConvoAIConfig.TTSVendor (config s) = "elevenlabs" ->
  ((exists tts, getTTSConfig rt s = (Some tts, None)) <->
   exists el, ConvoAIConfig.ElevenLabsTTS (config s) = Some el /\
              elevenlabs_complete el) /\
  (forall el,
     ConvoAIConfig.ElevenLabsTTS (config s) = Some el ->
     elevenlabs_complete el ->
     exists tts,
       getTTSConfig rt s = (Some tts, None) /\
       TTSConfig.Vendor tts = "elevenlabs" /\
       TTSConfig.Params tts =
         {[ "api_key" := AString (ElevenLabsTTSConfig.Key el);
            "model_id" := AString (ElevenLabsTTSConfig.ModelID el);
            "voice_id" := AString (ElevenLabsTTSConfig.VoiceID el) ]} /\
       dom (TTSConfig.Params tts) = ({[ "api_key"; "model_id"; "voice_id" ]} : gset string)).
Proof.
  intros Hv. split.
  - split.
    + intros [tts E].
      destruct (ConvoAIConfig.ElevenLabsTTS (config s)) as [el |] eqn:Hel.
      * exists el. split; [reflexivity |].
        destruct (decide (ElevenLabsTTSConfig.Key el = "")) as [Hk | Hk];
        [| destruct (decide (ElevenLabsTTSConfig.ModelID el = "")) as [Hm | Hm];
           [| destruct (decide (ElevenLabsTTSConfig.VoiceID el = "")) as [Hi | Hi];
              [| now repeat split]]];
        exfalso;
        rewrite (tts_elevenlabs_empty rt s Hv el Hel) in E; try discriminate;
        unfold elevenlabs_complete; tauto.
      * rewrite (tts_elevenlabs_nil rt s Hv Hel) in E. discriminate.
    + intros (el & Hel & Hc). rewrite (tts_elevenlabs_ok rt s Hv el Hel Hc). eauto.
  - intros el Hel Hc. rewrite (tts_elevenlabs_ok rt s Hv el Hel Hc).
    eexists. split; [reflexivity |]. cbn. split; [reflexivity |]. split.
    + reflexivity.
    + rewrite !dom_insert_L, dom_empty_L. set_solver.
Qed.

Lemma getTTSConfig_elevenlabs_witness :
  exists tts,
    getTTSConfig fixtures.testRuntime
      (fixtures.serviceWith "elevenlabs" None (Some testElevenLabs)
         fixtures.MockTokenService) = (Some tts, None) /\
    TTSConfig.Vendor tts = "elevenlabs" /\
    TTSConfig.Params tts =
      {[ "api_key" := AString "test-key";
         "model_id" := AString "model-id";
         "voice_id" := AString "voice-id" ]} /\
    dom (TTSConfig.Params tts) = ({[ "api_key"; "model_id"; "voice_id" ]} : gset string).
Proof.
  refine (proj2
    (getTTSConfig_elevenlabs fixtures.testRuntime
       (fixtures.serviceWith "elevenlabs" None (Some testElevenLabs)
          fixtures.MockTokenService) eq_refl)
    testElevenLabs eq_refl _).
  unfold elevenlabs_complete. cbn. repeat split; discriminate.
Defined.

Lemma validateTTSConfig_None (cfg : ConvoAIConfig.t) :
  validation.validateTTSConfig cfg = None ->
  (ConvoAIConfig.TTSVendor cfg = "microsoft" /\
   exists ms, ConvoAIConfig.MicrosoftTTS cfg = Some ms /\
              MicrosoftTTSConfig.Key ms <> "" /\
              MicrosoftTTSConfig.Region ms <> "" /\
              MicrosoftTTSConfig.VoiceName ms <> "") \/
  (ConvoAIConfig.TTSVendor cfg = "elevenlabs" /\
   exists el, ConvoAIConfig.ElevenLabsTTS cfg = Some el /\
              elevenlabs_complete el).
Proof.
  unfold validation.validateTTSConfig.
  destruct (String.eqb_spec (ConvoAIConfig.TTSVendor cfg) "microsoft") as [Em | _].
  - destruct (ConvoAIConfig.MicrosoftTTS cfg) as [ms |]; [| discriminate].
    destruct (_ || _) eqn:E; [discriminate |]. intros _. left.
    rewrite !orb_false_iff, !is_empty_false in E. split; [exact Em |].
    exists ms. tauto.
  - destruct (String.eqb_spec (ConvoAIConfig.TTSVendor cfg) "elevenlabs")
      as [Ee | _]; [| discriminate].
    destruct (ConvoAIConfig.ElevenLabsTTS cfg) as [el |]; [| discriminate].
    destruct (_ || _) eqn:E; [discriminate |]. intros _. right.
    rewrite !orb_false_iff, !is_empty_false in E. split; [exact Ee |].
    exists el. unfold elevenlabs_complete. tauto.
Qed.

(** What an accepted configuration has. *)
Lemma ValidateEnvironment_None (TrimSpace : string -> string)
    (cfg : ConvoAIConfig.t) :
  validation.ValidateEnvironment TrimSpace cfg = None ->
  (ConvoAIConfig.AppID cfg <> "" /\ ConvoAIConfig.AppCertificate cfg <> "" /\
   ConvoAIConfig.CustomerID cfg <> "" /\ ConvoAIConfig.CustomerSecret cfg <> "" /\
   ConvoAIConfig.BaseURL cfg <> "" /\ ConvoAIConfig.LLMURL cfg <> "" /\
   ConvoAIConfig.LLMToken cfg <> "") /\
  validation.validateTTSConfig cfg = None.
Proof.
  unfold validation.ValidateEnvironment.
  destruct (is_empty (ConvoAIConfig.AppID cfg)
            || is_empty (ConvoAIConfig.AppCertificate cfg)) eqn:E1;
    [discriminate |].
  destruct (is_empty (ConvoAIConfig.CustomerID cfg)
            || is_empty (ConvoAIConfig.CustomerSecret cfg)
            || is_empty (ConvoAIConfig.BaseURL cfg)) eqn:E2; [discriminate |].
  destruct (is_empty (ConvoAIConfig.LLMURL cfg)
            || is_empty (ConvoAIConfig.LLMToken cfg)) eqn:E3; [discriminate |].
  destruct (is_empty (ConvoAIConfig.TTSVendor cfg)); [discriminate |].
  destruct (validation.validateTTSConfig cfg); [discriminate |].
  intros _.
  repeat match goal with
         | H : _ || _ = false |- _ => apply orb_false_iff in H; destruct H
         | H : is_empty _ = false |- _ => apply is_empty_false in H
         end.
  tauto.
Qed.

(** X4.  A configuration that the startup validation accepts with the
    ElevenLabs tag always resolves: getTTSConfig returns its payload, and
    no error, on every call. *)
Theorem validated_elevenlabs_resolves (TrimSpace : string -> string)
    (rt : Runtime) (s : ConvoAIService) :
  validation.ValidateEnvironment TrimSpace (config s) = None ->
  ConvoAIConfig.TTSVendor (config s) = "elevenlabs" ->
  exists el,
    ConvoAIConfig.ElevenLabsTTS (config s) = Some el /\
    getTTSConfig rt s =
    (Some {| TTSConfig.Vendor := "elevenlabs";
             TTSConfig.Params :=
               {[ "api_key" := AString (ElevenLabsTTSConfig.Key el);
                  "model_id" := AString (ElevenLabsTTSConfig.ModelID el);
                  "voice_id" := AString (ElevenLabsTTSConfig.VoiceID el) ]} |},
     None).
Proof.
  intros Hval Hv. apply ValidateEnvironment_None in Hval as [_ Htts].
  apply validateTTSConfig_None in Htts as [[Hm _] | [_ (el & Hel & Hc)]].
  - rewrite Hv in Hm. discriminate.
  - exists el. split; [exact Hel |].
    now rewrite (tts_elevenlabs_ok rt s Hv el Hel Hc).
Qed.

Lemma validated_elevenlabs_resolves_witness :
  exists el,
    Some testElevenLabs = Some el /\
    getTTSConfig fixtures.testRuntime
      (fixtures.serviceWith "elevenlabs" None (Some testElevenLabs)
         fixtures.MockTokenService) =
    (Some {| TTSConfig.Vendor := "elevenlabs";
             TTSConfig.Params :=
               {[ "api_key" := AString (ElevenLabsTTSConfig.Key el);
                  "model_id" := AString (ElevenLabsTTSConfig.ModelID el);
                  "voice_id" := AString (ElevenLabsTTSConfig.VoiceID el) ]} |},
     None).
Proof.
  refine (validated_elevenlabs_resolves (fun x => x) fixtures.testRuntime
            (fixtures.serviceWith "elevenlabs" None (Some testElevenLabs)
               fixtures.MockTokenService) eq_refl eq_refl).
Defined.

(** X5.  With the Microsoft tag the startup validation checks key, region
    and voice name, and not rate and volume: a configuration it accepts
    fails in getTTSConfig with "missing Microsoft TTS configuration"
    exactly when its rate or its volume is empty. *)
Theorem validated_microsoft_gap (TrimSpace : string -> string)
    (rt : Runtime) (s : ConvoAIService) :
  validation.ValidateEnvironment TrimSpace (config s) = None ->
  ConvoAIConfig.TTSVendor (config s) = "microsoft" ->
  exists ms,
    ConvoAIConfig.MicrosoftTTS (config s) = Some ms /\
    MicrosoftTTSConfig.Key ms <> "" /\
    MicrosoftTTSConfig.Region ms <> "" /\
    MicrosoftTTSConfig.VoiceName ms <> "" /\
    (getTTSConfig rt s = (None, Some "missing Microsoft TTS configuration") <->
     MicrosoftTTSConfig.Rate ms = "" \/ MicrosoftTTSConfig.Volume ms = "").
Proof.
  intros Hval Hv. apply ValidateEnvironment_None in Hval as [_ Htts].
  apply validateTTSConfig_None in Htts
    as [[_ (ms & Hms & Hk & Hr & Hn)] | [He _]];
    [| rewrite Hv in He; discriminate].
  exists ms. repeat split; try assumption.
  - intros E.
    destruct (decide (MicrosoftTTSConfig.Rate ms = "")) as [| Hra]; [now left |].
    destruct (decide (MicrosoftTTSConfig.Volume ms = "")) as [| Hvo]; [now right |].
    exfalso.
    rewrite (tts_microsoft_parse rt s Hv ms Hms) in E
      by (unfold microsoft_complete; tauto).
    destruct (strconv_ParseFloat rt (MicrosoftTTSConfig.Rate ms) 64) as [r [e |]].
    { injection E as E. discriminate E. }
    destruct (strconv_ParseFloat rt (MicrosoftTTSConfig.Volume ms) 64) as [v [e |]].
    { injection E as E. discriminate E. }
    discriminate.
  - intros Hempty. apply (tts_microsoft_empty rt s Hv ms Hms).
    unfold microsoft_complete. tauto.
Qed.

Lemma validated_microsoft_gap_witness :
  let ms := MicrosoftTTSConfig.mk "test-ms-key" "eastus" "en-US-AriaNeural" "" "" in
  let s := fixtures.serviceWith "microsoft" (Some ms) None
             fixtures.MockTokenService in
  validation.ValidateEnvironment (fun x => x) (config s) = None /\
  getTTSConfig fixtures.testRuntime s =
    (None, Some "missing Microsoft TTS configuration").
Proof.
  cbv zeta. split; [reflexivity |].
  destruct (validated_microsoft_gap (fun x => x) fixtures.testRuntime
              (fixtures.serviceWith "microsoft"
                 (Some (MicrosoftTTSConfig.mk "test-ms-key" "eastus"
                          "en-US-AriaNeural" "" "")) None
                 fixtures.MockTokenService) eq_refl eq_refl)
    as (ms & Hms & _ & _ & _ & H).
  apply H. injection Hms as <-. now left.
Defined.

(** A payload carries the configured tag. *)
Lemma tts_vendor (rt : Runtime) (s : ConvoAIService) (tts : TTSConfig.t) :
  getTTSConfig rt s = (Some tts, None) ->
  TTSConfig.Vendor tts = ConvoAIConfig.TTSVendor (config s).
Proof.
  unfold getTTSConfig, TTSVendorMicrosoft, TTSVendorElevenLabs.
  destruct (String.eqb_spec (ConvoAIConfig.TTSVendor (config s)) "microsoft")
    as [-> | _].
  - destruct (ConvoAIConfig.MicrosoftTTS (config s)) as [ms |]; [| discriminate].
    destruct (_ || _); [discriminate |].
    destruct (strconv_ParseFloat rt (MicrosoftTTSConfig.Rate ms) 64) as [r [e |]];
      [discriminate |].
    destruct (strconv_ParseFloat rt (MicrosoftTTSConfig.Volume ms) 64)
      as [v [e |]]; [discriminate |].
    now intros [= <-].
  - destruct (String.eqb_spec (ConvoAIConfig.TTSVendor (config s)) "elevenlabs")
      as [-> | _]; [| discriminate].
    destruct (ConvoAIConfig.ElevenLabsTTS (config s)) as [el |]; [| discriminate].
    destruct (_ || _); [discriminate |].
    now intros [= <-].
Qed.

(** X6.  What the startup validation does and does not secure for the
    join request.  Under a configuration it accepts, every request body
    has a non-empty LLM URL and LLM key, and a TTS block tagged with the
    configured vendor, "microsoft" or "elevenlabs".  The agent UID and the
    model name are not looked at: the configuration stays accepted
    whatever they are, the empty string included, and they go into the
    body as they are. *)
Theorem validated_request_body (TrimSpace : string -> string) (rt : Runtime)
    (s : ConvoAIService) (req : InviteAgentRequest.t)
    (p : AgoraStartRequest.t) (tr : list Event) :
  validation.ValidateEnvironment TrimSpace (config s) = None ->
  HandleInviteAgent_build rt s req = (Ret p, tr) ->
  let props := AgoraStartRequest.Properties p in
  LLM.URL (Properties.LLM props) <> "" /\
  LLM.APIKey (Properties.LLM props) <> "" /\
  TTSConfig.Vendor (Properties.TTS props) = ConvoAIConfig.TTSVendor (config s) /\
  (TTSConfig.Vendor (Properties.TTS props) = "microsoft" \/
   TTSConfig.Vendor (Properties.TTS props) = "elevenlabs") /\
  (forall agentUID model,
     let s' := {| config := with_agent_model agentUID model (config s);
                  tokenService := tokenService s |} in
     validation.ValidateEnvironment TrimSpace (config s') = None /\
     exists p',
       HandleInviteAgent_build rt s' req = (Ret p', tr) /\
       Properties.AgentRtcUID (AgoraStartRequest.Properties p') = agentUID /\
       LLMParams.Model
         (LLM.Params (Properties.LLM (AgoraStartRequest.Properties p'))) = model).
Proof.
  intros Hval Hb. cbv zeta.
  pose proof (ValidateEnvironment_None _ _ Hval) as [(_ & _ & _ & _ & _ & Hu & Hk) Ht].
  apply build_Ret_inv in Hb as (token & tts & Hg & Htts & -> & ->).
  pose proof (tts_vendor rt s tts Htts) as Hvend.
  cbn [agoraReq AgoraStartRequest.Properties Properties.LLM Properties.TTS
       LLM.URL LLM.APIKey].
  split; [exact Hu |]. split; [exact Hk |]. split; [exact Hvend |]. split.
  - rewrite Hvend.
    apply validateTTSConfig_None in Ht as [[-> _] | [-> _]]; [now left | now right].
  - intros agentUID model. split; [exact Hval |].
    exists (agoraReq rt {| config := with_agent_model agentUID model (config s);
                           tokenService := tokenService s |} req token tts).
    split; [| split; reflexivity].
    now apply build_ok.
Qed.

Lemma validated_request_body_witness :
  exists p',
    HandleInviteAgent_build fixtures.testRuntime
      {| config := with_agent_model "" "" (config fixtures.NewTestConvoAIService);
         tokenService := fixtures.MockTokenService |}
      (fixtures.testInvite "123" "test-channel" None None) =
    (Ret p',
     [EvGenRtcToken (tokenReq (fixtures.testInvite "123" "test-channel" None None))]) /\
    Properties.AgentRtcUID (AgoraStartRequest.Properties p') = "" /\
    LLMParams.Model
      (LLM.Params (Properties.LLM (AgoraStartRequest.Properties p'))) = "".
Proof.
  refine (proj2 (proj2 (proj2 (proj2 (proj2
    (validated_request_body (fun x => x) fixtures.testRuntime
       fixtures.NewTestConvoAIService
       (fixtures.testInvite "123" "test-channel" None None) _ _
       eq_refl eq_refl)))) "" "")).
Defined.

(** ** The route handlers *)

(** Every way through HandleRemoveAgent. *)
Lemma remove_run (rt : Runtime) (s : ConvoAIService) (req : RemoveAgentRequest.t) :
  HandleRemoveAgent rt s req =
  match http_NewRequest_err rt "POST"
          (leave_url s (RemoveAgentRequest.AgentID req)) with
  | Some e => (Err ("failed to create request: " +:+ e), [])
  | None =>
    (match client_Do rt 10 (leave_request s (RemoveAgentRequest.AgentID req)) with
     | (_, Some e) => Err ("failed to send request: " +:+ e)
     | (resp, None) =>
       if Response.StatusCode resp =? StatusOK then
         Ret {| RemoveAgentResponse.Success := true;
                RemoveAgentResponse.AgentID := RemoveAgentRequest.AgentID req |}
       else Err ("failed to remove agent: " +:+ pretty (Response.StatusCode resp))
     end,
     [EvDo 10 (leave_request s (RemoveAgentRequest.AgentID req))])
  end.
Proof.
  destruct (http_NewRequest_err rt "POST"
              (leave_url s (RemoveAgentRequest.AgentID req))) as [e |] eqn:Hu.
  - now apply remove_url_error.
  - destruct (client_Do rt 10 (leave_request s (RemoveAgentRequest.AgentID req)))
      as [resp err] eqn:Hd.
    rewrite (remove_called rt s req resp err Hu Hd). now destruct err.
Qed.

(** X7.  RemoveAgent answers a body that does not bind with status 400 and
    the binding error, and a request with an empty agent_id with status
    400 and "agent_id is required", the text being the value of "error" in
    the JSON object of the reply; in both cases nothing has been called.
    Whatever the request and the outside, RemoveAgent does not panic, asks
    for no token, and calls the platform at most once. *)
Theorem RemoveAgent_refusals (rt : Runtime) (s : ConvoAIService)
    (c : gin_Context RemoveAgentRequest.t) :
  (forall e, (ShouldBindJSON c).2 = Some e ->
     RemoveAgent rt s c =
     (Ret (JSON_H StatusBadRequest {[ "error" := AString e ]}), [])) /\
  ((ShouldBindJSON c).2 = None ->
   RemoveAgentRequest.AgentID (ShouldBindJSON c).1 = "" ->
   RemoveAgent rt s c =
   (Ret (JSON_H StatusBadRequest
           {[ "error" := AString "agent_id is required" ]}), [])) /\
  (exists reply, outcome (RemoveAgent rt s c) = Ret reply) /\
  token_calls (trace (RemoveAgent rt s c)) = [] /\
  (length (platform_calls (trace (RemoveAgent rt s c))) <= 1)%nat.
Proof.
  unfold RemoveAgent. destruct (ShouldBindJSON c) as [req [e |]]; cbn [fst snd].
  { repeat split; try discriminate; cbn; eauto. now intros ? [= <-]. }
  unfold validateRemoveRequest.
  destruct (is_empty (RemoveAgentRequest.AgentID req)) eqn:Eid.
  { repeat split; try discriminate; cbn; eauto. }
  apply is_empty_false in Eid. rewrite remove_run.
  split; [discriminate |]. split; [intros _ H; now destruct Eid |].
  destruct (http_NewRequest_err rt "POST"
              (leave_url s (RemoveAgentRequest.AgentID req))).
  { cbn. eauto. }
  destruct (client_Do rt 10 (leave_request s (RemoveAgentRequest.AgentID req)))
    as [resp [e |]]; [cbn; eauto |].
  destruct (Response.StatusCode resp =? StatusOK); cbn; eauto.
Qed.

Lemma RemoveAgent_refusals_witness :
  RemoveAgent fixtures.testRuntime fixtures.NewTestConvoAIService
    {| ShouldBindJSON := (RemoveAgentRequest.mk "", None) |} =
  (Ret (JSON_H StatusBadRequest
          {[ "error" := AString "agent_id is required" ]}), []).
Proof.
  refine (proj1 (proj2
    (RemoveAgent_refusals fixtures.testRuntime fixtures.NewTestConvoAIService
       {| ShouldBindJSON := (RemoveAgentRequest.mk "", None) |})) eq_refl eq_refl).
Defined.

(** X8.  RemoveAgent answers 200 exactly when the body binds, the agent_id
    is not empty, and the POST to the leave endpoint of that agent is
    answered with status 200; the answer is then success true with that
    agent_id.  A request past validation whose call is answered with
    another status is answered 500 with the JSON object whose "error" is
    "failed to remove agent: " and the status. *)
Theorem RemoveAgent_replies (rt : Runtime) (s : ConvoAIService)
    (c : gin_Context RemoveAgentRequest.t) :
  let req := (ShouldBindJSON c).1 in
  let agentID := RemoveAgentRequest.AgentID req in
  let answer := client_Do rt 10 (leave_request s agentID) in
  let called :=
    (ShouldBindJSON c).2 = None /\ agentID <> "" /\
    http_NewRequest_err rt "POST" (leave_url s agentID) = None /\
    answer.2 = None in
  (forall reply,
     outcome (RemoveAgent rt s c) = Ret reply ->
     (reply_code reply = StatusOK <->
      called /\ Response.StatusCode answer.1 = 200) /\
     (reply_code reply = StatusOK ->
      reply = JSON_RemoveAgentResponse StatusOK
                {| RemoveAgentResponse.Success := true;
                   RemoveAgentResponse.AgentID := agentID |})) /\
  (called -> Response.StatusCode answer.1 <> 200 ->
   RemoveAgent rt s c =
   (Ret (JSON_H StatusInternalServerError
           {[ "error" :=
                AString ("failed to remove agent: " +:+
                         pretty (Response.StatusCode answer.1)) ]}),
    [EvDo 10 (leave_request s agentID)])).
Proof.
  cbv zeta. unfold RemoveAgent.
  destruct (ShouldBindJSON c) as [req [e |]]; cbn [fst snd].
  { split.
    - intros reply [= <-]. cbn. split; [| discriminate].
      split; [discriminate | intros [[? _] _]; discriminate].
    - intros [? _]. discriminate. }
  unfold validateRemoveRequest.
  destruct (is_empty (RemoveAgentRequest.AgentID req)) eqn:Eid.
  { apply is_empty_true in Eid. split.
    - intros reply [= <-]. cbn. split; [| discriminate].
      split; [discriminate | tauto].
    - tauto. }
  apply is_empty_false in Eid. rewrite remove_run.
  destruct (http_NewRequest_err rt "POST"
              (leave_url s (RemoveAgentRequest.AgentID req))).
  { split.
    - intros reply [= <-]. cbn. split; [| discriminate].
      split; [discriminate | intros [(_ & _ & ? & _) _]; discriminate].
    - intros (_ & _ & ? & _). discriminate. }
  destruct (client_Do rt 10 (leave_request s (RemoveAgentRequest.AgentID req)))
    as [resp [e |]]; cbn [fst snd].
  { split.
    - intros reply [= <-]. cbn. split; [| discriminate].
      split; [discriminate | intros [(_ & _ & _ & ?) _]; discriminate].
    - intros (_ & _ & _ & ?). discriminate. }
  unfold StatusOK.
  destruct (Z.eqb_spec (Response.StatusCode resp) 200) as [E | E]; split.
  - intros reply [= <-]. cbn. tauto.
  - tauto.
  - intros reply [= <-]. cbn. split; [| discriminate].
    split; [discriminate | tauto].
  - reflexivity.
Qed.

Lemma RemoveAgent_replies_witness :
  RemoveAgent (fixtures.stub_runtime 404 "") fixtures.NewTestConvoAIService
    {| ShouldBindJSON := (RemoveAgentRequest.mk "agent-123abc", None) |} =
  (Ret (JSON_H StatusInternalServerError
          {[ "error" := AString "failed to remove agent: 404" ]}),
   [EvDo 10 (leave_request fixtures.NewTestConvoAIService "agent-123abc")]).
Proof.
  refine (proj2
    (RemoveAgent_replies (fixtures.stub_runtime 404 "")
       fixtures.NewTestConvoAIService
       {| ShouldBindJSON := (RemoveAgentRequest.mk "agent-123abc", None) |})
    _ _).
  - cbn. repeat split; discriminate.
  - cbn. discriminate.
Defined.

(** The builder ends with a body or an error, after the one token call. *)
Lemma build_cases (rt : Runtime) (s : ConvoAIService) (req : InviteAgentRequest.t) :
  (exists p, HandleInviteAgent_build rt s req =
             (Ret p, [EvGenRtcToken (tokenReq req)])) \/
  (exists e, HandleInviteAgent_build rt s req =
             (Err e, [EvGenRtcToken (tokenReq req)])).
Proof.
  destruct (GenRtcToken (tokenService s) (tokenReq req)) as [token [e |]] eqn:Hg.
  - right. eexists. exact (build_token_error rt s req token e Hg).
  - destruct (tts_exclusive rt s) as [[tts Ht] | [e Ht]].
    + left. eexists. exact (build_ok rt s req token tts Hg Ht).
    + right. eexists. exact (build_tts_error rt s req token e Hg Ht).
Qed.

(** What the join step leaves in the trace. *)
Lemma send_trace (rt : Runtime) (s : ConvoAIService) (p : AgoraStartRequest.t) :
  trace (HandleInviteAgent_send rt s p) =
  match json_Marshal rt p with
  | (_, Some _) => take 1 (join_prints rt s p)
  | (jsonData, None) =>
    match http_NewRequest_err rt "POST" (join_url s) with
    | Some _ => take 2 (join_prints rt s p)
    | None => (join_prints rt s p ++ [EvDo 30 (join_request s jsonData)])%list
    end
  end.
Proof.
  destruct (json_Marshal rt p) as [jsonData [e |]] eqn:Hm.
  { unfold HandleInviteAgent_send. rewrite Hm. reflexivity. }
  destruct (http_NewRequest_err rt "POST" (join_url s)) as [e |] eqn:Hu.
  { unfold HandleInviteAgent_send, http_NewRequest. fold (join_url s).
    rewrite Hm, Hu. reflexivity. }
  destruct (client_Do rt 30 (join_request s jsonData)) as [resp [e |]] eqn:Hd.
  - unfold HandleInviteAgent_send, http_NewRequest, call_Do.
    fold (join_url s). rewrite Hm, Hu.
    cbn -[join_request join_url std_headers pretty String.append].
    change (Request_Header_Set "Authorization" (getBasicAuth s)
              (Request_Header_Set "Content-Type" "application/json"
                 (Request.mk "POST" (join_url s) (Some jsonData) ∅)))
      with (join_request s jsonData).
    rewrite Hd. reflexivity.
  - rewrite (send_answered rt s p jsonData resp Hm Hu Hd). reflexivity.
Qed.

(** X9.  Every run of HandleInviteAgent asks for exactly one token, first
    of all, for the channel of the request with uid "0" and the publisher
    role; it calls the agent platform at most once, after that, and the
    call is the POST of the marshalled request body to the join URL with a
    timeout of 30 seconds. *)
Theorem HandleInviteAgent_calls (rt : Runtime) (s : ConvoAIService)
    (req : InviteAgentRequest.t) :
  let tr := trace (HandleInviteAgent rt s req) in
  (exists rest, tr = EvGenRtcToken (tokenReq req) :: rest) /\
  token_calls tr = [tokenReq req] /\
  tokenReq req =
    {| TokenRequest.TokenType := "rtc";
       TokenRequest.Channel := InviteAgentRequest.ChannelName req;
       TokenRequest.RtcRole := "publisher";
       TokenRequest.Uid := "0";
       TokenRequest.ExpirationSeconds := 0 |} /\
  (platform_calls tr = [] \/
   exists p jsonData,
     HandleInviteAgent_build rt s req = (Ret p, [EvGenRtcToken (tokenReq req)]) /\
     json_Marshal rt p = (jsonData, None) /\
     platform_calls tr = [(30, join_request s jsonData)]).
Proof.
  cbv zeta. destruct (build_cases rt s req) as [[p Hb] | [e Hb]].
  - rewrite (HandleInviteAgent_build_ok rt s req p _ Hb). cbn [trace snd].
    fold (trace (HandleInviteAgent_send rt s p)). rewrite send_trace.
    destruct (json_Marshal rt p) as [jsonData [e |]] eqn:Hm.
    { cbn. repeat split; eauto. }
    destruct (http_NewRequest_err rt "POST" (join_url s)).
    { cbn. repeat split; eauto. }
    cbn. repeat split; eauto. right. exists p, jsonData. now repeat split.
  - rewrite (HandleInviteAgent_build_error rt s req e _ Hb). cbn.
    repeat split; eauto.
Qed.

(** X10.  When the platform answers the join call of an accepted request
    with a status other than 200, InviteAgent answers 500, and the text
    under "error" in the JSON object it sends holds the status, the body of the
    platform's answer, the join URL and the rendering of the headers of
    the outgoing request: so, wherever that rendering shows the value of
    the Authorization header (as fmt's verb v does), the answer to the
    caller shows the Basic credentials of the service. *)
Theorem InviteAgent_join_refused (rt : Runtime) (s : ConvoAIService)
    (c : gin_Context InviteAgentRequest.t) (req : InviteAgentRequest.t)
    (p : AgoraStartRequest.t) (tr : list Event) (jsonData : string)
    (resp : Response.t) :
  ShouldBindJSON c = (req, None) ->
  validateInviteRequest s req = None ->
  HandleInviteAgent_build rt s req = (Ret p, tr) ->
  json_Marshal rt p = (jsonData, None) ->
  http_NewRequest_err rt "POST" (join_url s) = None ->
  client_Do rt 30 (join_request s jsonData) = (resp, None) ->
  Response.StatusCode resp <> 200 ->
  exists msg,
    outcome (InviteAgent rt s c) =
      Ret (JSON_H StatusInternalServerError {[ "error" := AString msg ]}) /\
    shows (pretty (Response.StatusCode resp)) msg /\
    shows (Response.Body resp) msg /\
    shows (join_url s) msg /\
    shows (fmt_Header rt (std_headers s)) msg /\
    std_headers s !! "Authorization" = Some [getBasicAuth s] /\
    (shows (getBasicAuth s) (fmt_Header rt (std_headers s)) ->
     shows (getBasicAuth s) msg).
Proof.
  intros Hc Hv Hb Hm Hu Hd Hst.
  exists ("failed to start conversation: status=" +:+
          pretty (Response.StatusCode resp) +:+ ", body=" +:+
          Response.Body resp +:+ ", url=" +:+ join_url s +:+ ", headers=" +:+
          fmt_Header rt (std_headers s)).
  split; [| repeat split].
  - unfold InviteAgent. rewrite Hc, Hv.
    rewrite (HandleInviteAgent_build_ok rt s req p tr Hb).
    rewrite (send_answered rt s p jsonData resp Hm Hu Hd). unfold StatusOK.
    destruct (Z.eqb_spec (Response.StatusCode resp) 200); [contradiction |].
    reflexivity.
  - show_part.
  - show_part.
  - show_part.
  - show_part.
  - intros H. do 7 apply shows_right. exact H.
Qed.

Lemma InviteAgent_join_refused_witness :
  exists msg,
    outcome
      (InviteAgent (rendering_runtime 503 "busy") fixtures.NewTestConvoAIService
         {| ShouldBindJSON :=
              (fixtures.testInvite "123" "test-channel" None None, None) |}) =
      Ret (JSON_H StatusInternalServerError {[ "error" := AString msg ]}) /\
    shows "Basic dGVzdC1jdXN0b21lci1pZDp0ZXN0LWN1c3RvbWVyLXNlY3JldA==" msg.
Proof.
  destruct (InviteAgent_join_refused (rendering_runtime 503 "busy")
              fixtures.NewTestConvoAIService
              {| ShouldBindJSON :=
                   (fixtures.testInvite "123" "test-channel" None None, None) |}
              (fixtures.testInvite "123" "test-channel" None None)
              _ _ _ (Response.mk 503 "busy")
              eq_refl eq_refl eq_refl eq_refl eq_refl eq_refl
              ltac:(cbn; discriminate))
    as (msg & Hout & _ & _ & _ & _ & _ & Hauth).
  exists msg. split; [exact Hout |].
  apply Hauth. exists "map[Authorization:[", "]]". reflexivity.
Defined.

(** X11.  InviteAgent answers a body that does not bind with status 400
    and the binding error under "error", without calling anything.  It panics in one
    situation only: the request was accepted, the token issued, the TTS
    configuration resolved, the body marshalled, the join call answered
    with status 200 and a body that the decoder accepts (a JSON null, which
    decodes to the nil map, included), and the decoded map holds no string
    under "agent_id"; the panic is then the failed conversion of that
    value to string. *)
Theorem InviteAgent_only_panic (rt : Runtime) (s : ConvoAIService)
    (c : gin_Context InviteAgentRequest.t) :
  (forall e, (ShouldBindJSON c).2 = Some e ->
     InviteAgent rt s c =
     (Ret (JSON_H StatusBadRequest {[ "error" := AString e ]}), [])) /\
  (forall msg,
     outcome (InviteAgent rt s c) = Panic msg ->
     let req := (ShouldBindJSON c).1 in
     (ShouldBindJSON c).2 = None /\
     validateInviteRequest s req = None /\
     exists p tr jsonData resp agoraResp,
       HandleInviteAgent_build rt s req = (Ret p, tr) /\
       json_Marshal rt p = (jsonData, None) /\
       client_Do rt 30 (join_request s jsonData) = (resp, None) /\
       Response.StatusCode resp = 200 /\
       json_Decode rt (Response.Body resp) = (agoraResp, None) /\
       (forall agentID, agoraResp !! "agent_id" <> Some (AString agentID)) /\
       msg = "interface conversion: interface {} is " +:+
             type_name (index agoraResp "agent_id") +:+ ", not string").
Proof.
  unfold InviteAgent. destruct (ShouldBindJSON c) as [req [e |]]; cbn [fst snd].
  { split; [now intros ? [= <-] | discriminate]. }
  split; [discriminate |]. intros msg. cbv zeta.
  destruct (validateInviteRequest s req) as [e |]; [discriminate |].
  destruct (build_cases rt s req) as [[p Hb] | [e Hb]].
  2: { rewrite (HandleInviteAgent_build_error rt s req e _ Hb). discriminate. }
  rewrite (HandleInviteAgent_build_ok rt s req p _ Hb).
  unfold reply_of. cbn [outcome fst].
  fold (outcome (HandleInviteAgent_send rt s p)). rewrite send_outcome.
  destruct (json_Marshal rt p) as [jsonData [e |]] eqn:Hm; [discriminate |].
  destruct (http_NewRequest_err rt "POST" (join_url s)); [discriminate |].
  destruct (client_Do rt 30 (join_request s jsonData)) as [resp [e |]] eqn:Hd;
    [discriminate |].
  unfold StatusOK.
  destruct (Z.eqb_spec (Response.StatusCode resp) 200) as [E | E];
    [| discriminate]. cbn [negb].
  destruct (json_Decode rt (Response.Body resp)) as [agoraResp [e |]] eqn:Hdec;
    [discriminate |].
  intros Hp. do 2 (split; [reflexivity |]).
  exists p, [EvGenRtcToken (tokenReq req)], jsonData, resp, agoraResp.
  do 5 (split; [first [eassumption | reflexivity] |]).
  unfold index in *.
  destruct (agoraResp !! "agent_id") as [[] |] eqn:Ea; cbn in Hp |- *;
    try discriminate; injection Hp as <-;
    (split; [intros agentID; discriminate | reflexivity]).
Qed.

Lemma InviteAgent_only_panic_witness :
  exists agoraResp : gmap string any,
    json_Decode (fixtures.stub_runtime 200 "{}") "{}" = (agoraResp, None) /\
    (forall agentID, agoraResp !! "agent_id" <> Some (AString agentID)).
Proof.
  destruct (proj2
    (InviteAgent_only_panic (fixtures.stub_runtime 200 "{}")
       fixtures.NewTestConvoAIService
       {| ShouldBindJSON :=
            (fixtures.testInvite "123" "test-channel" None None, None) |})
    "interface conversion: interface {} is nil, not string" eq_refl)
    as (_ & _ & p & tr & jsonData & resp & agoraResp & _ & _ & Hd & _ & Hdec & Hno & _).
  exists agoraResp. split; [| exact Hno].
  injection Hd as <-. exact Hdec.
Defined.

(** ** The token service *)

Lemma is_digit_value (c : ascii) :
  is_digit c = true -> 0 <= byte_val c - 48 <= 9.
Proof.
  unfold is_digit. rewrite andb_true_iff, !Z.leb_le. lia.
Qed.

Lemma decimal_value_ge (s : string) (n : Z) :
  all_digits s = true -> 0 <= n -> n <= decimal_value s n.
Proof.
  revert n. induction s as [| c s IH]; intros n Hd Hn; cbn in *; [lia |].
  apply andb_true_iff in Hd as [Hc Hs]. apply is_digit_value in Hc.
  specialize (IH (n * 10 + (byte_val c - 48)) Hs). lia.
Qed.

(** On digits, the loop of ParseUint reads the number when it fits. *)
Lemma ParseUint_from_fits (s : string) (n : Z) :
  all_digits s = true -> 0 <= n ->
  decimal_value s n <= token_service.maxUint64 ->
  token_service.ParseUint_from s n = (decimal_value s n, None).
Proof.
  unfold token_service.maxUint64.
  revert n. induction s as [| c s IH]; intros n Hd Hn Hfit; cbn in *;
    [reflexivity |].
  apply andb_true_iff in Hd as [Hc Hs]. rewrite Hc.
  pose proof (is_digit_value c Hc) as Hv.
  pose proof (decimal_value_ge s (n * 10 + (byte_val c - 48)) Hs ltac:(lia)) as Hge.
  unfold token_service.maxUint64.
  change ((2 ^ 64 - 1) / 10 + 1) with 1844674407370955162.
  change (2 ^ 64 - 1) with 18446744073709551615 in *.
  destruct (Z.geb_spec n 1844674407370955162); [lia |].
  destruct (Z.gtb_spec (n * 10 + (byte_val c - 48)) 18446744073709551615);
    [lia |].
  apply IH; [exact Hs | lia | exact Hfit].
Qed.

(** On digits that write too large a number, it reports the range. *)
Lemma ParseUint_from_overflows (s : string) (n : Z) :
  all_digits s = true -> 0 <= n <= token_service.maxUint64 ->
  token_service.maxUint64 < decimal_value s n ->
  token_service.ParseUint_from s n =
  (token_service.maxUint64, Some token_service.ErrRange).
Proof.
  unfold token_service.maxUint64.
  revert n. induction s as [| c s IH]; intros n Hd Hn Hbig; cbn in *; [lia |].
  apply andb_true_iff in Hd as [Hc Hs]. rewrite Hc.
  pose proof (is_digit_value c Hc) as Hv.
  unfold token_service.maxUint64.
  destruct (n >=? (2 ^ 64 - 1) / 10 + 1); [reflexivity |].
  destruct (Z.gtb_spec (n * 10 + (byte_val c - 48)) (2 ^ 64 - 1));
    [reflexivity |].
  apply IH; [exact Hs | lia | exact Hbig].
Qed.

(** A byte that is no digit makes it fail. *)
Lemma ParseUint_from_not_digits (s : string) (n : Z) :
  all_digits s = false ->
  exists v e, token_service.ParseUint_from s n = (v, Some e).
Proof.
  revert n. induction s as [| c s IH]; intros n Hd; cbn in *; [discriminate |].
  destruct (is_digit c); cbn in Hd; [| eauto].
  destruct (n >=? _); [eauto |]. destruct (_ >? _); [eauto |]. now apply IH.
Qed.

(** X12.  GenRtcToken treats a non-empty uid made only of decimal digits,
    with a value below 2^64, as a number, and asks the builder for a token
    for that number reduced modulo 2^32 (so "4294967296" gets the token of
    uid 0); every other non-empty uid is passed on as an account name.  The
    role is publisher for the role text "publisher" and subscriber for any
    other, and an expiration of 0 means 3600 seconds. *)
Theorem GenRtcToken_uid (b : token_service.Builders)
    (s : token_service.TokenService) (r : TokenRequest.t) :
  TokenRequest.Channel r <> "" ->
  TokenRequest.Uid r <> "" ->
  let uid := TokenRequest.Uid r in
  let role :=
    if String.eqb (TokenRequest.RtcRole r) "publisher"
    then token_service.RolePublisher else token_service.RoleSubscriber in
  let expire :=
    (if TokenRequest.ExpirationSeconds r =? 0 then 3600
     else TokenRequest.ExpirationSeconds r) mod 2 ^ 32 in
  (all_digits uid = true /\ decimal_value uid 0 < 2 ^ 64 ->
   token_service.GenRtcToken b s r =
   token_service.BuildTokenWithUid b (token_service.appID s)
     (token_service.appCertificate s) (TokenRequest.Channel r)
     (decimal_value uid 0 mod 2 ^ 32) role expire) /\
  (all_digits uid = false \/ 2 ^ 64 <= decimal_value uid 0 ->
   token_service.GenRtcToken b s r =
   token_service.BuildTokenWithAccount b (token_service.appID s)
     (token_service.appCertificate s) (TokenRequest.Channel r) uid role expire).
Proof.
  intros Hc Hu. cbv zeta. unfold token_service.GenRtcToken.
  apply is_empty_false in Hc, Hu. rewrite Hc, Hu.
  unfold token_service.ParseUint. rewrite Hu. split.
  - intros [Hd Hfit].
    rewrite (ParseUint_from_fits _ 0 Hd ltac:(lia))
      by (unfold token_service.maxUint64; lia).
    reflexivity.
  - intros [Hd | Hbig].
    + destruct (ParseUint_from_not_digits (TokenRequest.Uid r) 0 Hd)
        as (v & e & ->). reflexivity.
    + destruct (all_digits (TokenRequest.Uid r)) eqn:Hd.
      * rewrite (ParseUint_from_overflows _ 0 Hd)
          by (unfold token_service.maxUint64; lia).
        reflexivity.
      * destruct (ParseUint_from_not_digits (TokenRequest.Uid r) 0 Hd)
          as (v & e & ->). reflexivity.
Qed.

Lemma GenRtcToken_uid_witness :
  token_service.GenRtcToken stub_builders
    (token_service.NewTokenService "app" "cert")
    (TokenRequest.mk "rtc" "room" "publisher" "4294967296" 0) =
  ("uid-token:room:0:3600", None).
Proof.
  refine (proj1
    (GenRtcToken_uid stub_builders (token_service.NewTokenService "app" "cert")
       (TokenRequest.mk "rtc" "room" "publisher" "4294967296" 0) _ _) _).
  - discriminate.
  - discriminate.
  - split; [reflexivity | vm_compute; reflexivity].
Defined.

Example GenRtcToken_account :
  token_service.GenRtcToken stub_builders
    (token_service.NewTokenService "app" "cert")
    (TokenRequest.mk "rtc" "room" "audience" "18446744073709551616" 7) =
  ("account-token:room:18446744073709551616", None) /\
  token_service.GenRtcToken stub_builders
    (token_service.NewTokenService "app" "cert")
    (TokenRequest.mk "rtc" "room" "publisher" "user-1" 0) =
  ("account-token:room:user-1", None).
Proof. split; reflexivity. Qed.

(** X13.  On the services as the server wires them, the token request of
    an accepted invite always passes the checks of GenRtcToken and reaches
    the builder as: application ID and certificate of the configuration,
    the channel of the request, the numeric uid 0, the publisher role and
    3600 seconds.  Only the builder can make the token step fail. *)
Theorem invite_token_builder_call (b : token_service.Builders)
    (cfg : ConvoAIConfig.t) (req : InviteAgentRequest.t) :
  validateInviteRequest (wired_service b cfg) req = None ->
  GenRtcToken (tokenService (wired_service b cfg)) (tokenReq req) =
  token_service.BuildTokenWithUid b (ConvoAIConfig.AppID cfg)
    (ConvoAIConfig.AppCertificate cfg) (InviteAgentRequest.ChannelName req)
    0 token_service.RolePublisher 3600.
Proof.
  intros Hv. apply validateInviteRequest_None in Hv as (_ & Hc & _).
  apply is_empty_false in Hc.
  cbn [wired_service tokenService token_service.generator GenRtcToken].
  unfold token_service.GenRtcToken. cbn [tokenReq TokenRequest.Channel].
  now rewrite Hc.
Qed.

Lemma invite_token_builder_call_witness :
  GenRtcToken
    (tokenService (wired_service stub_builders (config fixtures.NewTestConvoAIService)))
    (tokenReq (fixtures.testInvite "user-7" "test-channel" None None)) =
  ("uid-token:test-channel:0:3600", None).
Proof.
  refine (invite_token_builder_call stub_builders
            (config fixtures.NewTestConvoAIService)
            (fixtures.testInvite "user-7" "test-channel" None None) eq_refl).
Defined.

(** X14.  HandleGetToken answers with status 200 or 400 and no other: 400
    "Unsupported tokenType" for every type that is not exactly "rtc",
    "rtm" or "chat", 400 with the error of the generator when it fails,
    the failures of the builders included, and 200 with the token
    otherwise. *)
Theorem HandleGetToken_replies (b : token_service.Builders)
    (s : token_service.TokenService) (r : TokenRequest.t) :
  let tokenType := TokenRequest.TokenType r in
  let reply := token_service.HandleGetToken b s r in
  let answer (generate : string * option error) :=
    match generate with
    | (_, Some e) => token_service.http_Error e 400
    | (token, None) => token_service.TokenJSON 200 token
    end in
  (tokenType <> "rtc" -> tokenType <> "rtm" -> tokenType <> "chat" ->
   reply = token_service.http_Error "Unsupported tokenType" 400) /\
  (tokenType = "rtc" -> reply = answer (token_service.GenRtcToken b s r)) /\
  (tokenType = "rtm" -> reply = answer (token_service.GenRtmToken b s r)) /\
  (tokenType = "chat" -> reply = answer (token_service.GenChatToken b s r)) /\
  ((exists msg, reply = token_service.http_Error msg 400) \/
   (exists token, reply = token_service.TokenJSON 200 token)).
Proof.
  cbv zeta. unfold token_service.HandleGetToken.
  destruct (String.eqb_spec (TokenRequest.TokenType r) "rtc") as [E | N1].
  { rewrite E. repeat split; try congruence; try discriminate.
    destruct (token_service.GenRtcToken b s r) as [token [e |]]; eauto. }
  destruct (String.eqb_spec (TokenRequest.TokenType r) "rtm") as [E | N2].
  { rewrite E. repeat split; try congruence; try discriminate.
    destruct (token_service.GenRtmToken b s r) as [token [e |]]; eauto. }
  destruct (String.eqb_spec (TokenRequest.TokenType r) "chat") as [E | N3].
  { rewrite E. repeat split; try congruence; try discriminate.
    destruct (token_service.GenChatToken b s r) as [token [e |]]; eauto. }
  repeat split; try contradiction. eauto.
Qed.

Lemma HandleGetToken_replies_witness :
  token_service.HandleGetToken stub_builders
    (token_service.NewTokenService "app" "cert")
    (TokenRequest.mk "RTC" "room" "publisher" "1" 0) =
  token_service.http_Error "Unsupported tokenType" 400.
Proof.
  refine (proj1
    (HandleGetToken_replies stub_builders
       (token_service.NewTokenService "app" "cert")
       (TokenRequest.mk "RTC" "room" "publisher" "1" 0)) _ _ _);
    discriminate.
Defined.

(** ** Comma-separated lists: strings.Split after joining *)

Lemma Split_free (sep : ascii) (x : string) :
  free_of sep x -> validation.Split sep x = [x].
Proof.
  unfold free_of. induction x as [| c x IH]; intros Hf; cbn in *; [reflexivity |].
  destruct (Ascii.eqb_spec c sep) as [-> | _]; [tauto |].
  rewrite IH by tauto. reflexivity.
Qed.

Lemma Split_app (sep : ascii) (x rest : string) :
  free_of sep x ->
  validation.Split sep (x +:+ String sep rest) = x :: validation.Split sep rest.
Proof.
  unfold free_of. induction x as [| c x IH]; intros Hf.
  - rewrite append_nil. cbn. now rewrite Ascii.eqb_refl.
  - rewrite append_cons. cbn in *.
    destruct (Ascii.eqb_spec c sep) as [-> | _]; [tauto |].
    rewrite IH by tauto. reflexivity.
Qed.

(** Splitting what was joined gives the list back, when no item holds the
    separator. *)
Lemma Split_concat (sep : ascii) (l : list string) :
  l <> [] -> Forall (free_of sep) l ->
  validation.Split sep (String.concat (String sep EmptyString) l) = l.
Proof.
  induction l as [| x l IH]; intros Hne Hf; [contradiction |].
  apply Forall_cons in Hf as [Hx Hl]. destruct l as [| y l].
  - cbn. now apply Split_free.
  - change (String.concat (String sep EmptyString) (x :: y :: l))
      with (x +:+ String sep EmptyString +:+
            String.concat (String sep EmptyString) (y :: l)).
    rewrite append_cons, append_nil, Split_app by exact Hx.
    now rewrite IH.
Qed.

Lemma concat_is_star (l : list string) :
  l <> [] -> String.concat "," l = "*" -> l = ["*"].
Proof.
  destruct l as [| x [| y l]]; intros Hne E; [contradiction | now cbn in E; subst |].
  exfalso.
  change (String.concat "," (x :: y :: l))
    with (x +:+ "," +:+ String.concat "," (y :: l)) in E.
  destruct x as [| c [| c' x]]; rewrite ?append_cons, ?append_nil in E;
    discriminate.
Qed.

Lemma existsb_eqb_In (x : string) (l : list string) :
  existsb (fun y => String.eqb x y) l = true <-> In x l.
Proof.
  rewrite existsb_exists. split.
  - intros (y & Hin & E). apply String.eqb_eq in E. now subst.
  - intros Hin. exists x. split; [exact Hin | apply String.eqb_refl].
Qed.

(** ** The CORS middleware *)

(** X15.  With the allowed origins configured as a list joined by commas
    (no item holding a comma), isOriginAllowed accepts exactly the origins
    that are equal, byte for byte, to an item of the list; the one-item
    list "*" accepts every origin.  So nothing is trimmed or folded, and an
    empty setting, which is the list of the empty item, accepts the empty
    origin alone. *)
Theorem isOriginAllowed_list (l : list string) (origin : string) :
  l <> [] ->
  Forall (free_of ","%char) l ->
  http_headers.isOriginAllowed
    (http_headers.NewHttpHeaders (String.concat "," l)) origin = true <->
  l = ["*"] \/ In origin l.
Proof.
  intros Hne Hf. unfold http_headers.isOriginAllowed. cbn [http_headers.AllowOrigin
    http_headers.NewHttpHeaders].
  destruct (String.eqb_spec (String.concat "," l) "*") as [E | N].
  - apply concat_is_star in E; [| exact Hne]. tauto.
  - rewrite (Split_concat ","%char l Hne Hf), existsb_eqb_In.
    split; [tauto |]. intros [-> | H]; [now cbn in N | exact H].
Qed.

Lemma isOriginAllowed_list_witness :
  (http_headers.isOriginAllowed
     (http_headers.NewHttpHeaders "http://example.com,http://allowed.com")
     "http://allowed.com" = true <->
   ["http://example.com"; "http://allowed.com"] = ["*"] \/
   In "http://allowed.com" ["http://example.com"; "http://allowed.com"]) /\
  (http_headers.isOriginAllowed (http_headers.NewHttpHeaders "") "" = true <->
   [""] = ["*"] \/ In "" [""]).
Proof.
  split.
  - refine (isOriginAllowed_list ["http://example.com"; "http://allowed.com"]
              "http://allowed.com" _ _); [discriminate |].
    repeat constructor; unfold free_of; cbn; intros H;
      repeat (destruct H as [H | H]; [discriminate H |]); exact H.
  - refine (isOriginAllowed_list [""] "" _ _); [discriminate |].
    repeat constructor. unfold free_of. cbn. tauto.
Defined.

Example TestIsOriginAllowed :
  let allowed allowOrigin origin :=
    http_headers.isOriginAllowed (http_headers.NewHttpHeaders allowOrigin) origin in
  allowed "*" "http://example.com" = true /\
  allowed "http://example.com" "http://example.com" = true /\
  allowed "http://example.com,http://allowed.com" "http://allowed.com" = true /\
  allowed "http://example.com" "http://not-allowed.com" = false /\
  allowed "http://example.com" "" = false /\
  allowed "http://example.com, http://allowed.com" "http://allowed.com" = false.
Proof. repeat split. Qed.

(** X16.  What CORShttpHeaders does to a response that has no
    Access-Control-Allow-Origin header yet.  For an origin that is not
    allowed: status 403 with the JSON error "Origin not allowed", content
    type application/json, the chain aborted, and still no
    Access-Control-Allow-Origin.  For an allowed origin: the header
    Access-Control-Allow-Origin is the origin of the request itself, never
    the configured "*", and is absent when the request names no origin; an
    OPTIONS request is then answered 204 and the chain aborted, any other
    method goes on to the next handler with nothing written. *)
Theorem CORShttpHeaders_outcomes (m : http_headers.HttpHeaders)
    (c : http_headers.Context) :
  http_headers.ResponseHeader c !! "Access-Control-Allow-Origin" = None ->
  let origin := http_headers.Header_Get "Origin" (http_headers.RequestHeader c) in
  let c' := http_headers.CORShttpHeaders m c in
  let allow_origin :=
    http_headers.ResponseHeader c' !! "Access-Control-Allow-Origin" in
  (http_headers.isOriginAllowed m origin = false ->
   http_headers.Written c' =
     Some (403, Some {[ "error" := AString "Origin not allowed" ]}) /\
   http_headers.Aborted c' = true /\
   http_headers.ResponseHeader c' !! "Content-Type" = Some ["application/json"] /\
   allow_origin = None) /\
  (http_headers.isOriginAllowed m origin = true ->
   allow_origin = (if is_empty origin then None else Some [origin]) /\
   (http_headers.Method c = "OPTIONS" ->
    http_headers.Written c' = Some (204, None) /\
    http_headers.Aborted c' = true) /\
   (http_headers.Method c <> "OPTIONS" ->
    http_headers.Written c' = http_headers.Written c /\
    http_headers.Aborted c' = http_headers.Aborted c)).
Proof.
  intros Hfresh. cbv zeta. unfold http_headers.CORShttpHeaders.
  destruct (http_headers.isOriginAllowed m _) eqn:Ha; cbn [negb]; split;
    try discriminate; intros _.
  - set (origin := http_headers.Header_Get "Origin" (http_headers.RequestHeader c)).
    assert (Hao :
      http_headers.ResponseHeader
        (http_headers.c_Header "Access-Control-Allow-Headers" "Origin, Content-Type"
           (http_headers.c_Header "Access-Control-Allow-Methods"
              "GET, POST, DELETE, PATCH, OPTIONS"
              (http_headers.c_Header "Access-Control-Allow-Origin" origin c)))
        !! "Access-Control-Allow-Origin" =
      (if is_empty origin then None else Some [origin])).
    { cbn. unfold Header_Set, Header in *.
      do 2 rewrite lookup_insert_ne by discriminate.
      destruct (is_empty origin).
      - now rewrite lookup_delete_eq.
      - now rewrite lookup_insert_eq. }
    cbn [http_headers.c_Header http_headers.Method].
    destruct (String.eqb_spec (http_headers.Method c) "OPTIONS") as [E | N].
    + split; [exact Hao |]. split; [now intros _ | contradiction].
    + split; [exact Hao |]. split; [contradiction | now intros _].
  - cbn. unfold Header_Set, Header in *. rewrite lookup_insert_eq.
    split; [reflexivity |]. split; [reflexivity |]. split.
    + apply lookup_insert_eq.
    + rewrite lookup_insert_ne by discriminate. exact Hfresh.
Qed.

Lemma CORShttpHeaders_outcomes_witness :
  let c := {| http_headers.Method := "GET";
              http_headers.RequestHeader := {[ "Origin" := ["http://example.com"] ]};
              http_headers.ResponseHeader := ∅;
              http_headers.Written := None;
              http_headers.Aborted := false |} in
  http_headers.ResponseHeader
    (http_headers.CORShttpHeaders (http_headers.NewHttpHeaders "*") c)
    !! "Access-Control-Allow-Origin" = Some ["http://example.com"].
Proof.
  refine (proj1 (proj2
    (CORShttpHeaders_outcomes (http_headers.NewHttpHeaders "*")
       {| http_headers.Method := "GET";
          http_headers.RequestHeader := {[ "Origin" := ["http://example.com"] ]};
          http_headers.ResponseHeader := ∅;
          http_headers.Written := None;
          http_headers.Aborted := false |} eq_refl) eq_refl)).
Defined.

(** ** The configured modalities *)

Lemma validModalities_true (x : string) :
  default false (validation.validModalities !! x) = true <->
  x = "text" \/ x = "audio".
Proof.
  unfold validation.validModalities. split.
  - destruct (decide (x = "text")) as [-> | Nt]; [now left |].
    destruct (decide (x = "audio")) as [-> | Na]; [now right |].
    rewrite !lookup_insert_ne, lookup_empty by congruence. discriminate.
  - now intros [-> | ->].
Qed.

(** X17.  validateModalities accepts the empty setting, and a non-empty
    setting made of items joined by commas exactly when every item, once
    trimmed, is "text" or "audio": an item that trims to nothing, as after
    a trailing comma, or any other word makes it refuse. *)
Theorem validateModalities_list (TrimSpace : string -> string)
    (l : list string) :
  l <> [] ->
  Forall (free_of ","%char) l ->
  String.concat "," l <> "" ->
  validation.validateModalities TrimSpace EmptyString = true /\
  (validation.validateModalities TrimSpace (String.concat "," l) = true <->
   Forall (fun item => TrimSpace item = "text" \/ TrimSpace item = "audio") l).
Proof.
  intros Hne Hf Hnonempty. split; [reflexivity |].
  unfold validation.validateModalities.
  apply is_empty_false in Hnonempty. rewrite Hnonempty.
  rewrite (Split_concat ","%char l Hne Hf), forallb_forall, Forall_forall.
  split; intros H x Hin.
  - apply validModalities_true, H. now apply list_elem_of_In.
  - apply validModalities_true, H. now apply list_elem_of_In.
Qed.

Lemma validateModalities_list_witness :
  validation.validateModalities (fun x => x) EmptyString = true /\
  (validation.validateModalities (fun x => x) "text,audio" = true <->
   Forall (fun item => item = "text" \/ item = "audio") ["text"; "audio"]).
Proof.
  refine (validateModalities_list (fun x => x) ["text"; "audio"] _ _ _);
    [discriminate | | discriminate].
  repeat constructor; unfold free_of; cbn; intros H;
    repeat (destruct H as [H | H]; [discriminate H |]); exact H.
Defined.

Example validateModalities_trailing_comma :
  validation.validateModalities (fun x => x) "text," = false /\
  validation.validateModalities (fun x => x) "text,video" = false /\
  validation.validateModalities (fun x => x) "audio" = true.
Proof. repeat split. Qed.

(** ** The server as it starts *)

(** What a server that starts has read and checked. *)
Lemma setupServer_Listening (TrimSpace : string -> string)
    (env : gmap string string) (addr : string) (cfg : ConvoAIConfig.t)
    (cors : string) :
  main.setupServer TrimSpace env = main.Listening addr cfg cors ->
  cfg = (main.loadConfig env).1 /\
  validation.ValidateEnvironment TrimSpace cfg = None /\
  addr = ":" +:+ (if is_empty (main.Getenv env "PORT") then "8080"
                  else main.Getenv env "PORT") /\
  cors = main.Getenv env "CORS_ALLOW_ORIGIN".
Proof.
  unfold main.setupServer. cbn [main.loadConfig].
  match goal with
  | |- context [validation.ValidateEnvironment TrimSpace ?c] =>
    destruct (validation.ValidateEnvironment TrimSpace c) eqn:Hv
  end; [discriminate |].
  intros [= <- <- <-]. cbn [fst]. now repeat split.
Qed.

(** X18.  When setupServer has accepted an environment that names the
    Microsoft vendor and leaves MICROSOFT_TTS_RATE or MICROSOFT_TTS_VOLUME
    unset (the startup validation does not look at them), every invite
    that passes the request validation and gets its token from the builder
    is answered 500 with the JSON object whose "error" is "failed to get
    TTS config: missing Microsoft TTS configuration"; the token has been
    asked for, and the agent platform is never called. *)
Theorem server_without_rate (TrimSpace : string -> string)
    (env : gmap string string) (addr : string) (cfg : ConvoAIConfig.t)
    (cors : string) (b : token_service.Builders) (rt : Runtime)
    (req : InviteAgentRequest.t) (token : string) :
  main.setupServer TrimSpace env = main.Listening addr cfg cors ->
  main.Getenv env "TTS_VENDOR" = "microsoft" ->
  main.Getenv env "MICROSOFT_TTS_RATE" = "" \/
  main.Getenv env "MICROSOFT_TTS_VOLUME" = "" ->
  validateInviteRequest (wired_service b cfg) req = None ->
  token_service.BuildTokenWithUid b (ConvoAIConfig.AppID cfg)
    (ConvoAIConfig.AppCertificate cfg) (InviteAgentRequest.ChannelName req)
    0 token_service.RolePublisher 3600 = (token, None) ->
  InviteAgent rt (wired_service b cfg) {| ShouldBindJSON := (req, None) |} =
  (Ret (JSON_H StatusInternalServerError
          {[ "error" :=
               AString "failed to get TTS config: missing Microsoft TTS configuration" ]}),
   [EvGenRtcToken (tokenReq req)]).
Proof.
  intros Hstart Hvendor Hunset Hvalid Htoken.
  apply setupServer_Listening in Hstart as (Hcfg & _ & _ & _).
  assert (Hv : ConvoAIConfig.TTSVendor (config (wired_service b cfg)) = "microsoft")
    by (subst cfg; exact Hvendor).
  assert (Hg : GenRtcToken (tokenService (wired_service b cfg)) (tokenReq req) =
               (token, None)).
  { pose proof (proj1 (validateInviteRequest_None _ _) Hvalid) as (_ & Hc & _).
    apply is_empty_false in Hc.
    cbn [wired_service tokenService token_service.generator GenRtcToken].
    unfold token_service.GenRtcToken. cbn [tokenReq TokenRequest.Channel].
    rewrite Hc. exact Htoken. }
  assert (Ht : getTTSConfig rt (wired_service b cfg) =
               (None, Some "missing Microsoft TTS configuration")).
  { destruct (ConvoAIConfig.MicrosoftTTS (config (wired_service b cfg)))
      as [ms |] eqn:Hms.
    - apply (tts_microsoft_empty rt _ Hv ms Hms).
      assert (Hrate : MicrosoftTTSConfig.Rate ms = main.Getenv env "MICROSOFT_TTS_RATE" /\
                      MicrosoftTTSConfig.Volume ms =
                        main.Getenv env "MICROSOFT_TTS_VOLUME").
      { subst cfg. cbn in Hms.
        destruct (negb (is_empty (main.Getenv env "MICROSOFT_TTS_KEY")));
          [| discriminate].
        injection Hms as <-. now split. }
      destruct Hrate as [Hr Hvol]. unfold microsoft_complete.
      rewrite Hr, Hvol. tauto.
    - now apply tts_microsoft_nil. }
  unfold InviteAgent. cbn [ShouldBindJSON]. rewrite Hvalid.
  rewrite (HandleInviteAgent_build_error rt _ req _ _
             (build_tts_error rt _ req token _ Hg Ht)).
  reflexivity.
Qed.

Lemma server_without_rate_witness :
  InviteAgent fixtures.testRuntime
    (wired_service stub_builders (main.loadConfig env_without_rate).1)
    {| ShouldBindJSON :=
         (fixtures.testInvite "user-7" "test-channel" None None, None) |} =
  (Ret (JSON_H StatusInternalServerError
          {[ "error" :=
               AString "failed to get TTS config: missing Microsoft TTS configuration" ]}),
   [EvGenRtcToken
      (tokenReq (fixtures.testInvite "user-7" "test-channel" None None))]).
Proof.
  refine (server_without_rate (fun s => s) env_without_rate ":8080"
            (main.loadConfig env_without_rate).1 EmptyString stub_builders
            fixtures.testRuntime
            (fixtures.testInvite "user-7" "test-channel" None None)
            "uid-token:test-channel:0:3600" _ _ _ _ _).
  - vm_compute. reflexivity.
  - vm_compute. reflexivity.
  - left. vm_compute. reflexivity.
  - vm_compute. reflexivity.
  - vm_compute. reflexivity.
Defined.

(** ** The credentials in the Authorization value *)

Lemma string_ind3 (P : string -> Prop) :
  P EmptyString ->
  (forall a, P (String a EmptyString)) ->
  (forall a b, P (String a (String b EmptyString))) ->
  (forall a b c rest, P rest -> P (String a (String b (String c rest)))) ->
  forall s, P s.
Proof.
  intros H0 H1 H2 H3 s.
  enough (P s /\ (forall a, P (String a s)) /\
          (forall a b, P (String a (String b s)))) by tauto.
  induction s as [| x s (IH0 & IH1 & IH2)].
  - now repeat split.
  - split; [apply IH1 |]. split; [intro a; apply IH2 |].
    intros a b. now apply H3.
Qed.

Lemma sextet_enc_nat (n : nat) :
  (n < 64)%nat ->
  sextet (default "="%char (String.get n base64.encodeStd)) = Z.of_nat n /\
  Ascii.eqb (default "="%char (String.get n base64.encodeStd)) base64.pad = false.
Proof.
  intros Hn. do 64 (destruct n as [| n]; [split; reflexivity |]). lia.
Qed.

Lemma sextet_enc (i : Z) :
  0 <= i -> sextet (base64.enc i) = i mod 64.
Proof.
  intros Hi. unfold base64.enc.
  change 63 with (Z.ones 6). rewrite Z.land_ones by lia. change (2 ^ 6) with 64.
  assert (Hj : 0 <= i mod 64 < 64) by mod_lia.
  destruct (sextet_enc_nat (Z.to_nat (i mod 64))) as [-> _]; lia.
Qed.

Lemma enc_not_pad (i : Z) :
  0 <= i -> Ascii.eqb (base64.enc i) base64.pad = false.
Proof.
  intros Hi. unfold base64.enc.
  change 63 with (Z.ones 6). rewrite Z.land_ones by lia. change (2 ^ 6) with 64.
  assert (Hj : 0 <= i mod 64 < 64) by mod_lia.
  destruct (sextet_enc_nat (Z.to_nat (i mod 64))) as [_ ->]; [lia | reflexivity].
Qed.

Lemma sextet_pad : sextet base64.pad = 0.
Proof. reflexivity. Qed.

Lemma byte_of_val (c : ascii) : byte_of (byte_val c) = c.
Proof.
  unfold byte_of, byte_val. rewrite N2Z.id. apply Ascii.ascii_N_embedding.
Qed.

(** Bits that do not overlap add up. *)
Lemma lor_shiftl_add (x y n : Z) :
  0 <= n -> 0 <= y < 2 ^ n -> Z.lor (Z.shiftl x n) y = x * 2 ^ n + y.
Proof.
  intros Hn Hy. rewrite <- Z.shiftl_mul_pow2 by lia.
  assert (Hland : Z.land (Z.shiftl x n) y = 0).
  { apply Z.bits_inj'. intros k Hk. rewrite Z.land_spec, Z.bits_0.
    destruct (Z_lt_le_dec k n) as [Hlt | Hge].
    - rewrite Z.shiftl_spec_low by lia. reflexivity.
    - destruct (Z.eq_dec y 0) as [-> | Hy0].
      + rewrite Z.bits_0. apply andb_false_r.
      + rewrite (Z.bits_above_log2 y k); [apply andb_false_r | lia |].
        apply Z.log2_lt_pow2; [lia |].
        apply Z.lt_le_trans with (2 ^ n); [lia |].
        apply Z.pow_le_mono_r; lia. }
  rewrite <- (Z.lxor_lor _ _ Hland). symmetry. now apply Z.add_nocarry_lxor.
Qed.

Lemma group_value (a b c : Z) :
  0 <= b < 256 -> 0 <= c < 256 ->
  Z.lor (Z.shiftl a 16) (Z.lor (Z.shiftl b 8) c) = a * 65536 + b * 256 + c.
Proof.
  intros Hb Hc.
  rewrite (lor_shiftl_add b c 8) by (cbn; lia).
  rewrite (lor_shiftl_add a _ 16) by (cbn; lia).
  cbn. lia.
Qed.

Lemma sextets_value (v : Z) :
  0 <= v < 16777216 ->
  sextet (base64.enc (Z.shiftr v 18)) * 262144 +
  sextet (base64.enc (Z.shiftr v 12)) * 4096 +
  sextet (base64.enc (Z.shiftr v 6)) * 64 + sextet (base64.enc v) = v.
Proof.
  intros Hv. rewrite !Z.shiftr_div_pow2 by lia.
  change (2 ^ 18) with 262144. change (2 ^ 12) with 4096. change (2 ^ 6) with 64.
  rewrite !sextet_enc by mod_lia. mod_lia.
Qed.

(** Reading back what the encoder wrote gives the bytes encoded. *)
Lemma read_EncodeToString (s : string) :
  read_base64 (base64.EncodeToString s) = s.
Proof.
  induction s as [| a | a b | a b c rest IH] using string_ind3.
  - reflexivity.
  - pose proof (byte_val_bounds a) as Ha.
    cbn [base64.EncodeToString read_base64].
    rewrite Ascii.eqb_refl, sextet_pad.
    pose proof (sextets_value (Z.shiftl (byte_val a) 16)) as Hs.
    rewrite Z.shiftl_mul_pow2 in * by lia. change (2 ^ 16) with 65536 in *.
    assert (E6 : sextet (base64.enc (Z.shiftr (byte_val a * 65536) 6)) = 0).
    { rewrite Z.shiftr_div_pow2, sextet_enc by mod_lia.
      change (2 ^ 6) with 64. mod_lia. }
    assert (E0 : sextet (base64.enc (byte_val a * 65536)) = 0).
    { rewrite sextet_enc by lia. mod_lia. }
    rewrite E6, E0 in Hs.
    replace (_ / 65536) with (byte_val a) by (specialize (Hs ltac:(lia)); mod_lia).
    now rewrite byte_of_val.
  - pose proof (byte_val_bounds a) as Ha. pose proof (byte_val_bounds b) as Hb.
    cbn [base64.EncodeToString read_base64].
    rewrite Ascii.eqb_refl, sextet_pad.
    assert (Ev : Z.lor (Z.shiftl (byte_val a) 16) (Z.shiftl (byte_val b) 8) =
                 byte_val a * 65536 + byte_val b * 256).
    { rewrite <- (Z.lor_0_r (Z.shiftl (byte_val b) 8)).
      rewrite group_value by lia. lia. }
    rewrite Ev.
    pose proof (sextets_value (byte_val a * 65536 + byte_val b * 256)) as Hs.
    assert (E0 : sextet (base64.enc (byte_val a * 65536 + byte_val b * 256)) =
                 (byte_val b * 256) mod 64).
    { rewrite sextet_enc by lia. mod_lia. }
    rewrite enc_not_pad by (rewrite Z.shiftr_div_pow2 by lia; mod_lia).
    set (w := _ + sextet _ * 64 + 0).
    assert (Hw : w = byte_val a * 65536 + byte_val b * 256).
    { subst w. specialize (Hs ltac:(lia)). rewrite E0 in Hs. mod_lia. }
    rewrite Hw.
    replace (_ / 65536) with (byte_val a) by mod_lia.
    replace (_ / 256 mod 256) with (byte_val b) by mod_lia.
    now rewrite !byte_of_val.
  - pose proof (byte_val_bounds a) as Ha. pose proof (byte_val_bounds b) as Hb.
    pose proof (byte_val_bounds c) as Hc.
    cbn [base64.EncodeToString read_base64]. rewrite IH.
    rewrite group_value by lia.
    rewrite !enc_not_pad by (rewrite ?Z.shiftr_div_pow2 by lia; mod_lia).
    rewrite sextets_value by lia.
    replace (_ / 65536) with (byte_val a) by mod_lia.
    replace (_ / 256 mod 256) with (byte_val b) by mod_lia.
    replace (_ mod 256) with (byte_val c) by mod_lia.
    now rewrite !byte_of_val.
Qed.

Lemma EncodeToString_inj (s t : string) :
  base64.EncodeToString s = base64.EncodeToString t -> s = t.
Proof.
  intros E. rewrite <- (read_EncodeToString s), <- (read_EncodeToString t).
  now rewrite E.
Qed.

(** Where the first separator stands decides both sides. *)
Lemma split_at_first (sep : ascii) (a b c d : string) :
  free_of sep a -> free_of sep c ->
  a +:+ String sep b = c +:+ String sep d -> a = c /\ b = d.
Proof.
  unfold free_of. revert c.
  induction a as [| x a IH]; intros [| y c] Ha Hc E;
    rewrite ?append_cons, ?append_nil in E.
  - injection E as ->. now split.
  - injection E as <- _. exfalso. apply Hc. now left.
  - injection E as -> _. exfalso. apply Ha. now left.
  - injection E as -> E.
    destruct (IH c) as [-> ->]; [| | exact E | now split].
    + intros Hin. apply Ha. now right.
    + intros Hin. apply Hc. now right.
Qed.

(** X19.  The Authorization value of getBasicAuth determines the
    credentials: two services with the same value have the same
    "id:secret" text, and when neither customer ID holds a colon they have
    the same customer ID and the same secret. *)
Theorem getBasicAuth_injective (s1 s2 : ConvoAIService) :
  getBasicAuth s1 = getBasicAuth s2 ->
  ConvoAIConfig.CustomerID (config s1) +:+ ":" +:+
    ConvoAIConfig.CustomerSecret (config s1) =
  ConvoAIConfig.CustomerID (config s2) +:+ ":" +:+
    ConvoAIConfig.CustomerSecret (config s2) /\
  (free_of ":" (ConvoAIConfig.CustomerID (config s1)) ->
   free_of ":" (ConvoAIConfig.CustomerID (config s2)) ->
   ConvoAIConfig.CustomerID (config s1) = ConvoAIConfig.CustomerID (config s2) /\
   ConvoAIConfig.CustomerSecret (config s1) =
     ConvoAIConfig.CustomerSecret (config s2)).
Proof.
  unfold getBasicAuth. intros E.
  rewrite !append_cons, !append_nil in E.
  injection E as E. apply EncodeToString_inj in E.
  split; [exact E |].
  intros H1 H2. now apply (split_at_first ":" _ _ _ _ H1 H2).
Qed.

Lemma getBasicAuth_injective_witness :
  ConvoAIConfig.CustomerID (config fixtures.NewTestConvoAIService) =
    ConvoAIConfig.CustomerID
      (config (wired_service stub_builders (config fixtures.NewTestConvoAIService))) /\
  ConvoAIConfig.CustomerSecret (config fixtures.NewTestConvoAIService) =
    ConvoAIConfig.CustomerSecret
      (config (wired_service stub_builders (config fixtures.NewTestConvoAIService))).
Proof.
  refine (proj2 (getBasicAuth_injective fixtures.NewTestConvoAIService
                   (wired_service stub_builders
                      (config fixtures.NewTestConvoAIService)) eq_refl) _ _).
  - unfold free_of. cbn. intuition discriminate.
  - unfold free_of. cbn. intuition discriminate.
Defined.
